(** * ARTIQSeq1: detection-gated attempt sequencer with chunked acquisition

    A shallow embedding of the ARTIQ experiment classes of the repository

    - [Seq5]  FullExperimentSequence16 (src/Seq5.py): stop on first detection;
    - [Seq6]  FullExperimentSequence17 (src/Seq6.py): the same, with the MOT load
              wait moved to the host and an HDF5 file flushed once per chunk;
    - [Seq7]  FullExperimentSequence21 (src/Seq7.py): exhaust every attempt;
    - [Seq2]  FullExperimentSequence13 (src/Seq2.py): fixed repetitions, one time
              tag per repetition and channel, written to a CSV file.

    A kernel is a computation in a state-and-exception monad over the device
    state: the timeline cursor ([now_mu]), the log of the operations the kernel
    has issued, each stamped with the cursor it was issued at, and the arrays of
    the experiment object that the kernel shares with the host.  What the
    hardware answers is an input of the model: [gate_in] gives the two
    timestamps read after the n-th pair of gate windows of a kernel run, and
    [rtio_counter] the hardware counter read when the n-th operation is issued.

    Conventions.  Durations and timestamps are in machine units of 1 ns, as
    integers ([Z]); frequencies are in MHz and amplitudes in tenths.  Python
    integers are unbounded ([Z], and [nat] for the counters that index arrays);
    the arrays are the int64 arrays of the source, lists of [Z].  An index
    outside an array raises [IndexError], as in the kernel and in numpy. *)

From stdpp Require Import gmap strings list pretty.
From Stdlib Require Import ZArith Lia.

Set Default Proof Using "Type".

(** ** Devices and operations *)

Inductive Ttl := ttl0 | ttl1 | ttl4 | ttl5 | ttl6 | ttl7.

Inductive Urukul := urukul0_ch0 | urukul0_ch1 | urukul0_ch2 | urukul0_ch3.

(** What a kernel can issue.  [HostMotLoadWait] is the synchronous RPC
    [host_mot_load_wait]; its argument is in milliseconds. *)
Inductive Action :=
| CoreReset
| BreakRealtime
| TtlInput (c : Ttl)
| TtlOutput (c : Ttl)
| TtlOn (c : Ttl)
| TtlOff (c : Ttl)
| GateRising (c : Ttl) (duration : Z)
| DdsSet (d : Urukul) (mhz : Z)
| DdsSetAmplitude (d : Urukul) (tenths : Z)
| SwOn (d : Urukul)
| SwOff (d : Urukul)
| HostMotLoadWait (millis : Z).

Global Instance Ttl_eq_dec : EqDecision Ttl.
Proof. solve_decision. Defined.

Global Instance Urukul_eq_dec : EqDecision Urukul.
Proof. solve_decision. Defined.

Global Instance Action_eq_dec : EqDecision Action.
Proof. solve_decision. Defined.

Definition ns : Z := 1.
Definition us : Z := 1000.
Definition ms : Z := 1000000.
Definition MHz : Z := 1.

(** The slack [core.break_realtime] and [core.reset] put between the hardware
    counter and the cursor (125000 machine units in ARTIQ). *)
Definition slack_mu : Z := 125000.

(** The inputs of one kernel run. *)
Record Env := mkEnv {
  gate_in : nat → Z * Z;
  rtio_counter : nat → Z
}.

Inductive Exn := IndexError | ValueError.

(** The attributes set in [build]. *)
Record Config := mkConfig {
  num_big_cycles_chunk : nat;
  num_chunks : nat;
  num_cooling_cycles : nat;
  attempts_per_cooling : nat
}.

(** ** The kernel monad *)

Section Kernel.
Context {Mem : Type}.

(** [attempts_seen] is instrumentation: the value of the attempt counter at
    each attempt the kernel has run, in order.  Its length is the number of
    gate-window pairs read so far, the index of the next [gate_in]. *)
Record State := mkState {
  now : Z;
  actions : list (Z * Action);
  attempts_seen : list Z;
  mem : Mem
}.

Inductive Result (A : Type) :=
| Ok (a : A) (s : State)
| Raise (e : Exn) (s : State).
Global Arguments Ok {A} a s.
Global Arguments Raise {A} e s.

Definition K (A : Type) : Type := State → Result A.

Definition ret {A} (a : A) : K A := λ s, Ok a s.

Definition bind {A B} (c : K A) (k : A → K B) : K B :=
  λ s, match c s with
       | Ok a s' => k a s'
       | Raise e s' => Raise e s'
       end.

Definition final {A} (r : Result A) : State :=
  match r with Ok _ s => s | Raise _ s => s end.

Definition operations (s : State) : list Action := (actions s).*2.

Variable E : Env.

(** *** Timeline *)

Definition emit (a : Action) : K unit :=
  λ s, Ok tt (mkState (now s) (actions s ++ [(now s, a)]) (attempts_seen s) (mem s)).

Definition delay (d : Z) : K unit :=
  λ s, Ok tt (mkState (now s + d)%Z (actions s) (attempts_seen s) (mem s)).

Definition now_mu : K Z := λ s, Ok (now s) s.

Definition at_mu (t : Z) : K unit :=
  λ s, Ok tt (mkState t (actions s) (attempts_seen s) (mem s)).

(** [core.break_realtime()]: move the cursor to the hardware counter plus the
    slack, unless it is already beyond. *)
Definition resync_time (cursor : Z) (issued : nat) : Z :=
  let min_now := (rtio_counter E issued + slack_mu)%Z in
  if decide (cursor < min_now)%Z then min_now else cursor.

Definition break_realtime : K unit :=
  λ s, let t := resync_time (now s) (length (actions s)) in
       Ok tt (mkState t (actions s ++ [(t, BreakRealtime)]) (attempts_seen s) (mem s)).

(** [core.reset()]: clear the RTIO state and place the cursor at the
    hardware counter plus the slack. *)
Definition reset_time (issued : nat) : Z := (rtio_counter E issued + slack_mu)%Z.

Definition core_reset : K unit :=
  λ s, let t := reset_time (length (actions s)) in
       Ok tt (mkState t (actions s ++ [(t, CoreReset)]) (attempts_seen s) (mem s)).

(** [with parallel: a; b]: both start at the current cursor; the cursor ends
    at the later of the two ends. *)
Definition parallel {A B} (a : K A) (b : K B) : K (A * B) :=
  bind now_mu (λ t0,
  bind a (λ x,
  bind now_mu (λ ta,
  bind (at_mu t0) (λ _,
  bind b (λ y,
  bind now_mu (λ tb,
  bind (at_mu (Z.max ta tb)) (λ _,
  ret (x, y)))))))).

(** *** Channel drivers *)

Definition ttl_input (c : Ttl) : K unit := emit (TtlInput c).
Definition ttl_output (c : Ttl) : K unit := emit (TtlOutput c).
Definition ttl_on (c : Ttl) : K unit := emit (TtlOn c).
Definition ttl_off (c : Ttl) : K unit := emit (TtlOff c).

Definition ttl_pulse (c : Ttl) (d : Z) : K unit :=
  bind (ttl_on c) (λ _, bind (delay d) (λ _, ttl_off c)).

Definition dds_set (d : Urukul) (f : Z) : K unit := emit (DdsSet d f).
Definition dds_set_amplitude (d : Urukul) (a : Z) : K unit := emit (DdsSetAmplitude d a).
Definition sw_on (d : Urukul) : K unit := emit (SwOn d).
Definition sw_off (d : Urukul) : K unit := emit (SwOff d).

Definition sw_pulse (d : Urukul) (t : Z) : K unit :=
  bind (sw_on d) (λ _, bind (delay t) (λ _, sw_off d)).

(** [gate_rising(d)]: open the gate at the cursor, advance by [d], return the
    cursor, the end of the window. *)
Definition gate_rising (c : Ttl) (d : Z) : K Z :=
  bind (emit (GateRising c d)) (λ _, bind (delay d) (λ _, now_mu)).

(** [timestamp_mu(tend)] on [ttl0] and on [ttl1]: the timestamp of the first
    edge of the window that has just closed, or -1. *)
Definition timestamp_mu (c : Ttl) (tend : Z) : K Z :=
  λ s, let r := gate_in E (length (attempts_seen s)) in
       Ok (match c with ttl0 => r.1 | _ => r.2 end) s.

(** Instrumentation: the attempt whose windows have been read carried the
    attempt counter [idx]. *)
Definition attempt_seen (idx : Z) : K unit :=
  λ s, Ok tt (mkState (now s) (actions s) (attempts_seen s ++ [idx]) (mem s)).

(** [host_mot_load_wait(seconds)], a synchronous RPC: the cursor stays where
    it is while the host sleeps. *)
Definition host_mot_load_wait (millis : Z) : K unit := emit (HostMotLoadWait millis).

(** *** Shared memory *)

Definition get_mem : K Mem := λ s, Ok (mem s) s.

Definition put_mem (m : Mem) : K unit :=
  λ s, Ok tt (mkState (now s) (actions s) (attempts_seen s) m).

Definition raise {A} (e : Exn) : K A := λ s, Raise e s.

(** *** Loops *)

Inductive Flow := Next | Break.

(** [for i in range(lo, lo + n): body], with [break]. *)
Fixpoint for_range_from {L} (lo n : nat) (body : nat → L → K (Flow * L)) (l : L) : K L :=
  match n with
  | O => ret l
  | S n' =>
      bind (body lo l) (λ r,
        match r.1 with
        | Break => ret r.2
        | Next => for_range_from (S lo) n' body r.2
        end)
  end.

Definition for_range {L} (n : nat) (body : nat → L → K (Flow * L)) (l : L) : K L :=
  for_range_from 0 n body l.

End Kernel.

Global Arguments State : clear implicits.
Global Arguments Result : clear implicits.
Global Arguments K : clear implicits.

Declare Scope kernel_scope.
Delimit Scope kernel_scope with kernel.
Notation "'let*' x := c 'in' k" := (bind c (λ x, k))
  (at level 10, x pattern, c at level 200, k at level 200) : kernel_scope.
Notation "c >>> k" := (bind c (λ _, k))
  (at level 100, k at level 200, right associativity) : kernel_scope.

(** [a[i] = v] on an array: [IndexError] outside the array. *)
Definition setitem (a : list Z) (i : nat) (v : Z) : option (list Z) :=
  if decide (i < length a) then Some (<[i:=v]> a) else None.

(** [np.zeros(n, dtype=np.int64)]. *)
Definition np_zeros (n : nat) : list Z := replicate n 0%Z.

(** [a[:n]]. *)
Definition slice_to (a : list Z) (n : nat) : list Z := take n a.

(** ** The host side *)

(** How a host method ends: normally, or by an exception that nothing
    catches. *)
Inductive HostResult (H : Type) :=
| Done (h : H)
| Failed (e : Exn) (h : H).
Global Arguments Done {H} h.
Global Arguments Failed {H} e h.

Definition host_final {H} (r : HostResult H) : H :=
  match r with Done h => h | Failed _ h => h end.

(** [for chunk_idx in range(lo, lo + n): body] on the host; an exception ends
    the loop. *)
Fixpoint host_for_range_from {H} (lo n : nat) (body : nat → H → HostResult H) (h : H)
  : HostResult H :=
  match n with
  | O => Done h
  | S n' =>
      match body lo h with
      | Done h' => host_for_range_from (S lo) n' body h'
      | Failed e h' => Failed e h'
      end
  end.

(** The dataset manager of [set_dataset]: dataset name to value. *)
Abbreviation Datasets := (gmap string (list Z)).

(** [f"{name}_chunk_{chunk_idx}"]. *)
Definition chunk_key (name : string) (chunk_idx : nat) : string :=
  name +:+ "_chunk_" +:+ pretty chunk_idx.

(** The kernel of a chunk starts on a fresh timeline and shares the arrays of
    the object. *)
Definition kernel_start {Mem} (m : Mem) : State Mem := mkState 0 [] [] m.

(** ** FullExperimentSequence21 (src/Seq7.py): every attempt is run *)

Module Seq7.

(** The arrays [run] allocates on the object before each chunk. *)
Record Memory := mkMemory {
  ttl0_detected_times : list Z;
  ttl0_detected_attempts : list Z;
  ttl1_detected_times : list Z;
  ttl1_detected_attempts : list Z
}.

(** The local counters of [run_chunk_experiment]. *)
Record Locals := mkLocals {
  attempt_index : Z;
  ttl0_detected_count : nat;
  ttl1_detected_count : nat
}.

Definition build : Config :=
  {| num_big_cycles_chunk := 80; num_chunks := 1;
     num_cooling_cycles := 100; attempts_per_cooling := 50 |}.

Definition mot_load_time : Z := 500 * ms.
Definition atom_load_time : Z := 100 * ms.
Definition optical_pump_time : Z := 10 * us.
Definition excitation_time : Z := 50 * ns.
Definition pulse_width : Z := 50 * ns.
Definition gate_rising_time : Z := 100 * ns.
Definition small_delay : Z := 1 * us.

Section WithEnv.
Variable E : Env.
Variable cfg : Config.

Local Open Scope kernel_scope.

(** [self.ttl0_detected_times[i] = v] and its three siblings. *)
Definition set_ttl0_detected_times (i : nat) (v : Z) : K Memory unit :=
  let* m := get_mem in
  match setitem (ttl0_detected_times m) i v with
  | Some a => put_mem (mkMemory a (ttl0_detected_attempts m)
                         (ttl1_detected_times m) (ttl1_detected_attempts m))
  | None => raise IndexError
  end.

Definition set_ttl0_detected_attempts (i : nat) (v : Z) : K Memory unit :=
  let* m := get_mem in
  match setitem (ttl0_detected_attempts m) i v with
  | Some a => put_mem (mkMemory (ttl0_detected_times m) a
                         (ttl1_detected_times m) (ttl1_detected_attempts m))
  | None => raise IndexError
  end.

Definition set_ttl1_detected_times (i : nat) (v : Z) : K Memory unit :=
  let* m := get_mem in
  match setitem (ttl1_detected_times m) i v with
  | Some a => put_mem (mkMemory (ttl0_detected_times m) (ttl0_detected_attempts m)
                         a (ttl1_detected_attempts m))
  | None => raise IndexError
  end.

Definition set_ttl1_detected_attempts (i : nat) (v : Z) : K Memory unit :=
  let* m := get_mem in
  match setitem (ttl1_detected_attempts m) i v with
  | Some a => put_mem (mkMemory (ttl0_detected_times m) (ttl0_detected_attempts m)
                         (ttl1_detected_times m) a)
  | None => raise IndexError
  end.

(** Lines 126-163: MOT on, host-side wait, MOT off, atom load, pump DDS on. *)
Definition load_phase : K Memory unit :=
  break_realtime E >>>
  ttl_on ttl4 >>>
  ttl_on ttl5 >>>
  ttl_on ttl6 >>>
  dds_set urukul0_ch0 (100 * MHz) >>>
  dds_set_amplitude urukul0_ch0 8 >>>
  sw_on urukul0_ch0 >>>
  dds_set urukul0_ch1 (80 * MHz) >>>
  dds_set_amplitude urukul0_ch1 5 >>>
  sw_on urukul0_ch1 >>>
  break_realtime E >>>
  host_mot_load_wait 500 >>>
  break_realtime E >>>
  sw_off urukul0_ch0 >>>
  sw_off urukul0_ch1 >>>
  ttl_off ttl4 >>>
  ttl_off ttl5 >>>
  ttl_off ttl6 >>>
  dds_set urukul0_ch2 (120 * MHz) >>>
  dds_set_amplitude urukul0_ch2 7 >>>
  sw_on urukul0_ch2 >>>
  delay atom_load_time >>>
  sw_off urukul0_ch2 >>>
  dds_set urukul0_ch3 (90 * MHz) >>>
  dds_set_amplitude urukul0_ch3 6 >>>
  sw_on urukul0_ch3.

(** Lines 169-187: pump, excite, reference pulse, the two gates in
    parallel, and the two timestamps. *)
Definition excite_and_detect (idx : Z) : K Memory (Z * Z) :=
  delay (5 * us) >>>
  sw_pulse urukul0_ch3 optical_pump_time >>>
  delay small_delay >>>
  sw_pulse urukul0_ch3 excitation_time >>>
  delay small_delay >>>
  ttl_pulse ttl7 pulse_width >>>
  let* tend := parallel (gate_rising ttl0 gate_rising_time)
                        (gate_rising ttl1 gate_rising_time) in
  let* ttl_time0 := timestamp_mu E ttl0 tend.1 in
  let* ttl_time1 := timestamp_mu E ttl1 tend.2 in
  attempt_seen idx >>>
  ret (ttl_time0, ttl_time1).

(** Lines 168-200: the body of [for rep in range(self.attempts_per_cooling)]. *)
Definition attempt (rep : nat) (l : Locals) : K Memory (Flow * Locals) :=
  let* stamps := excite_and_detect (attempt_index l) in
  let ttl_time0 := stamps.1 in
  let ttl_time1 := stamps.2 in
  let* l :=
    (if decide (ttl_time0 ≠ -1)%Z then
       set_ttl0_detected_times (ttl0_detected_count l) ttl_time0 >>>
       set_ttl0_detected_attempts (ttl0_detected_count l) (attempt_index l) >>>
       ret (mkLocals (attempt_index l) (ttl0_detected_count l + 1) (ttl1_detected_count l))
     else ret l) in
  let* l :=
    (if decide (ttl_time1 ≠ -1)%Z then
       set_ttl1_detected_times (ttl1_detected_count l) ttl_time1 >>>
       set_ttl1_detected_attempts (ttl1_detected_count l) (attempt_index l) >>>
       ret (mkLocals (attempt_index l) (ttl0_detected_count l) (ttl1_detected_count l + 1))
     else ret l) in
  ret (Next, mkLocals (attempt_index l + 1) (ttl0_detected_count l) (ttl1_detected_count l)).

(** Lines 203-217: the short cooling after the attempts of a cycle. *)
Definition cooling : K Memory unit :=
  delay (12 * us) >>>
  dds_set urukul0_ch0 (50 * MHz) >>>
  dds_set_amplitude urukul0_ch0 5 >>>
  sw_on urukul0_ch0 >>>
  delay (12 * us) >>>
  dds_set urukul0_ch1 (60 * MHz) >>>
  dds_set_amplitude urukul0_ch1 5 >>>
  sw_on urukul0_ch1 >>>
  sw_off urukul0_ch0 >>>
  sw_off urukul0_ch1.

(** Lines 166-217: the body of [for cycle_idx in range(self.num_cooling_cycles)]. *)
Definition cooling_cycle (cycle_idx : nat) (l : Locals) : K Memory (Flow * Locals) :=
  let* l := for_range (attempts_per_cooling cfg) attempt l in
  cooling >>>
  ret (Next, l).

(** Lines 123-220: the body of [for big_cycle_idx in range(self.num_big_cycles_chunk)]. *)
Definition big_cycle (big_cycle_idx : nat) (l : Locals) : K Memory (Flow * Locals) :=
  load_phase >>>
  let* l := for_range (num_cooling_cycles cfg) cooling_cycle l in
  break_realtime E >>>
  ret (Next, l).

(** [run_chunk_experiment]: returns the two detection counts. *)
Definition run_chunk_experiment (chunk_idx : nat) : K Memory (nat * nat) :=
  core_reset E >>>
  ttl_input ttl0 >>>
  ttl_input ttl1 >>>
  ttl_output ttl4 >>>
  ttl_output ttl7 >>>
  let l := mkLocals 0 0 0 in
  let* l := for_range (num_big_cycles_chunk cfg) big_cycle l in
  ret (ttl0_detected_count l, ttl1_detected_count l).

(** Lines 236-244 of [run]: the arrays of one chunk. *)
Definition chunk_max : nat :=
  num_big_cycles_chunk cfg * num_cooling_cycles cfg * 10.

Definition alloc (n : nat) : Memory :=
  mkMemory (np_zeros n) (np_zeros n) (np_zeros n) (np_zeros n).

End WithEnv.

(** The host object between kernel runs: the arrays and the dataset manager. *)
Record Host := mkHost {
  arrays : Memory;
  datasets : Datasets
}.

(** [retrieve_ttl0_detections] and [retrieve_ttl1_detections]: the whole
    arrays, as lists. *)
Definition retrieve_ttl0_detections (h : Host) : list Z * list Z :=
  (ttl0_detected_times (arrays h), ttl0_detected_attempts (arrays h)).

Definition retrieve_ttl1_detections (h : Host) : list Z * list Z :=
  (ttl1_detected_times (arrays h), ttl1_detected_attempts (arrays h)).

Definition set_dataset (key : string) (value : list Z) (h : Host) : Host :=
  mkHost (arrays h) (<[key := value]> (datasets h)).

(** Lines 233-271: the body of [for chunk_idx in range(self.num_chunks)];
    [envs chunk_idx] is what the hardware answers during that chunk. *)
Definition run_chunk (envs : nat → Env) (cfg : Config) (chunk_idx : nat) (h : Host)
  : HostResult Host :=
  let h := mkHost (alloc (chunk_max cfg)) (datasets h) in
  match run_chunk_experiment (envs chunk_idx) cfg chunk_idx (kernel_start (arrays h)) with
  | Raise e s => Failed e (mkHost (mem s) (datasets h))
  | Ok counts s =>
      let ttl0_count := counts.1 in
      let ttl1_count := counts.2 in
      let h := mkHost (mem s) (datasets h) in
      let ttl0_raw := retrieve_ttl0_detections h in
      let ttl1_raw := retrieve_ttl1_detections h in
      let used_ttl0_times := slice_to ttl0_raw.1 ttl0_count in
      let used_ttl0_attempts := slice_to ttl0_raw.2 ttl0_count in
      let used_ttl1_times := slice_to ttl1_raw.1 ttl1_count in
      let used_ttl1_attempts := slice_to ttl1_raw.2 ttl1_count in
      let h := set_dataset (chunk_key "ttl0_detected_times" chunk_idx) used_ttl0_times h in
      let h := set_dataset (chunk_key "ttl0_detected_attempts" chunk_idx) used_ttl0_attempts h in
      let h := set_dataset (chunk_key "ttl1_detected_times" chunk_idx) used_ttl1_times h in
      let h := set_dataset (chunk_key "ttl1_detected_attempts" chunk_idx) used_ttl1_attempts h in
      Done h
  end.

Definition run (envs : nat → Env) (cfg : Config) (h : Host) : HostResult Host :=
  host_for_range_from 0 (num_chunks cfg) (run_chunk envs cfg) h.

End Seq7.



(** ** FullExperimentSequence16 and 17 (src/Seq5.py, src/Seq6.py): stop on the
       first detection

    The two classes have the same arrays, the same local counters and, line
    for line, the same attempt loop, cooling and end of big cycle; they differ
    in the MOT load phase and in [run].  [Gated] holds what they share, over
    the load phase; [Seq5] and [Seq6] instantiate it. *)

Module Gated.

(** The arrays [run] allocates on the object before each chunk. *)
Record Memory := mkMemory {
  ttl0_detected_times : list Z;
  ttl0_detected_attempts : list Z;
  ttl1_detected_times : list Z;
  ttl1_detected_attempts : list Z;
  atom_tomo_times : list Z;
  atom_tomo_attempts : list Z
}.

(** The local variables of [run_chunk_experiment]. *)
Record Locals := mkLocals {
  attempt_index : Z;
  ttl0_detected_count : nat;
  ttl1_detected_count : nat;
  tomo_count : nat;
  photon_detected_this_cycle : bool
}.

Definition mot_load_time : Z := 500 * ms.
Definition atom_load_time : Z := 100 * ms.
Definition optical_pump_time : Z := 10 * us.
Definition excitation_time : Z := 50 * ns.
Definition pulse_width : Z := 50 * ns.
Definition gate_rising_time : Z := 100 * ns.
Definition small_delay : Z := 1 * us.

Section WithEnv.
Variable E : Env.
Variable cfg : Config.
Variable load_phase : K Memory unit.

Local Open Scope kernel_scope.

(** [self.ttl0_detected_times[i] = v] and its five siblings. *)
Definition set_ttl0_detected_times (i : nat) (v : Z) : K Memory unit :=
  let* m := get_mem in
  match setitem (ttl0_detected_times m) i v with
  | Some a => put_mem (mkMemory a (ttl0_detected_attempts m)
                         (ttl1_detected_times m) (ttl1_detected_attempts m)
                         (atom_tomo_times m) (atom_tomo_attempts m))
  | None => raise IndexError
  end.

Definition set_ttl0_detected_attempts (i : nat) (v : Z) : K Memory unit :=
  let* m := get_mem in
  match setitem (ttl0_detected_attempts m) i v with
  | Some a => put_mem (mkMemory (ttl0_detected_times m) a
                         (ttl1_detected_times m) (ttl1_detected_attempts m)
                         (atom_tomo_times m) (atom_tomo_attempts m))
  | None => raise IndexError
  end.

Definition set_ttl1_detected_times (i : nat) (v : Z) : K Memory unit :=
  let* m := get_mem in
  match setitem (ttl1_detected_times m) i v with
  | Some a => put_mem (mkMemory (ttl0_detected_times m) (ttl0_detected_attempts m)
                         a (ttl1_detected_attempts m)
                         (atom_tomo_times m) (atom_tomo_attempts m))
  | None => raise IndexError
  end.

Definition set_ttl1_detected_attempts (i : nat) (v : Z) : K Memory unit :=
  let* m := get_mem in
  match setitem (ttl1_detected_attempts m) i v with
  | Some a => put_mem (mkMemory (ttl0_detected_times m) (ttl0_detected_attempts m)
                         (ttl1_detected_times m) a
                         (atom_tomo_times m) (atom_tomo_attempts m))
  | None => raise IndexError
  end.

Definition set_atom_tomo_times (i : nat) (v : Z) : K Memory unit :=
  let* m := get_mem in
  match setitem (atom_tomo_times m) i v with
  | Some a => put_mem (mkMemory (ttl0_detected_times m) (ttl0_detected_attempts m)
                         (ttl1_detected_times m) (ttl1_detected_attempts m)
                         a (atom_tomo_attempts m))
  | None => raise IndexError
  end.

Definition set_atom_tomo_attempts (i : nat) (v : Z) : K Memory unit :=
  let* m := get_mem in
  match setitem (atom_tomo_attempts m) i v with
  | Some a => put_mem (mkMemory (ttl0_detected_times m) (ttl0_detected_attempts m)
                         (ttl1_detected_times m) (ttl1_detected_attempts m)
                         (atom_tomo_times m) a)
  | None => raise IndexError
  end.

(** Seq5.py 178-198, Seq6.py 173-191: pump, excite, reference pulse, the
    two gates in parallel, and the two timestamps. *)
Definition excite_and_detect (idx : Z) : K Memory (Z * Z) :=
  delay (5 * us) >>>
  sw_pulse urukul0_ch3 optical_pump_time >>>
  delay small_delay >>>
  sw_pulse urukul0_ch3 excitation_time >>>
  delay small_delay >>>
  ttl_pulse ttl7 pulse_width >>>
  let* tend := parallel (gate_rising ttl0 gate_rising_time)
                        (gate_rising ttl1 gate_rising_time) in
  let* ttl_time0 := timestamp_mu E ttl0 tend.1 in
  let* ttl_time1 := timestamp_mu E ttl1 tend.2 in
  attempt_seen idx >>>
  ret (ttl_time0, ttl_time1).

(** Seq5.py 220-224, Seq6.py 212-216: the tomography pulse on [ttl4]. *)
Definition tomography_pulse : K Memory unit :=
  delay (3 * us) >>>
  ttl_on ttl4 >>>
  delay (10 * ms) >>>
  ttl_off ttl4.

(** Seq5.py 177-230, Seq6.py 172-222: the body of
    [for rep in range(self.attempts_per_cooling)].  On a detection the
    loop is left by [break], before the increment of [attempt_index]. *)
Definition attempt (rep : nat) (l : Locals) : K Memory (Flow * Locals) :=
  let* stamps := excite_and_detect (attempt_index l) in
  let ttl_time0 := stamps.1 in
  let ttl_time1 := stamps.2 in
  let* l :=
    (if decide (ttl_time0 ≠ -1)%Z then
       set_ttl0_detected_times (ttl0_detected_count l) ttl_time0 >>>
       set_ttl0_detected_attempts (ttl0_detected_count l) (attempt_index l) >>>
       ret (mkLocals (attempt_index l) (ttl0_detected_count l + 1)
              (ttl1_detected_count l) (tomo_count l) (photon_detected_this_cycle l))
     else ret l) in
  let* l :=
    (if decide (ttl_time1 ≠ -1)%Z then
       set_ttl1_detected_times (ttl1_detected_count l) ttl_time1 >>>
       set_ttl1_detected_attempts (ttl1_detected_count l) (attempt_index l) >>>
       ret (mkLocals (attempt_index l) (ttl0_detected_count l)
              (ttl1_detected_count l + 1) (tomo_count l) (photon_detected_this_cycle l))
     else ret l) in
  if decide (ttl_time0 ≠ -1 ∨ ttl_time1 ≠ -1)%Z then
    let* tomography_time := now_mu in
    set_atom_tomo_times (tomo_count l) tomography_time >>>
    set_atom_tomo_attempts (tomo_count l) (attempt_index l) >>>
    tomography_pulse >>>
    ret (Break, mkLocals (attempt_index l) (ttl0_detected_count l)
                  (ttl1_detected_count l) (tomo_count l + 1) true)
  else
    ret (Next, mkLocals (attempt_index l + 1) (ttl0_detected_count l)
                 (ttl1_detected_count l) (tomo_count l) (photon_detected_this_cycle l)).

(** Seq5.py 237-251, Seq6.py 229-243: the short cooling after a cycle
    without detection. *)
Definition cooling : K Memory unit :=
  delay (12 * us) >>>
  dds_set urukul0_ch0 (50 * MHz) >>>
  dds_set_amplitude urukul0_ch0 5 >>>
  sw_on urukul0_ch0 >>>
  delay (12 * us) >>>
  dds_set urukul0_ch1 (60 * MHz) >>>
  dds_set_amplitude urukul0_ch1 5 >>>
  sw_on urukul0_ch1 >>>
  sw_off urukul0_ch0 >>>
  sw_off urukul0_ch1.

(** Seq5.py 174-251, Seq6.py 169-243: the body of
    [for cycle_idx in range(self.num_cooling_cycles)]. *)
Definition cooling_cycle (cycle_idx : nat) (l : Locals) : K Memory (Flow * Locals) :=
  let* l := for_range (attempts_per_cooling cfg) attempt l in
  if photon_detected_this_cycle l then ret (Break, l)
  else cooling >>> ret (Next, l).

(** Seq5.py 135-254, Seq6.py 126-246: the body of
    [for big_cycle_idx in range(self.num_big_cycles_chunk)]. *)
Definition big_cycle (big_cycle_idx : nat) (l : Locals) : K Memory (Flow * Locals) :=
  load_phase >>>
  let l := mkLocals (attempt_index l) (ttl0_detected_count l)
             (ttl1_detected_count l) (tomo_count l) false in
  let* l := for_range (num_cooling_cycles cfg) cooling_cycle l in
  break_realtime E >>>
  ret (Next, l).

(** [run_chunk_experiment]: returns the three counts. *)
Definition run_chunk_experiment (chunk_idx : nat) : K Memory (nat * nat * nat) :=
  core_reset E >>>
  ttl_input ttl0 >>>
  ttl_input ttl1 >>>
  ttl_output ttl4 >>>
  ttl_output ttl7 >>>
  let l := mkLocals 0 0 0 0 false in
  let* l := for_range (num_big_cycles_chunk cfg) big_cycle l in
  ret (ttl0_detected_count l, ttl1_detected_count l, tomo_count l).

(** The arrays of one chunk, [chunk_max = 6 * self.num_big_cycles_chunk]
    (Seq5.py 273-286, Seq6.py 274-280). *)
Definition chunk_max : nat := 6 * num_big_cycles_chunk cfg.

Definition alloc (n : nat) : Memory :=
  mkMemory (np_zeros n) (np_zeros n) (np_zeros n) (np_zeros n) (np_zeros n) (np_zeros n).

End WithEnv.

(** The three [retrieve_*] methods: the whole arrays, as lists. *)
Definition retrieve_ttl0_detections (m : Memory) : list Z * list Z :=
  (ttl0_detected_times m, ttl0_detected_attempts m).

Definition retrieve_ttl1_detections (m : Memory) : list Z * list Z :=
  (ttl1_detected_times m, ttl1_detected_attempts m).

Definition retrieve_atom_tomo_data (m : Memory) : list Z * list Z :=
  (atom_tomo_times m, atom_tomo_attempts m).

(** What [run] takes out of the arrays of a chunk (Seq5.py 295-313,
    Seq6.py 288-301). *)
Record Used := mkUsed {
  used_ttl0_times : list Z;
  used_ttl0_attempts : list Z;
  used_ttl1_times : list Z;
  used_ttl1_attempts : list Z;
  used_tomo_times : list Z;
  used_tomo_attempts : list Z
}.

Definition drain (m : Memory) (counts : nat * nat * nat) : Used :=
  let ttl0_count := counts.1.1 in
  let ttl1_count := counts.1.2 in
  let tomo_count := counts.2 in
  let ttl0_raw := retrieve_ttl0_detections m in
  let ttl1_raw := retrieve_ttl1_detections m in
  let tomo_raw := retrieve_atom_tomo_data m in
  mkUsed (slice_to ttl0_raw.1 ttl0_count) (slice_to ttl0_raw.2 ttl0_count)
         (slice_to ttl1_raw.1 ttl1_count) (slice_to ttl1_raw.2 ttl1_count)
         (slice_to tomo_raw.1 tomo_count) (slice_to tomo_raw.2 tomo_count).

(** The six [set_dataset] calls of a chunk (Seq5.py 317-348, Seq6.py 306-317). *)
Definition publish (chunk_idx : nat) (u : Used) (d : Datasets) : Datasets :=
  let d := <[chunk_key "ttl0_detected_times" chunk_idx := used_ttl0_times u]> d in
  let d := <[chunk_key "ttl0_detected_attempts" chunk_idx := used_ttl0_attempts u]> d in
  let d := <[chunk_key "ttl1_detected_times" chunk_idx := used_ttl1_times u]> d in
  let d := <[chunk_key "ttl1_detected_attempts" chunk_idx := used_ttl1_attempts u]> d in
  let d := <[chunk_key "atom_tomo_times" chunk_idx := used_tomo_times u]> d in
  let d := <[chunk_key "atom_tomo_attempts" chunk_idx := used_tomo_attempts u]> d in
  d.

End Gated.

(** *** FullExperimentSequence16 (src/Seq5.py) *)

Module Seq5.
Export Gated.

Definition build : Config :=
  {| num_big_cycles_chunk := 80; num_chunks := 1;
     num_cooling_cycles := 100; attempts_per_cooling := 50 |}.

Section WithEnv.
Variable E : Env.
Variable cfg : Config.

Local Open Scope kernel_scope.

(** Lines 138-170: MOT on for [mot_load_time] on the timeline, MOT off,
    atom load, pump DDS on. *)
Definition load_phase : K Memory unit :=
  break_realtime E >>>
  ttl_on ttl4 >>>
  ttl_on ttl5 >>>
  ttl_on ttl6 >>>
  dds_set urukul0_ch0 (100 * MHz) >>>
  dds_set_amplitude urukul0_ch0 8 >>>
  sw_on urukul0_ch0 >>>
  dds_set urukul0_ch1 (80 * MHz) >>>
  dds_set_amplitude urukul0_ch1 5 >>>
  sw_on urukul0_ch1 >>>
  delay mot_load_time >>>
  sw_off urukul0_ch0 >>>
  sw_off urukul0_ch1 >>>
  ttl_off ttl4 >>>
  ttl_off ttl5 >>>
  ttl_off ttl6 >>>
  dds_set urukul0_ch2 (120 * MHz) >>>
  dds_set_amplitude urukul0_ch2 7 >>>
  sw_on urukul0_ch2 >>>
  delay atom_load_time >>>
  sw_off urukul0_ch2 >>>
  dds_set urukul0_ch3 (90 * MHz) >>>
  dds_set_amplitude urukul0_ch3 6 >>>
  sw_on urukul0_ch3.

Definition run_chunk_experiment (chunk_idx : nat) : K Memory (nat * nat * nat) :=
  Gated.run_chunk_experiment E cfg load_phase chunk_idx.

End WithEnv.

(** The host object between kernel runs. *)
Record Host := mkHost {
  arrays : Memory;
  datasets : Datasets
}.

(** Lines 269-348: the body of [for chunk_idx in range(self.num_chunks)]. *)
Definition run_chunk (envs : nat → Env) (cfg : Config) (chunk_idx : nat) (h : Host)
  : HostResult Host :=
  let h := mkHost (alloc (chunk_max cfg)) (datasets h) in
  match run_chunk_experiment (envs chunk_idx) cfg chunk_idx (kernel_start (arrays h)) with
  | Raise e s => Failed e (mkHost (mem s) (datasets h))
  | Ok counts s =>
      let h := mkHost (mem s) (datasets h) in
      let used := drain (arrays h) counts in
      Done (mkHost (arrays h) (publish chunk_idx used (datasets h)))
  end.

Definition run (envs : nat → Env) (cfg : Config) (h : Host) : HostResult Host :=
  host_for_range_from 0 (num_chunks cfg) (run_chunk envs cfg) h.

End Seq5.

(** *** FullExperimentSequence17 (src/Seq6.py) *)

(** The HDF5 file of [run], as the calls made on it since it was opened in
    mode "w".  [h5_image] is the content the calls have built in memory and
    [h5_disk] the part of it that [flush] or [close] has written out: what is
    left if the process stops there. *)
Inductive H5Op :=
| CreateGroup (name : string)
| CreateDataset (group : string) (name : string) (data : list Z)
| Flush
| Close.

Abbreviation H5Group := (list (string * list Z)).
Abbreviation H5Content := (list (string * H5Group)).

Record H5State := mkH5State {
  h5_image : H5Content;
  h5_disk : H5Content
}.

(** [g.create_dataset(name, data=data)] on the group [group] of a content. *)
Fixpoint add_dataset (group name : string) (data : list Z) (c : H5Content) : H5Content :=
  match c with
  | [] => []
  | (g, ds) :: c' =>
      if decide (g = group) then (g, ds ++ [(name, data)]) :: c'
      else (g, ds) :: add_dataset group name data c'
  end.

Definition h5_step (st : H5State) (op : H5Op) : H5State :=
  match op with
  | CreateGroup name => mkH5State (h5_image st ++ [(name, [])]) (h5_disk st)
  | CreateDataset group name data =>
      mkH5State (add_dataset group name data (h5_image st)) (h5_disk st)
  | Flush => mkH5State (h5_image st) (h5_image st)
  | Close => mkH5State (h5_image st) (h5_image st)
  end.

Definition h5_replay (ops : list H5Op) : H5State :=
  foldl h5_step (mkH5State [] []) ops.

Module Seq6.
Export Gated.

Definition build : Config :=
  {| num_big_cycles_chunk := 20; num_chunks := 3;
     num_cooling_cycles := 100; attempts_per_cooling := 50 |}.

Section WithEnv.
Variable E : Env.
Variable cfg : Config.

Local Open Scope kernel_scope.

(** Lines 129-166: MOT on, a wait of 0.5 s on the host between two
    [break_realtime], MOT off, atom load, pump DDS on. *)
Definition load_phase : K Memory unit :=
  break_realtime E >>>
  ttl_on ttl4 >>>
  ttl_on ttl5 >>>
  ttl_on ttl6 >>>
  dds_set urukul0_ch0 (100 * MHz) >>>
  dds_set_amplitude urukul0_ch0 8 >>>
  sw_on urukul0_ch0 >>>
  dds_set urukul0_ch1 (80 * MHz) >>>
  dds_set_amplitude urukul0_ch1 5 >>>
  sw_on urukul0_ch1 >>>
  break_realtime E >>>
  host_mot_load_wait 500 >>>
  break_realtime E >>>
  sw_off urukul0_ch0 >>>
  sw_off urukul0_ch1 >>>
  ttl_off ttl4 >>>
  ttl_off ttl5 >>>
  ttl_off ttl6 >>>
  dds_set urukul0_ch2 (120 * MHz) >>>
  dds_set_amplitude urukul0_ch2 7 >>>
  sw_on urukul0_ch2 >>>
  delay atom_load_time >>>
  sw_off urukul0_ch2 >>>
  dds_set urukul0_ch3 (90 * MHz) >>>
  dds_set_amplitude urukul0_ch3 6 >>>
  sw_on urukul0_ch3.

Definition run_chunk_experiment (chunk_idx : nat) : K Memory (nat * nat * nat) :=
  Gated.run_chunk_experiment E cfg load_phase chunk_idx.

End WithEnv.

(** The host object between kernel runs; [h5file] is [self.h5file]. *)
Record Host := mkHost {
  arrays : Memory;
  datasets : Datasets;
  h5file : list H5Op
}.

(** [self.h5file.create_group(name)]: [ValueError] when the name is taken. *)
Definition create_group (name : string) (h : Host) : HostResult Host :=
  if decide (name ∈ (h5_image (h5_replay (h5file h))).*1) then Failed ValueError h
  else Done (mkHost (arrays h) (datasets h) (h5file h ++ [CreateGroup name])).

Definition h5_call (op : H5Op) (h : Host) : Host :=
  mkHost (arrays h) (datasets h) (h5file h ++ [op]).

(** Lines 322-328: the group of a chunk and its six datasets. *)
Definition store_chunk (chunk_idx : nat) (u : Used) (h : Host) : HostResult Host :=
  let g := "chunk_" +:+ pretty chunk_idx in
  match create_group g h with
  | Failed e h => Failed e h
  | Done h =>
      let h := h5_call (CreateDataset g "ttl0_times" (used_ttl0_times u)) h in
      let h := h5_call (CreateDataset g "ttl0_attempts" (used_ttl0_attempts u)) h in
      let h := h5_call (CreateDataset g "ttl1_times" (used_ttl1_times u)) h in
      let h := h5_call (CreateDataset g "ttl1_attempts" (used_ttl1_attempts u)) h in
      let h := h5_call (CreateDataset g "tomo_times" (used_tomo_times u)) h in
      let h := h5_call (CreateDataset g "tomo_attempts" (used_tomo_attempts u)) h in
      Done h
  end.

(** Lines 271-331: the body of [for chunk_idx in range(self.num_chunks)]. *)
Definition run_chunk (envs : nat → Env) (cfg : Config) (chunk_idx : nat) (h : Host)
  : HostResult Host :=
  let h := mkHost (alloc (chunk_max cfg)) (datasets h) (h5file h) in
  match run_chunk_experiment (envs chunk_idx) cfg chunk_idx (kernel_start (arrays h)) with
  | Raise e s => Failed e (mkHost (mem s) (datasets h) (h5file h))
  | Ok counts s =>
      let h := mkHost (mem s) (datasets h) (h5file h) in
      let used := drain (arrays h) counts in
      let h := mkHost (arrays h) (publish chunk_idx used (datasets h)) (h5file h) in
      match store_chunk chunk_idx used h with
      | Failed e h => Failed e h
      | Done h => Done (h5_call Flush h)
      end
  end.

(** Lines 261-338: open the file, run the chunks, and close the file
    whatever happened ([try ... finally]). *)
Definition run (envs : nat → Env) (cfg : Config) (h : Host) : HostResult Host :=
  let h := mkHost (arrays h) (datasets h) [] in
  match host_for_range_from 0 (num_chunks cfg) (run_chunk envs cfg) h with
  | Done h => Done (h5_call Close h)
  | Failed e h => Failed e (h5_call Close h)
  end.

End Seq6.

(** ** FullExperimentSequence13 (src/Seq2.py): fixed repetitions *)

(** A cell of a CSV row. *)
Inductive Cell :=
| Text (s : string)
| Int (z : Z).

Module Seq2.

(** The two lists of the object and the file [write_to_csv] writes. *)
Record Memory := mkMemory {
  time_tags_0 : list Z;
  time_tags_1 : list Z;
  photon_time_tags_csv : option (list (list Cell))
}.

(** [build]: both lists empty; no file yet. *)
Definition build : Memory := mkMemory [] [] None.

Definition mot_load_time : Z := 500 * ms.
Definition atom_load_time : Z := 100 * ms.
Definition optical_pump_time : Z := 10 * us.
Definition excitation_time : Z := 50 * ns.
Definition pulse_width : Z := 50 * ns.
Definition repetitions_per_cycle : nat := 50.
Definition num_cycles : nat := 10.

Section WithEnv.
Variable E : Env.

Local Open Scope kernel_scope.

(** The RPCs [record_time_tag_0] and [record_time_tag_1]. *)
Definition record_time_tag_0 (t_mu : Z) : K Memory unit :=
  let* m := get_mem in
  put_mem (mkMemory (time_tags_0 m ++ [t_mu]) (time_tags_1 m) (photon_time_tags_csv m)).

Definition record_time_tag_1 (t_mu : Z) : K Memory unit :=
  let* m := get_mem in
  put_mem (mkMemory (time_tags_0 m) (time_tags_1 m ++ [t_mu]) (photon_time_tags_csv m)).

(** Lines 44-45: the rows after the header; [self.time_tags_1[i]] raises
    when the second list is the shorter one. *)
Fixpoint csv_rows (tags0 tags1 : list Z) (i n : nat) : option (list (list Cell)) :=
  match n with
  | O => Some []
  | S n' =>
      match tags0 !! i, tags1 !! i with
      | Some t0, Some t1 =>
          match csv_rows tags0 tags1 (S i) n' with
          | Some rows => Some ([Int (Z.of_nat i + 1); Int t0; Int t1] :: rows)
          | None => None
          end
      | _, _ => None
      end
  end.

Definition write_to_csv : K Memory unit :=
  let* m := get_mem in
  let header := [Text "Event #"; Text "TTL0 Time Tag (mu)"; Text "TTL1 Time Tag (mu)"] in
  match csv_rows (time_tags_0 m) (time_tags_1 m) 0 (length (time_tags_0 m)) with
  | Some rows => put_mem (mkMemory (time_tags_0 m) (time_tags_1 m) (Some (header :: rows)))
  | None => raise IndexError
  end.

(** Lines 72-101: MOT load and atom load, once. *)
Definition load_phase : K Memory unit :=
  break_realtime E >>>
  ttl_on ttl4 >>>
  ttl_on ttl5 >>>
  ttl_on ttl6 >>>
  dds_set urukul0_ch0 (100 * MHz) >>>
  dds_set_amplitude urukul0_ch0 8 >>>
  sw_on urukul0_ch0 >>>
  dds_set urukul0_ch1 (80 * MHz) >>>
  dds_set_amplitude urukul0_ch1 5 >>>
  sw_on urukul0_ch1 >>>
  delay mot_load_time >>>
  sw_off urukul0_ch0 >>>
  sw_off urukul0_ch1 >>>
  ttl_off ttl4 >>>
  ttl_off ttl5 >>>
  ttl_off ttl6 >>>
  dds_set urukul0_ch2 (120 * MHz) >>>
  dds_set_amplitude urukul0_ch2 7 >>>
  sw_on urukul0_ch2 >>>
  delay atom_load_time >>>
  sw_off urukul0_ch2.

(** Lines 107-152: the body of [for rep_idx in range(repetitions_per_cycle)].
    The repetition is noted with its number, [cycle_idx * reps + rep_idx]. *)
Definition repetition (reps cycle_idx rep_idx : nat) (l : unit)
  : K Memory (Flow * unit) :=
  break_realtime E >>>
  dds_set urukul0_ch3 (90 * MHz) >>>
  dds_set_amplitude urukul0_ch3 6 >>>
  sw_on urukul0_ch3 >>>
  delay optical_pump_time >>>
  sw_off urukul0_ch3 >>>
  sw_on urukul0_ch3 >>>
  delay excitation_time >>>
  sw_off urukul0_ch3 >>>
  ttl_pulse ttl7 pulse_width >>>
  let* tend := parallel (gate_rising ttl0 (100 * ns)) (gate_rising ttl1 (100 * ns)) in
  let* ttl_time0 := timestamp_mu E ttl0 tend.1 in
  let* ttl_time1 := timestamp_mu E ttl1 tend.2 in
  attempt_seen (Z.of_nat (cycle_idx * reps + rep_idx)) >>>
  record_time_tag_0 ttl_time0 >>>
  record_time_tag_1 ttl_time1 >>>
  ret (Next, tt).

(** Lines 157-169: the short cooling between cycles. *)
Definition cooling : K Memory unit :=
  break_realtime E >>>
  dds_set urukul0_ch0 (50 * MHz) >>>
  dds_set_amplitude urukul0_ch0 5 >>>
  sw_on urukul0_ch0 >>>
  dds_set urukul0_ch1 (60 * MHz) >>>
  dds_set_amplitude urukul0_ch1 5 >>>
  sw_on urukul0_ch1 >>>
  sw_off urukul0_ch0 >>>
  sw_off urukul0_ch1.

(** Lines 106-169: the body of [for cycle_idx in range(num_cycles)]. *)
Definition cycle (reps cycle_idx : nat) (l : unit) : K Memory (Flow * unit) :=
  for_range reps (repetition reps cycle_idx) l >>>
  cooling >>>
  ret (Next, tt).

(** [run] with the two loop bounds as parameters. *)
Definition run_with (cycles reps : nat) : K Memory unit :=
  core_reset E >>>
  ttl_input ttl0 >>>
  ttl_input ttl1 >>>
  ttl_output ttl7 >>>
  load_phase >>>
  for_range cycles (cycle reps) tt >>>
  break_realtime E >>>
  write_to_csv.

(** [run]: [num_cycles = 10] cycles of [repetitions_per_cycle = 50]. *)
Definition run : K Memory unit := run_with num_cycles repetitions_per_cycle.

End WithEnv.

End Seq2.
(** ** Reasoning about kernels *)

Section KernelFacts.
Context {Mem : Type}.
Implicit Types s : State Mem.

Lemma bind_ok {A B} (c : K Mem A) (k : A → K Mem B) s a s' :
  c s = Ok a s' → bind c k s = k a s'.
Proof. unfold bind. by intros ->. Qed.

Lemma bind_raise {A B} (c : K Mem A) (k : A → K Mem B) s e s' :
  c s = Raise e s' → bind c k s = Raise e s'.
Proof. unfold bind. by intros ->. Qed.

Lemma bind_assoc {A B D} (c : K Mem A) (k1 : A → K Mem B) (k2 : B → K Mem D) s :
  bind (bind c k1) k2 s = bind c (λ a, bind (k1 a) k2) s.
Proof. unfold bind. by destruct (c s). Qed.

Lemma bind_ret_l {A B} (a : A) (k : A → K Mem B) s : bind (ret a) k s = k a s.
Proof. done. Qed.

Lemma for_range_from_0 {L} lo (body : nat → L → K Mem (Flow * L)) l s :
  for_range_from lo 0 body l s = Ok l s.
Proof. done. Qed.

Lemma for_range_from_next {L} lo n (body : nat → L → K Mem (Flow * L)) l s l' s' :
  body lo l s = Ok (Next, l') s' →
  for_range_from lo (S n) body l s = for_range_from (S lo) n body l' s'.
Proof. intros H. cbn. by rewrite (bind_ok _ _ _ _ _ H). Qed.

Lemma for_range_from_break {L} lo n (body : nat → L → K Mem (Flow * L)) l s l' s' :
  body lo l s = Ok (Break, l') s' →
  for_range_from lo (S n) body l s = Ok l' s'.
Proof. intros H. cbn. by rewrite (bind_ok _ _ _ _ _ H). Qed.

Lemma for_range_from_raise {L} lo n (body : nat → L → K Mem (Flow * L)) l s e s' :
  body lo l s = Raise e s' →
  for_range_from lo (S n) body l s = Raise e s'.
Proof. intros H. cbn. by rewrite (bind_raise _ _ _ _ _ H). Qed.

(** A computation that only drives the timeline: it returns, and leaves the
    shared memory and the attempts seen as they were. *)
Definition device_only {A} (c : K Mem A) : Prop :=
  ∀ s, ∃ a s', c s = Ok a s' ∧ attempts_seen s' = attempts_seen s ∧ mem s' = mem s.

Lemma device_only_bind {A B} (c : K Mem A) (k : A → K Mem B) :
  device_only c → (∀ a, device_only (k a)) → device_only (bind c k).
Proof.
  intros Hc Hk s. destruct (Hc s) as (a & s1 & H1 & Hs & Hm).
  destruct (Hk a s1) as (b & s2 & H2 & Hs2 & Hm2).
  exists b, s2. rewrite (bind_ok _ _ _ _ _ H1). split; [done|]. split; congruence.
Qed.

Lemma device_only_step {A B} (c : K Mem A) (k : A → K Mem B) s :
  device_only c →
  ∃ a s1, bind c k s = k a s1 ∧ attempts_seen s1 = attempts_seen s ∧ mem s1 = mem s.
Proof.
  intros Hc. destruct (Hc s) as (a & s1 & H1 & ? & ?).
  exists a, s1. by rewrite (bind_ok _ _ _ _ _ H1).
Qed.

Lemma device_only_ret {A} (a : A) : device_only (ret a).
Proof. intros s. by exists a, s. Qed.

Lemma device_only_emit a : device_only (emit a).
Proof. intros s. by eexists _, _. Qed.

Lemma device_only_delay d : device_only (delay d).
Proof. intros s. by eexists _, _. Qed.

Lemma device_only_now_mu : device_only now_mu.
Proof. intros s. by eexists _, _. Qed.

Lemma device_only_at_mu t : device_only (at_mu t).
Proof. intros s. by eexists _, _. Qed.

Lemma device_only_break_realtime E : device_only (break_realtime E).
Proof. intros s. by eexists _, _. Qed.

Lemma device_only_core_reset E : device_only (core_reset E).
Proof. intros s. by eexists _, _. Qed.

Lemma device_only_timestamp_mu E c t : device_only (timestamp_mu E c t).
Proof. intros s. by eexists _, _. Qed.

End KernelFacts.

Create HintDb device discriminated.
#[export] Hint Resolve device_only_ret device_only_emit device_only_delay
  device_only_now_mu device_only_at_mu device_only_break_realtime
  device_only_core_reset device_only_timestamp_mu : device.

(** Breaks a straight-line computation into its primitives. *)
Ltac device :=
  repeat first
    [ apply device_only_bind; [|intros ?]
    | progress unfold ttl_input, ttl_output, ttl_on, ttl_off, ttl_pulse, dds_set,
        dds_set_amplitude, sw_on, sw_off, sw_pulse, gate_rising, parallel,
        host_mot_load_wait
    | solve [auto with device] ].

(** Runs the timeline operation at the head of the goal's computation. *)
Ltac device_step :=
  match goal with
  | |- context [bind ?c ?k ?s] =>
      let a := fresh "a" in let s1 := fresh "s" in
      let Hseen := fresh "Hseen" in let Hmem := fresh "Hmem" in
      destruct (device_only_step c k s) as (a & s1 & -> & Hseen & Hmem); [by device|]
  end.

(** Runs a straight-line stretch of kernel code on a symbolic state. *)
Ltac kcompute :=
  lazy beta iota zeta delta
    [bind ret emit delay now_mu at_mu break_realtime core_reset parallel
     ttl_input ttl_output ttl_on ttl_off ttl_pulse dds_set dds_set_amplitude
     sw_on sw_off sw_pulse gate_rising timestamp_mu attempt_seen host_mot_load_wait
     get_mem put_mem raise now actions attempts_seen mem fst snd].

(** ** Runs that leave the memory alone *)

(** The attempt counters [c], [c + 1], ..., [c + k - 1]. *)
Definition index_range (c : Z) (k : nat) : list Z := (λ i, (c + Z.of_nat i)%Z) <$> seq 0 k.

Lemma index_range_0 c : index_range c 0 = [].
Proof. done. Qed.

Lemma index_range_1 c : index_range c 1 = [c].
Proof. unfold index_range. cbn. f_equal. lia. Qed.

Lemma index_range_app c a b :
  index_range c (a + b) = index_range c a ++ index_range (c + Z.of_nat a) b.
Proof.
  unfold index_range. rewrite seq_app, fmap_app. f_equal.
  replace (0 + a) with (a + 0) by lia.
  rewrite <- (fmap_add_seq a 0 b), <- list_fmap_compose.
  apply list_fmap_ext. intros _ i _. cbn. lia.
Qed.

Lemma index_range_length c k : length (index_range c k) = k.
Proof. unfold index_range. by rewrite length_fmap, length_seq. Qed.

Lemma index_range_from_0 k : index_range 0 k = Z.of_nat <$> seq 0 k.
Proof. unfold index_range. apply list_fmap_ext. intros _ i _. lia. Qed.

Section Advances.
Context {Mem : Type}.
Implicit Types s : State Mem.

(** The result [r] of a run from [s] is a return of [a], after attempts with
    the counters [seen] and the operations [ops], with the memory as it
    was. *)
Definition advances {A} (r : Result Mem A) s (a : A) (seen : list Z) (ops : list Action)
  : Prop :=
  ∃ s', r = Ok a s' ∧ attempts_seen s' = attempts_seen s ++ seen ∧
        mem s' = mem s ∧ operations s' = operations s ++ ops.

Lemma advances_bind {A B} (c : K Mem A) (k : A → K Mem B) s a seen1 ops1 b seen2 ops2 :
  advances (c s) s a seen1 ops1 →
  (∀ s1, attempts_seen s1 = attempts_seen s ++ seen1 → mem s1 = mem s →
         advances (k a s1) s1 b seen2 ops2) →
  advances (bind c k s) s b (seen1 ++ seen2) (ops1 ++ ops2).
Proof.
  intros (s1 & H1 & Hs1 & Hm1 & Ho1) Hk.
  destruct (Hk s1 Hs1 Hm1) as (s2 & H2 & Hs2 & Hm2 & Ho2).
  exists s2. rewrite (bind_ok _ _ _ _ _ H1). split; [done|].
  rewrite Hs2, Hs1, Hm2, Hm1, Ho2, Ho1, !app_assoc. done.
Qed.

Lemma advances_ret {A} (a : A) s : advances (ret a s) s a [] [].
Proof. exists s. by rewrite !app_nil_r. Qed.

Lemma advances_eq {A} (r : Result Mem A) s a seen ops seen' ops' :
  advances r s a seen ops → seen = seen' → ops = ops' → advances r s a seen' ops'.
Proof. by intros ? <- <-. Qed.

(** A computation that drives the timeline with the operations [ops]. *)
Definition emits {A} (c : K Mem A) (ops : list Action) : Prop :=
  ∀ s, ∃ a, advances (c s) s a [] ops.

Lemma emits_device_only {A} (c : K Mem A) ops : emits c ops → device_only c.
Proof.
  intros Hc s. destruct (Hc s) as (a & s' & H & Hs & Hm & _).
  exists a, s'. by rewrite Hs, app_nil_r.
Qed.

Lemma emits_bind {A B} (c : K Mem A) (k : A → K Mem B) ops1 ops2 :
  emits c ops1 → (∀ a, emits (k a) ops2) → emits (bind c k) (ops1 ++ ops2).
Proof.
  intros Hc Hk s. destruct (Hc s) as (a & Ha).
  destruct Ha as (s1 & H1 & Hs1 & Hm1 & Ho1).
  destruct (Hk a s1) as (b & s2 & H2 & Hs2 & Hm2 & Ho2).
  exists b, s2. rewrite (bind_ok _ _ _ _ _ H1). split; [done|].
  rewrite Hs2, Hs1, Hm2, Hm1, Ho2, Ho1, !app_nil_r, !app_assoc. done.
Qed.

Lemma emits_eq {A} (c : K Mem A) ops ops' : emits c ops → ops = ops' → emits c ops'.
Proof. by intros ? <-. Qed.

Lemma emits_advances (c : K Mem unit) ops s : emits c ops → advances (c s) s tt [] ops.
Proof. intros Hc. by destruct (Hc s) as ([] & ?). Qed.

Lemma emits_ret {A} (a : A) : emits (ret a) [].
Proof. intros s. exists a. apply advances_ret. Qed.

Lemma emits_emit a : emits (emit a) [a].
Proof.
  intros s. exists tt. eexists. split; [done|]. cbn [attempts_seen mem].
  rewrite app_nil_r. unfold operations. cbn [actions]. by rewrite fmap_app.
Qed.

Lemma emits_delay d : emits (delay d) [].
Proof. intros s. exists tt. eexists. split; [done|]. by rewrite !app_nil_r. Qed.

Lemma emits_now_mu : emits now_mu [].
Proof. intros s. exists (now s). eexists. split; [done|]. by rewrite !app_nil_r. Qed.

Lemma emits_at_mu t : emits (at_mu t) [].
Proof. intros s. exists tt. eexists. split; [done|]. by rewrite !app_nil_r. Qed.

Lemma emits_break_realtime E : emits (break_realtime E) [BreakRealtime].
Proof.
  intros s. exists tt. eexists. split; [done|]. cbn [attempts_seen mem].
  rewrite app_nil_r. unfold operations. cbn [actions]. by rewrite fmap_app.
Qed.

Lemma emits_core_reset E : emits (core_reset E) [CoreReset].
Proof.
  intros s. exists tt. eexists. split; [done|]. cbn [attempts_seen mem].
  rewrite app_nil_r. unfold operations. cbn [actions]. by rewrite fmap_app.
Qed.

End Advances.

Create HintDb emits discriminated.
#[export] Hint Resolve emits_ret emits_emit emits_delay emits_now_mu emits_at_mu
  emits_break_realtime emits_core_reset : emits.

(** Collects the operations of a straight-line computation. *)
Ltac emits :=
  eapply emits_eq;
  [ repeat first
      [ eapply emits_bind; [|intros ?]
      | progress unfold ttl_input, ttl_output, ttl_on, ttl_off, ttl_pulse, dds_set,
          dds_set_amplitude, sw_on, sw_off, sw_pulse, gate_rising, parallel,
          host_mot_load_wait
      | solve [eauto with emits] ]
  | reflexivity ].

(** Loops whose attempts detect nothing: [nodet n] says that the [n]-th pair of
    gate windows of the run sees no edge; [bump k l] is [l] after [k] such
    attempts; [ok l] is what the loop needs of its locals. *)
Section Quiet.
Context {Mem L : Type}.
Variable nodet : nat → Prop.
Variable counter : L → Z.
Variable bump : nat → L → L.
Variable ok : L → Prop.
Hypothesis bump_0 : ∀ l, bump 0 l = l.
Hypothesis bump_add : ∀ a b l, bump (a + b) l = bump b (bump a l).
Hypothesis counter_bump : ∀ k l, counter (bump k l) = (counter l + Z.of_nat k)%Z.
Hypothesis ok_bump : ∀ k l, ok l → ok (bump k l).

Definition quiet {A} (k : nat) (ops : list Action) (c : L → K Mem A) (out : L → A) : Prop :=
  ∀ l (s : State Mem), ok l →
    (∀ i, i < k → nodet (length (attempts_seen s) + i)) →
    advances (c l s) s (out (bump k l)) (index_range (counter l) k) ops.

Lemma quiet_for_range_from k ops (body : nat → L → K Mem (Flow * L)) n :
  (∀ i, quiet k ops (body i) (λ l, (Next, l))) →
  ∀ lo, quiet (n * k) (concat (replicate n ops)) (for_range_from lo n body) id.
Proof using bump_0 bump_add counter_bump ok_bump.
  intros Hbody. induction n as [|n IH]; intros lo l s Hok Hnodet.
  - cbn [Nat.mul replicate concat]. rewrite bump_0, index_range_0.
    apply advances_ret.
  - cbn [for_range_from Nat.mul replicate concat].
    rewrite bump_add, index_range_app, <- counter_bump.
    eapply advances_bind.
    + apply Hbody; [done|]. intros i Hi. apply Hnodet. lia.
    + intros s1 Hs1 _. cbn [fst snd]. apply IH; [by apply ok_bump|].
      intros i Hi. rewrite Hs1, length_app, index_range_length.
      rewrite <- Nat.add_assoc. apply Hnodet. lia.
Qed.

End Quiet.

(** Kernels made of blocks of attempts: [Inv p l seen m] describes the locals,
    the attempts seen and the memory after [p] attempts; [safe p] says that the
    first [p] attempts fit the arrays; [Fail p seen m] describes the state in
    which attempt [p] has raised. *)
Section Blocks.
Context {Mem L : Type}.
Variable Inv : nat → L → list Z → Mem → Prop.
Variable Fail : nat → list Z → Mem → Prop.
Variable safe : nat → Prop.
Context `{!∀ p, Decision (safe p)}.
Hypothesis safe_mono : ∀ p, safe (S p) → safe p.
Hypothesis Inv_safe : ∀ p l seen m, Inv p l seen m → safe p.

Definition failed_in (p k : nat) (s : State Mem) : Prop :=
  ∃ q, p ≤ q < p + k ∧ safe q ∧ ¬ safe (S q) ∧ Fail q (attempts_seen s) (mem s).

(** [c] runs [k] attempts. *)
Definition block {A} (k : nat) (c : L → K Mem A) (out : A → option L) : Prop :=
  ∀ p l s, Inv p l (attempts_seen s) (mem s) →
    if decide (safe (p + k)) then
      ∃ a l' s', c l s = Ok a s' ∧ out a = Some l' ∧ Inv (p + k) l' (attempts_seen s') (mem s')
    else ∃ s', c l s = Raise IndexError s' ∧ failed_in p k s'.

Definition next_of (r : Flow * L) : option L :=
  match r.1 with Next => Some r.2 | Break => None end.

Lemma safe_le p q : p ≤ q → safe q → safe p.
Proof using safe_mono. induction 1; auto. Qed.

Lemma failed_in_weaken p k p' k' s :
  p' ≤ p → p + k ≤ p' + k' → failed_in p k s → failed_in p' k' s.
Proof. intros ?? (q & ? & ?). exists q. split; [lia|done]. Qed.

Lemma block_for_range_from k (body : nat → L → K Mem (Flow * L)) n :
  (∀ i, block k (body i) next_of) →
  ∀ lo, block (n * k) (for_range_from lo n body) Some.
Proof using safe_mono Inv_safe.
  intros Hbody. induction n as [|n IH]; intros lo p l s HI.
  - cbn [Nat.mul]. rewrite Nat.add_0_r. rewrite decide_True by eauto.
    exists l, l, s. by rewrite for_range_from_0.
  - specialize (Hbody lo p l s HI).
    destruct (decide (safe (p + k))) as [Hs|Hs].
    + destruct Hbody as ([f l1] & l' & s1 & H1 & Hout & HI1).
      unfold next_of in Hout. cbn in Hout. destruct f; [|done].
      injection Hout as ->.
      rewrite (for_range_from_next _ _ _ _ _ _ _ H1).
      specialize (IH (S lo) (p + k) l' s1 HI1).
      replace (p + S n * k) with (p + k + n * k) by lia.
      case_decide; [done|].
      destruct IH as (s' & ? & Hf). exists s'. split; [done|].
      eapply failed_in_weaken; [| |done]; lia.
    + destruct Hbody as (s' & H1 & Hf).
      rewrite decide_False.
      2:{ intros H'. apply Hs. eapply safe_le; [|done]. lia. }
      exists s'. rewrite (for_range_from_raise _ _ _ _ _ _ _ H1). split; [done|].
      eapply failed_in_weaken; [| |done]; lia.
Qed.

(** A block after, and before, a stretch of timeline work. *)
Lemma block_pre {A B} k (pre : K Mem A) (c : L → K Mem B) out :
  device_only pre → block k c out → block k (λ l, bind pre (λ _, c l)) out.
Proof.
  intros Hpre Hc p l s HI.
  destruct (Hpre s) as (a & s1 & H1 & Hseen & Hmem).
  rewrite (bind_ok _ _ _ _ _ H1).
  specialize (Hc p l s1). rewrite Hseen, Hmem in Hc. by apply Hc.
Qed.

Lemma block_post {B} k (c : L → K Mem L) (post : K Mem B) :
  block k c Some → device_only post →
  block k (λ l, bind (c l) (λ l', bind post (λ _, ret (Next, l')))) next_of.
Proof.
  intros Hc Hpost p l s HI. specialize (Hc p l s HI).
  case_decide.
  - destruct Hc as (l1 & l' & s2 & H2 & [= ->] & HI2).
    rewrite (bind_ok _ _ _ _ _ H2).
    destruct (Hpost s2) as (b & s3 & H3 & Hseen3 & Hmem3).
    rewrite (bind_ok _ _ _ _ _ H3).
    exists (Next, l'), l', s3. by rewrite Hseen3, Hmem3.
  - destruct Hc as (s' & H2 & Hf). exists s'.
    by rewrite (bind_raise _ _ _ _ _ H2).
Qed.

End Blocks.

(** ** Detections and array contents *)

(** The detections of one channel among the first [n] attempts of a kernel run
    in which attempt [i] carries the attempt counter [i]: the (timestamp,
    attempt index) pairs, in order.  [pick] selects the channel. *)
Definition detections (E : Env) (pick : Z * Z → Z) (n : nat) : list (Z * Z) :=
  filter (λ r, r.1 ≠ (-1)%Z) ((λ i, (pick (gate_in E i), Z.of_nat i)) <$> seq 0 n).

(** An array of [C] zeros whose first slots have been written with [vals]. *)
Definition stored (C : nat) (vals : list Z) : list Z :=
  vals ++ replicate (C - length vals) 0%Z.

Lemma detections_S E pick n :
  detections E pick (S n) =
  detections E pick n ++
    (if decide (pick (gate_in E n) ≠ (-1)%Z) then [(pick (gate_in E n), Z.of_nat n)] else []).
Proof.
  unfold detections. rewrite seq_S, fmap_app, filter_app. f_equal.
Qed.

Lemma detections_length_le E pick n : length (detections E pick n) ≤ n.
Proof.
  unfold detections. etrans; [apply length_filter|]. by rewrite length_fmap, length_seq.
Qed.

Lemma stored_length C vals : length vals ≤ C → length (stored C vals) = C.
Proof. intros. unfold stored. rewrite length_app, length_replicate. lia. Qed.

Lemma stored_take C vals : take (length vals) (stored C vals) = vals.
Proof. unfold stored. by rewrite take_app_length. Qed.

Lemma stored_nil C : stored C [] = np_zeros C.
Proof. unfold stored, np_zeros. cbn. by rewrite Nat.sub_0_r. Qed.

Lemma setitem_stored C vals v :
  length vals < C →
  setitem (stored C vals) (length vals) v = Some (stored C (vals ++ [v])).
Proof.
  intros Hlt. unfold setitem. rewrite stored_length by lia.
  rewrite decide_True by done. f_equal. unfold stored.
  rewrite length_app. cbn [length].
  replace (C - length vals) with (S (C - (length vals + 1))) by lia.
  cbn [replicate]. rewrite insert_app_r_alt by lia.
  rewrite Nat.sub_diag. cbn. by rewrite <- app_assoc.
Qed.

Lemma setitem_full C vals v :
  length vals = C → setitem (stored C vals) (length vals) v = None.
Proof.
  intros Heq. unfold setitem. rewrite stored_length by lia.
  rewrite decide_False; [done|lia].
Qed.

Lemma stored_take_app C n v w : length v = n → take n (stored C (v ++ w)) = v.
Proof. intros <-. unfold stored. by rewrite <- app_assoc, take_app_length. Qed.

Lemma stored_take_eq C n v : length v = n → take n (stored C v) = v.
Proof. intros <-. apply stored_take. Qed.


Lemma seen_S p : (Z.of_nat <$> seq 0 p) ++ [Z.of_nat p] = Z.of_nat <$> seq 0 (S p).
Proof. by rewrite seq_S, fmap_app. Qed.

(** ** FullExperimentSequence21: capacity and attempt budget *)

Section Seq7Facts.
Variable E : Env.
Variable cfg : Config.
Variable C : nat.

Import Seq7.

Definition hits0 (n : nat) : list (Z * Z) := detections E fst n.
Definition hits1 (n : nat) : list (Z * Z) := detections E snd n.

(** The first [p] attempts fit arrays of [C] slots. *)
Definition fits (p : nat) : Prop := length (hits0 p) ≤ C ∧ length (hits1 p) ≤ C.

Global Instance fits_dec p : Decision (fits p).
Proof. unfold fits. apply _. Defined.

Definition filled (p : nat) : Memory :=
  mkMemory (stored C (hits0 p).*1) (stored C (hits0 p).*2)
           (stored C (hits1 p).*1) (stored C (hits1 p).*2).

Definition after (p : nat) (l : Locals) (seen : list Z) (m : Memory) : Prop :=
  fits p ∧ seen = Z.of_nat <$> seq 0 p ∧
  l = mkLocals (Z.of_nat p) (length (hits0 p)) (length (hits1 p)) ∧
  m = filled p.

(** Attempt [q] has raised: it is the last attempt seen, and the records of
    the attempts before it are where they were written. *)
Definition raised_at (q : nat) (seen : list Z) (m : Memory) : Prop :=
  seen = Z.of_nat <$> seq 0 (S q) ∧
  take (length (hits0 q)) (ttl0_detected_times m) = (hits0 q).*1 ∧
  take (length (hits0 q)) (ttl0_detected_attempts m) = (hits0 q).*2 ∧
  take (length (hits1 q)) (ttl1_detected_times m) = (hits1 q).*1 ∧
  take (length (hits1 q)) (ttl1_detected_attempts m) = (hits1 q).*2.

Lemma fits_mono p : fits (S p) → fits p.
Proof.
  unfold fits, hits0, hits1. rewrite !detections_S, !length_app. lia.
Qed.

Lemma after_fits p l seen m : after p l seen m → fits p.
Proof. by intros [? _]. Qed.

Lemma Seq7_excite_and_detect_spec idx (s : State Memory) :
  ∃ s', excite_and_detect E idx s =
          Ok ((gate_in E (length (attempts_seen s))).1,
              (gate_in E (length (attempts_seen s))).2) s' ∧
        attempts_seen s' = attempts_seen s ++ [idx] ∧ mem s' = mem s.
Proof. 
  eexists. split; [unfold excite_and_detect; kcompute; reflexivity|]. by kcompute.
Qed.

Lemma Seq7_set_ttl0_detected_times_ok {A} (kont : unit → K Memory A) (s : State Memory) v k t :
  ttl0_detected_times (mem s) = stored C v → length v = k → k < C →
  bind (set_ttl0_detected_times k t) kont s =
    kont tt (mkState (now s) (actions s) (attempts_seen s)
               (mkMemory (stored C (v ++ [t])) (ttl0_detected_attempts (mem s))
                  (ttl1_detected_times (mem s)) (ttl1_detected_attempts (mem s)))).
Proof.
  intros Hv <- Hlt. unfold bind, set_ttl0_detected_times, bind, get_mem, put_mem.
  by rewrite Hv, setitem_stored.
Qed.

Lemma Seq7_set_ttl0_detected_attempts_ok {A} (kont : unit → K Memory A) (s : State Memory) v k t :
  ttl0_detected_attempts (mem s) = stored C v → length v = k → k < C →
  bind (set_ttl0_detected_attempts k t) kont s =
    kont tt (mkState (now s) (actions s) (attempts_seen s)
               (mkMemory (ttl0_detected_times (mem s)) (stored C (v ++ [t]))
                  (ttl1_detected_times (mem s)) (ttl1_detected_attempts (mem s)))).
Proof.
  intros Hv <- Hlt. unfold bind, set_ttl0_detected_attempts, bind, get_mem, put_mem.
  by rewrite Hv, setitem_stored.
Qed.

Lemma Seq7_set_ttl1_detected_times_ok {A} (kont : unit → K Memory A) (s : State Memory) v k t :
  ttl1_detected_times (mem s) = stored C v → length v = k → k < C →
  bind (set_ttl1_detected_times k t) kont s =
    kont tt (mkState (now s) (actions s) (attempts_seen s)
               (mkMemory (ttl0_detected_times (mem s)) (ttl0_detected_attempts (mem s))
                  (stored C (v ++ [t])) (ttl1_detected_attempts (mem s)))).
Proof.
  intros Hv <- Hlt. unfold bind, set_ttl1_detected_times, bind, get_mem, put_mem.
  by rewrite Hv, setitem_stored.
Qed.

Lemma Seq7_set_ttl1_detected_attempts_ok {A} (kont : unit → K Memory A) (s : State Memory) v k t :
  ttl1_detected_attempts (mem s) = stored C v → length v = k → k < C →
  bind (set_ttl1_detected_attempts k t) kont s =
    kont tt (mkState (now s) (actions s) (attempts_seen s)
               (mkMemory (ttl0_detected_times (mem s)) (ttl0_detected_attempts (mem s))
                  (ttl1_detected_times (mem s)) (stored C (v ++ [t])))).
Proof.
  intros Hv <- Hlt. unfold bind, set_ttl1_detected_attempts, bind, get_mem, put_mem.
  by rewrite Hv, setitem_stored.
Qed.

Lemma Seq7_set_ttl0_detected_times_full {A} (kont : unit → K Memory A) (s : State Memory) v k t :
  ttl0_detected_times (mem s) = stored C v → length v = k → k = C →
  bind (set_ttl0_detected_times k t) kont s = Raise IndexError s.
Proof.
  intros Hv <- Hk. unfold set_ttl0_detected_times, bind, get_mem, raise.
  by rewrite Hv, setitem_full.
Qed.

Lemma Seq7_set_ttl1_detected_times_full {A} (kont : unit → K Memory A) (s : State Memory) v k t :
  ttl1_detected_times (mem s) = stored C v → length v = k → k = C →
  bind (set_ttl1_detected_times k t) kont s = Raise IndexError s.
Proof.
  intros Hv <- Hk. unfold set_ttl1_detected_times, bind, get_mem, raise.
  by rewrite Hv, setitem_full.
Qed.

Lemma attempt_block rep :
  block after raised_at fits 1 (attempt E rep) next_of.
Proof.
  intros p l s (Hfit & Hseen & -> & Hmem).
  unfold attempt.
  destruct (Seq7_excite_and_detect_spec (Z.of_nat p) s) as (s1 & H1 & Hs1 & Hm1).
  cbn [attempt_index ttl0_detected_count ttl1_detected_count].
  rewrite (bind_ok _ _ _ _ _ H1).
  rewrite Hseen, length_fmap, length_seq in *. cbn [fst snd].
  rewrite seen_S in Hs1. rewrite Hmem in Hm1. clear H1 Hseen Hmem s.
  replace (p + 1) with (S p) by lia.
  assert (Hh0 := detections_S E fst p). assert (Hh1 := detections_S E snd p).
  fold (hits0 (S p)) (hits0 p) in Hh0. fold (hits1 (S p)) (hits1 p) in Hh1.
  cbn [fst snd] in Hh0, Hh1.
  destruct Hfit as [Hf0 Hf1].
  assert (Hl0 : length (hits0 p).*1 = length (hits0 p)) by apply length_fmap.
  assert (Hl0' : length (hits0 p).*2 = length (hits0 p)) by apply length_fmap.
  assert (Hl1 : length (hits1 p).*1 = length (hits1 p)) by apply length_fmap.
  assert (Hl1' : length (hits1 p).*2 = length (hits1 p)) by apply length_fmap.
  assert (Hfits : fits (S p) ↔
            length (hits0 (S p)) ≤ C ∧ length (hits1 (S p)) ≤ C) by done.
  rewrite Hh0, Hh1, !length_app in Hfits.
  destruct (decide ((gate_in E p).1 ≠ (-1)%Z)) as [Hd0|Hd0];
    destruct (decide ((gate_in E p).2 ≠ (-1)%Z)) as [Hd1|Hd1];
    destruct (decide (length (hits0 p) < C)) as [Hc0|Hc0];
    destruct (decide (length (hits1 p) < C)) as [Hc1|Hc1];
    cbn [length] in Hfits;
    (destruct (decide (fits (S p))) as [Hfit|Hfit];
     [ pose proof (proj1 Hfits Hfit) | pose proof (λ H, Hfit (proj2 Hfits H)) ];
     try lia).
  all: repeat first
        [ rewrite bind_assoc | rewrite bind_ret_l
        | progress cbn [attempt_index ttl0_detected_count ttl1_detected_count
                        now actions attempts_seen mem
                        ttl0_detected_times ttl0_detected_attempts
                        ttl1_detected_times ttl1_detected_attempts]
        | erewrite Seq7_set_ttl0_detected_times_ok; [|by rewrite ?Hm1|done|lia]
        | erewrite Seq7_set_ttl0_detected_attempts_ok; [|by rewrite ?Hm1|done|lia]
        | erewrite Seq7_set_ttl1_detected_times_ok; [|by rewrite ?Hm1|done|lia]
        | erewrite Seq7_set_ttl1_detected_attempts_ok; [|by rewrite ?Hm1|done|lia]
        | erewrite Seq7_set_ttl0_detected_times_full; [|by rewrite ?Hm1|done|lia]
        | erewrite Seq7_set_ttl1_detected_times_full; [|by rewrite ?Hm1|done|lia] ].
  all: try (eexists _, _, _; split; [reflexivity|]; split; [reflexivity|];
            split; [done|]; split; [done|];
            cbn [attempts_seen mem];
            unfold filled; rewrite ?Hm1, Hh0, Hh1, ?fmap_app, ?length_app, ?app_nil_r;
            cbn [length fmap list_fmap fst snd filled ttl0_detected_times ttl0_detected_attempts
                        ttl1_detected_times ttl1_detected_attempts];
            rewrite ?Nat.add_0_r;
            split; [f_equal; lia|done]).
  all: eexists; (split; [reflexivity|]); exists p; (split; [lia|]);
       (split; [done|]); (split; [done|]);
       cbn [attempts_seen mem]; (split; [done|]);
       rewrite ?Hm1;
       cbn [filled ttl0_detected_times ttl0_detected_attempts
                   ttl1_detected_times ttl1_detected_attempts].
  all: repeat split; first [apply stored_take_app | apply stored_take_eq];
       apply length_fmap.
Qed.

Lemma fits_mono_S p : fits (S p) → fits p.
Proof. apply fits_mono. Qed.

Lemma cooling_device : device_only (Mem:=Memory) cooling.
Proof. unfold cooling. device. Qed.

Lemma load_phase_device : device_only (load_phase E).
Proof. unfold load_phase. device. Qed.

Lemma cooling_cycle_block cycle_idx :
  block after raised_at fits (attempts_per_cooling cfg * 1)
    (cooling_cycle E cfg cycle_idx) next_of.
Proof.
  unfold cooling_cycle. apply block_post; [|apply cooling_device].
  apply block_for_range_from; [apply fits_mono|apply after_fits|apply attempt_block].
Qed.

Lemma big_cycle_block big_cycle_idx :
  block after raised_at fits
    (num_cooling_cycles cfg * (attempts_per_cooling cfg * 1))
    (big_cycle E cfg big_cycle_idx) next_of.
Proof.
  unfold big_cycle. apply block_pre; [apply load_phase_device|].
  apply block_post; [|apply device_only_break_realtime].
  apply block_for_range_from; [apply fits_mono|apply after_fits|apply cooling_cycle_block].
Qed.

(** The attempts of one chunk. *)
Definition attempts_per_chunk : nat :=
  num_big_cycles_chunk cfg * (num_cooling_cycles cfg * attempts_per_cooling cfg).

Lemma chunk_block :
  block after raised_at fits attempts_per_chunk
    (for_range (num_big_cycles_chunk cfg) (big_cycle E cfg)) Some.
Proof.
  unfold attempts_per_chunk.
  replace (attempts_per_cooling cfg) with (attempts_per_cooling cfg * 1) by lia.
  apply block_for_range_from; [apply fits_mono|apply after_fits|apply big_cycle_block].
Qed.

Lemma after_start : after 0 (mkLocals 0 0 0) [] (alloc C).
Proof.
  split; [|split; [done|split; [done|]]].
  - split; cbn; lia.
  - unfold filled, alloc.
    assert (hits0 0 = []) as -> by done. assert (hits1 0 = []) as -> by done.
    cbn [fmap list_fmap]. by rewrite !stored_nil.
Qed.

Lemma fits_le p q : p ≤ q → fits q → fits p.
Proof. induction 1; auto using fits_mono. Qed.

(** Attempt [q] is the first that needs a slot beyond the [C]-th: the
    attempts before it fit, and a channel that already has [C] records
    detects again. *)
Definition overflows (q : nat) : Prop :=
  fits q ∧
  (((gate_in E q).1 ≠ (-1)%Z ∧ length (hits0 q) = C) ∨
   ((gate_in E q).2 ≠ (-1)%Z ∧ length (hits1 q) = C)).

Lemma overflows_iff q : overflows q ↔ fits q ∧ ¬ fits (S q).
Proof.
  unfold overflows, fits, hits0, hits1. rewrite !detections_S, !length_app.
  cbn [fst snd]. repeat case_decide; cbn [length]; lia.
Qed.

Lemma run_chunk_experiment_outcome chunk_idx t acts :
  let s0 := mkState t acts [] (alloc C) in
  if decide (fits attempts_per_chunk) then
    ∃ s', run_chunk_experiment E cfg chunk_idx s0 =
            Ok (length (hits0 attempts_per_chunk), length (hits1 attempts_per_chunk)) s' ∧
          attempts_seen s' = Z.of_nat <$> seq 0 attempts_per_chunk ∧
          mem s' = filled attempts_per_chunk
  else
    ∃ s', run_chunk_experiment E cfg chunk_idx s0 = Raise IndexError s' ∧
          failed_in raised_at fits 0 attempts_per_chunk s'.
Proof.
  intros s0. unfold run_chunk_experiment.
  do 5 device_step.
  match goal with |- context [bind _ _ ?s] => set (s5 := s) end.
  pose proof (chunk_block 0 (mkLocals 0 0 0) s5) as Hb.
  assert (attempts_seen s5 = [] ∧ mem s5 = alloc C) as [Hs5 Hm5].
  { subst s0 s5. cbn [attempts_seen mem] in *. split; congruence. }
  rewrite Hs5, Hm5 in Hb. specialize (Hb after_start).
  cbn [Nat.add] in Hb. case_decide.
  - destruct Hb as (l1 & l' & s' & H2 & [= ->] & _ & Hs & -> & Hm).
    exists s'. by rewrite (bind_ok _ _ _ _ _ H2).
  - destruct Hb as (s' & H2 & Hf). exists s'.
    by rewrite (bind_raise _ _ _ _ _ H2).
Qed.

End Seq7Facts.

(** C2.  In FullExperimentSequence21, when attempt [q] of a chunk is the first
    in which a channel that already holds [C] records detects again, the
    kernel raises [IndexError] (the capacity error) in that attempt: the attempts
    [0..q] are the ones that ran, none after, and on both channels the records
    of the attempts before [q] (all [C] of them on the channel that is full)
    are still the first entries of the arrays. *)
Theorem Seq7_capacity_exceeded_at_next_write E cfg C chunk_idx t acts q :
  q < attempts_per_chunk cfg → overflows E C q →
  ∃ s', Seq7.run_chunk_experiment E cfg chunk_idx (mkState t acts [] (Seq7.alloc C)) =
          Raise IndexError s' ∧
        attempts_seen s' = Z.of_nat <$> seq 0 (S q) ∧
        take (length (hits0 E q)) (Seq7.ttl0_detected_times (mem s')) = (hits0 E q).*1 ∧
        take (length (hits0 E q)) (Seq7.ttl0_detected_attempts (mem s')) = (hits0 E q).*2 ∧
        take (length (hits1 E q)) (Seq7.ttl1_detected_times (mem s')) = (hits1 E q).*1 ∧
        take (length (hits1 E q)) (Seq7.ttl1_detected_attempts (mem s')) = (hits1 E q).*2.
Proof.
  intros Hq [Hfit Hnot]%overflows_iff.
  pose proof (run_chunk_experiment_outcome E cfg C chunk_idx t acts) as Hrun.
  cbn zeta in Hrun. rewrite decide_False in Hrun.
  2:{ intros HN. apply Hnot. eapply fits_le; [|done]. lia. }
  destruct Hrun as (s' & Hrun & q' & Hq' & Hfit' & Hnot' & Hraised).
  assert (q' = q) as ->.
  { destruct (decide (q' < q)); [exfalso; apply Hnot'; eapply fits_le; [|exact Hfit]; lia|].
    destruct (decide (q < q')); [exfalso; apply Hnot; eapply fits_le; [|exact Hfit']; lia|].
    lia. }
  exists s'. split; [done|]. exact Hraised.
Qed.

Definition ttl0_every_time : Env := mkEnv (λ n, (Z.of_nat n + 100, -1))%Z (λ n, 0%Z).

Lemma Seq7_capacity_exceeded_at_next_write_witness :
  ∃ s', Seq7.run_chunk_experiment ttl0_every_time (mkConfig 1 1 1 3) 0
          (mkState 0 [] [] (Seq7.alloc 2)) = Raise IndexError s' ∧
        attempts_seen s' = Z.of_nat <$> seq 0 3 ∧
        take (length (hits0 ttl0_every_time 2)) (Seq7.ttl0_detected_times (mem s')) =
          (hits0 ttl0_every_time 2).*1 ∧
        take (length (hits0 ttl0_every_time 2)) (Seq7.ttl0_detected_attempts (mem s')) =
          (hits0 ttl0_every_time 2).*2 ∧
        take (length (hits1 ttl0_every_time 2)) (Seq7.ttl1_detected_times (mem s')) =
          (hits1 ttl0_every_time 2).*1 ∧
        take (length (hits1 ttl0_every_time 2)) (Seq7.ttl1_detected_attempts (mem s')) =
          (hits1 ttl0_every_time 2).*2.
Proof.
  apply (Seq7_capacity_exceeded_at_next_write ttl0_every_time (mkConfig 1 1 1 3) 2 0 0 [] 2).
  - vm_compute. lia.
  - split; [split; vm_compute; lia|]. left. split; [vm_compute; discriminate|reflexivity].
Defined.

(** C4, as amended.  In FullExperimentSequence21, provided the detections of
    each channel fit the arrays, a chunk runs every attempt of its budget
    whatever is detected: the kernel returns, it has run exactly
    [num_big_cycles_chunk * num_cooling_cycles * attempts_per_cooling]
    attempts, numbered from 0 without gap, every detection of either channel
    is in that channel's arrays, in order, and the counts returned are the
    numbers of detections; and each big cycle runs exactly
    [num_cooling_cycles * attempts_per_cooling] attempts. *)
Theorem Seq7_exhausts_attempt_budget E cfg C chunk_idx t acts :
  fits E C (attempts_per_chunk cfg) →
  (∃ s', Seq7.run_chunk_experiment E cfg chunk_idx (mkState t acts [] (Seq7.alloc C)) =
           Ok (length (hits0 E (attempts_per_chunk cfg)),
               length (hits1 E (attempts_per_chunk cfg))) s' ∧
         attempts_seen s' = Z.of_nat <$> seq 0 (attempts_per_chunk cfg) ∧
         length (attempts_seen s') =
           num_big_cycles_chunk cfg * num_cooling_cycles cfg * attempts_per_cooling cfg ∧
         mem s' = filled E C (attempts_per_chunk cfg)) ∧
  (∀ big_cycle_idx p l (s : State Seq7.Memory),
     after E C p l (attempts_seen s) (mem s) →
     p + num_cooling_cycles cfg * attempts_per_cooling cfg ≤ attempts_per_chunk cfg →
     ∃ l' s', Seq7.big_cycle E cfg big_cycle_idx l s = Ok (Next, l') s' ∧
              attempts_seen s' =
                attempts_seen s ++
                (Z.of_nat <$> seq p (num_cooling_cycles cfg * attempts_per_cooling cfg)) ∧
              after E C (p + num_cooling_cycles cfg * attempts_per_cooling cfg) l'
                (attempts_seen s') (mem s')).
Proof.
  intros Hfit. split.
  - pose proof (run_chunk_experiment_outcome E cfg C chunk_idx t acts) as Hrun.
    cbn zeta in Hrun. rewrite decide_True in Hrun by done.
    destruct Hrun as (s' & Hrun & Hseen & Hmem). exists s'.
    split; [done|]. split; [done|]. split; [|done].
    rewrite Hseen, length_fmap, length_seq. unfold attempts_per_chunk. lia.
  - intros i p l s Hafter Hle.
    pose proof (big_cycle_block E cfg C i p l s Hafter) as Hb.
    rewrite Nat.mul_1_r in Hb. rewrite decide_True in Hb.
    2:{ eapply fits_le; [|exact Hfit]. done. }
    destruct Hb as ([f l1] & l' & s' & H1 & Hout & Hafter').
    unfold next_of in Hout. cbn in Hout. destruct f; [|done]. injection Hout as ->.
    exists l', s'. split; [done|]. split; [|done].
    destruct Hafter as (_ & -> & _). destruct Hafter' as (_ & -> & _).
    by rewrite seq_app, fmap_app.
Qed.

Definition ttl0_twice : Env :=
  mkEnv (λ n, (if decide (n < 2) then (Z.of_nat n + 100)%Z else (-1)%Z, (-1)%Z)) (λ n, 0%Z).

Lemma Seq7_exhausts_attempt_budget_witness :
  fits ttl0_twice 2 (attempts_per_chunk (mkConfig 2 1 1 2)) ∧
  ∃ s', Seq7.run_chunk_experiment ttl0_twice (mkConfig 2 1 1 2) 0
          (mkState 0 [] [] (Seq7.alloc 2)) = Ok (2, 0) s' ∧
        length (attempts_seen s') = 4 ∧
        Seq7.ttl0_detected_attempts (mem s') = [0; 1]%Z.
Proof.
  assert (Hfit : fits ttl0_twice 2 (attempts_per_chunk (mkConfig 2 1 1 2))).
  { split; vm_compute; lia. }
  split; [exact Hfit|].
  destruct (Seq7_exhausts_attempt_budget ttl0_twice (mkConfig 2 1 1 2) 2 0 0 [] Hfit)
    as [(s' & Hrun & _ & Hlen & Hmem) _].
  exists s'. split; [exact Hrun|]. split; [exact Hlen|]. by rewrite Hmem.
Defined.

(** C4, as stated, fails: with 12 attempts per cooling cycle [run] allocates
    [1 * 1 * 10] slots, and when [ttl0] detects in every attempt the kernel
    raises in the eleventh attempt; the twelfth never runs. *)
Lemma Seq7_exhausts_attempt_budget_counterexample :
  let cfg := mkConfig 1 1 1 12 in
  let r := Seq7.run_chunk_experiment ttl0_every_time cfg 0
             (kernel_start (Seq7.alloc (Seq7.chunk_max cfg))) in
  r = Raise IndexError (final r) ∧
  length (attempts_seen (final r)) = 11 ∧
  num_big_cycles_chunk cfg * num_cooling_cycles cfg * attempts_per_cooling cfg = 12 ∧
  ∃ h, Seq7.run (λ _, ttl0_every_time) cfg (Seq7.mkHost (Seq7.alloc 0) ∅) =
         Failed IndexError h.
Proof.
  cbn zeta. split; [by vm_compute|]. split; [by vm_compute|]. split; [done|].
  eexists. unfold Seq7.run, host_for_range_from, num_chunks, Seq7.run_chunk.
  cbn [Seq7.arrays Seq7.datasets].
  set (r := Seq7.run_chunk_experiment _ _ _ _).
  assert (r = Raise IndexError (final r)) as -> by by vm_compute.
  reflexivity.
Qed.

(** ** The detection-gated kernels (FullExperimentSequence16 and 17) *)

Lemma setitem_lt a i v : i < length a → setitem a i v = Some (<[i:=v]> a).
Proof. intros. unfold setitem. by rewrite decide_True. Qed.

Section GatedFacts.
Variable E : Env.
Variable cfg : Config.

Import Gated.

(** The operations of one attempt, stamped from the cursor [t] it starts at. *)
Definition excite_actions (t : Z) : list (Z * Action) :=
  let t1 := (t + 5 * us)%Z in
  let t2 := (t1 + optical_pump_time)%Z in
  let t3 := (t2 + small_delay)%Z in
  let t4 := (t3 + excitation_time)%Z in
  let t5 := (t4 + small_delay)%Z in
  let t6 := (t5 + pulse_width)%Z in
  [(t1, SwOn urukul0_ch3); (t2, SwOff urukul0_ch3);
   (t3, SwOn urukul0_ch3); (t4, SwOff urukul0_ch3);
   (t5, TtlOn ttl7); (t6, TtlOff ttl7);
   (t6, GateRising ttl0 gate_rising_time); (t6, GateRising ttl1 gate_rising_time)].

(** The time one attempt takes on the timeline: 17.2 us. *)
Definition excite_duration : Z :=
  5 * us + optical_pump_time + small_delay + excitation_time + small_delay +
  pulse_width + gate_rising_time.


Lemma excite_and_detect_spec idx (s : State Memory) :
  excite_and_detect E idx s =
    Ok ((gate_in E (length (attempts_seen s))).1,
        (gate_in E (length (attempts_seen s))).2)
       (mkState (now s + excite_duration) (actions s ++ excite_actions (now s))
          (attempts_seen s ++ [idx]) (mem s)).
Proof.
  unfold excite_and_detect. kcompute. rewrite Z.max_id. f_equal. f_equal.
  - unfold excite_duration. lia.
  - unfold excite_actions. cbn zeta. by rewrite <- !app_assoc.
Qed.

Ltac setter X :=
  intros s i v kont Hlt; unfold bind, X, bind, get_mem, put_mem;
  by rewrite setitem_lt by done.

Lemma set_ttl0_detected_times_ok {A} (s : State Memory) i v (kont : unit → K Memory A) :
  i < length (ttl0_detected_times (mem s)) →
  bind (set_ttl0_detected_times i v) kont s =
    kont tt (mkState (now s) (actions s) (attempts_seen s)
      (mkMemory (<[i:=v]> (ttl0_detected_times (mem s))) (ttl0_detected_attempts (mem s))
         (ttl1_detected_times (mem s)) (ttl1_detected_attempts (mem s))
         (atom_tomo_times (mem s)) (atom_tomo_attempts (mem s)))).
Proof. revert s i v kont. setter @set_ttl0_detected_times. Qed.

Lemma set_ttl0_detected_attempts_ok {A} (s : State Memory) i v (kont : unit → K Memory A) :
  i < length (ttl0_detected_attempts (mem s)) →
  bind (set_ttl0_detected_attempts i v) kont s =
    kont tt (mkState (now s) (actions s) (attempts_seen s)
      (mkMemory (ttl0_detected_times (mem s)) (<[i:=v]> (ttl0_detected_attempts (mem s)))
         (ttl1_detected_times (mem s)) (ttl1_detected_attempts (mem s))
         (atom_tomo_times (mem s)) (atom_tomo_attempts (mem s)))).
Proof. revert s i v kont. setter @set_ttl0_detected_attempts. Qed.

Lemma set_ttl1_detected_times_ok {A} (s : State Memory) i v (kont : unit → K Memory A) :
  i < length (ttl1_detected_times (mem s)) →
  bind (set_ttl1_detected_times i v) kont s =
    kont tt (mkState (now s) (actions s) (attempts_seen s)
      (mkMemory (ttl0_detected_times (mem s)) (ttl0_detected_attempts (mem s))
         (<[i:=v]> (ttl1_detected_times (mem s))) (ttl1_detected_attempts (mem s))
         (atom_tomo_times (mem s)) (atom_tomo_attempts (mem s)))).
Proof. revert s i v kont. setter @set_ttl1_detected_times. Qed.

Lemma set_ttl1_detected_attempts_ok {A} (s : State Memory) i v (kont : unit → K Memory A) :
  i < length (ttl1_detected_attempts (mem s)) →
  bind (set_ttl1_detected_attempts i v) kont s =
    kont tt (mkState (now s) (actions s) (attempts_seen s)
      (mkMemory (ttl0_detected_times (mem s)) (ttl0_detected_attempts (mem s))
         (ttl1_detected_times (mem s)) (<[i:=v]> (ttl1_detected_attempts (mem s)))
         (atom_tomo_times (mem s)) (atom_tomo_attempts (mem s)))).
Proof. revert s i v kont. setter @set_ttl1_detected_attempts. Qed.

Lemma set_atom_tomo_times_ok {A} (s : State Memory) i v (kont : unit → K Memory A) :
  i < length (atom_tomo_times (mem s)) →
  bind (set_atom_tomo_times i v) kont s =
    kont tt (mkState (now s) (actions s) (attempts_seen s)
      (mkMemory (ttl0_detected_times (mem s)) (ttl0_detected_attempts (mem s))
         (ttl1_detected_times (mem s)) (ttl1_detected_attempts (mem s))
         (<[i:=v]> (atom_tomo_times (mem s))) (atom_tomo_attempts (mem s)))).
Proof. revert s i v kont. setter @set_atom_tomo_times. Qed.

Lemma set_atom_tomo_attempts_ok {A} (s : State Memory) i v (kont : unit → K Memory A) :
  i < length (atom_tomo_attempts (mem s)) →
  bind (set_atom_tomo_attempts i v) kont s =
    kont tt (mkState (now s) (actions s) (attempts_seen s)
      (mkMemory (ttl0_detected_times (mem s)) (ttl0_detected_attempts (mem s))
         (ttl1_detected_times (mem s)) (ttl1_detected_attempts (mem s))
         (atom_tomo_times (mem s)) (<[i:=v]> (atom_tomo_attempts (mem s))))).
Proof. revert s i v kont. setter @set_atom_tomo_attempts. Qed.

(** An attempt in which neither gate saw an edge only advances the counter. *)
Lemma attempt_no_detection rep l (s : State Memory) :
  (gate_in E (length (attempts_seen s))).1 = (-1)%Z →
  (gate_in E (length (attempts_seen s))).2 = (-1)%Z →
  attempt E rep l s =
    Ok (Next, mkLocals (attempt_index l + 1) (ttl0_detected_count l)
                (ttl1_detected_count l) (tomo_count l) (photon_detected_this_cycle l))
       (mkState (now s + excite_duration) (actions s ++ excite_actions (now s))
          (attempts_seen s ++ [attempt_index l]) (mem s)).
Proof.
  intros H0 H1. unfold attempt.
  rewrite (bind_ok _ _ _ _ _ (excite_and_detect_spec _ _)). cbn [fst snd].
  rewrite H0, H1.
  repeat (rewrite ?bind_ret_l; rewrite decide_False by tauto). done.
Qed.

(** The timestamp [t] of a gate is a detection. *)
Definition detected (t : Z) : Prop := t ≠ (-1)%Z.

(** The array [a] after an attempt whose gate read [t]: written at [i]
    with [v] when [t] is a detection. *)
Definition recorded (t : Z) (a : list Z) (i : nat) (v : Z) : list Z :=
  if decide (detected t) then <[i:=v]> a else a.

Definition counted (t : Z) (n : nat) : nat :=
  if decide (detected t) then n + 1 else n.

(** The arrays have a free slot for what an attempt reading [(t0, t1)]
    records. *)
Definition has_room (t0 t1 : Z) (l : Locals) (m : Memory) : Prop :=
  (detected t0 → ttl0_detected_count l < length (ttl0_detected_times m) ∧
                 ttl0_detected_count l < length (ttl0_detected_attempts m)) ∧
  (detected t1 → ttl1_detected_count l < length (ttl1_detected_times m) ∧
                 ttl1_detected_count l < length (ttl1_detected_attempts m)) ∧
  tomo_count l < length (atom_tomo_times m) ∧
  tomo_count l < length (atom_tomo_attempts m).

(** An attempt in which a gate saw an edge: the records, the tomography
    record stamped with the cursor [T] at the end of the gates, the pulse
    3 us later, and [break]. *)
Lemma attempt_detection rep l (s : State Memory) :
  let t0 := (gate_in E (length (attempts_seen s))).1 in
  let t1 := (gate_in E (length (attempts_seen s))).2 in
  let T := (now s + excite_duration)%Z in
  let m := mem s in
  detected t0 ∨ detected t1 →
  has_room t0 t1 l m →
  attempt E rep l s =
    Ok (Break, mkLocals (attempt_index l) (counted t0 (ttl0_detected_count l))
                 (counted t1 (ttl1_detected_count l)) (tomo_count l + 1) true)
       (mkState (T + 3 * us + 10 * ms)
          (actions s ++ excite_actions (now s) ++
             [((T + 3 * us)%Z, TtlOn ttl4); ((T + 3 * us + 10 * ms)%Z, TtlOff ttl4)])
          (attempts_seen s ++ [attempt_index l])
          (mkMemory
             (recorded t0 (ttl0_detected_times m) (ttl0_detected_count l) t0)
             (recorded t0 (ttl0_detected_attempts m) (ttl0_detected_count l) (attempt_index l))
             (recorded t1 (ttl1_detected_times m) (ttl1_detected_count l) t1)
             (recorded t1 (ttl1_detected_attempts m) (ttl1_detected_count l) (attempt_index l))
             (<[tomo_count l := T]> (atom_tomo_times m))
             (<[tomo_count l := attempt_index l]> (atom_tomo_attempts m)))).
Proof.
  intros t0 t1 T m Hdet (H0 & H1 & Ht & Ht'). unfold attempt.
  rewrite (bind_ok _ _ _ _ _ (excite_and_detect_spec _ _)). cbn [fst snd].
  fold t0 t1 T. unfold recorded, counted, detected in *.
  destruct (decide (t0 ≠ (-1)%Z)) as [d0|d0]; destruct (decide (t1 ≠ (-1)%Z)) as [d1|d1];
    try tauto.
  all: repeat first
    [ rewrite bind_assoc | rewrite bind_ret_l
    | progress cbn [attempt_index ttl0_detected_count ttl1_detected_count tomo_count
                    photon_detected_this_cycle now actions attempts_seen mem
                    ttl0_detected_times ttl0_detected_attempts
                    ttl1_detected_times ttl1_detected_attempts
                    atom_tomo_times atom_tomo_attempts]
    | rewrite set_ttl0_detected_times_ok by (cbn; tauto)
    | rewrite set_ttl0_detected_attempts_ok by (cbn; tauto)
    | rewrite set_ttl1_detected_times_ok by (cbn; tauto)
    | rewrite set_ttl1_detected_attempts_ok by (cbn; tauto)
    | rewrite set_atom_tomo_times_ok by (cbn; tauto)
    | rewrite set_atom_tomo_attempts_ok by (cbn; tauto)
    | rewrite decide_True by tauto ].
  all: rewrite (bind_ok _ _ _ _ _ (eq_refl : now_mu _ = Ok _ _)); cbn [now].
  all: rewrite set_atom_tomo_times_ok by done; cbn [now actions attempts_seen mem
         ttl0_detected_times ttl0_detected_attempts ttl1_detected_times
         ttl1_detected_attempts atom_tomo_times atom_tomo_attempts].
  all: rewrite set_atom_tomo_attempts_ok by done; cbn [now actions attempts_seen mem
         ttl0_detected_times ttl0_detected_attempts ttl1_detected_times
         ttl1_detected_attempts atom_tomo_times atom_tomo_attempts].
  all: unfold tomography_pulse; kcompute; rewrite <- !app_assoc; reflexivity.
Qed.

(** The operations of one attempt without detection, of the cooling, and
    of the preamble of [run_chunk_experiment]. *)
Definition attempt_ops : list Action :=
  [SwOn urukul0_ch3; SwOff urukul0_ch3; SwOn urukul0_ch3; SwOff urukul0_ch3;
   TtlOn ttl7; TtlOff ttl7;
   GateRising ttl0 gate_rising_time; GateRising ttl1 gate_rising_time].

Definition cooling_ops : list Action :=
  [DdsSet urukul0_ch0 (50 * MHz); DdsSetAmplitude urukul0_ch0 5; SwOn urukul0_ch0;
   DdsSet urukul0_ch1 (60 * MHz); DdsSetAmplitude urukul0_ch1 5; SwOn urukul0_ch1;
   SwOff urukul0_ch0; SwOff urukul0_ch1].

Definition setup_ops : list Action :=
  [CoreReset; TtlInput ttl0; TtlInput ttl1; TtlOutput ttl4; TtlOutput ttl7].

Lemma cooling_emits : emits (Mem:=Memory) cooling cooling_ops.
Proof. unfold cooling. emits. Qed.

(** No edge in the [n]-th pair of gate windows. *)
Definition no_edge (n : nat) : Prop :=
  (gate_in E n).1 = (-1)%Z ∧ (gate_in E n).2 = (-1)%Z.

Definition bump (k : nat) (l : Locals) : Locals :=
  mkLocals (attempt_index l + Z.of_nat k) (ttl0_detected_count l)
    (ttl1_detected_count l) (tomo_count l) (photon_detected_this_cycle l).

Definition undetected (l : Locals) : Prop := photon_detected_this_cycle l = false.

Lemma bump_0 l : bump 0 l = l.
Proof. destruct l. unfold bump. cbn. f_equal. lia. Qed.

Lemma bump_add a b l : bump (a + b) l = bump b (bump a l).
Proof. unfold bump. cbn. f_equal. lia. Qed.

Lemma counter_bump k l : attempt_index (bump k l) = (attempt_index l + Z.of_nat k)%Z.
Proof. done. Qed.

Lemma undetected_bump k l : undetected l → undetected (bump k l).
Proof. done. Qed.

Local Abbreviation quiet := (quiet no_edge attempt_index bump undetected) (only parsing).

Lemma quiet_loop k ops (body : nat → Locals → K Memory (Flow * Locals)) n :
  (∀ i, quiet k ops (body i) (λ l, (Next, l))) →
  quiet (n * k) (concat (replicate n ops)) (for_range n body) id.
Proof.
  intros. apply quiet_for_range_from;
    auto using bump_0, bump_add, counter_bump, undetected_bump.
Qed.

Lemma attempt_quiet rep : quiet 1 attempt_ops (attempt E rep) (λ l, (Next, l)).
Proof.
  intros l s _ Hno. destruct (Hno 0) as [H0 H1]; [lia|].
  rewrite Nat.add_0_r in H0, H1.
  rewrite (attempt_no_detection rep l s H0 H1).
  eexists. split; [reflexivity|]. cbn [attempts_seen mem].
  rewrite index_range_1. split; [done|]. split; [done|].
  unfold operations. cbn [actions]. by rewrite fmap_app.
Qed.

Lemma cooling_cycle_quiet cycle_idx :
  quiet (attempts_per_cooling cfg * 1)
    (concat (replicate (attempts_per_cooling cfg) attempt_ops) ++ cooling_ops)
    (cooling_cycle E cfg cycle_idx) (λ l, (Next, l)).
Proof.
  intros l s Hok Hno. unfold cooling_cycle.
  eapply advances_eq; [eapply advances_bind| |].
  - apply (quiet_loop 1 attempt_ops (attempt E)); [apply attempt_quiet|done..].
  - intros s1 _ _. cbn [id]. rewrite (undetected_bump _ _ Hok).
    eapply advances_bind; [apply emits_advances, cooling_emits|].
    intros s2 _ _. apply advances_ret.
  - by rewrite !app_nil_r.
  - by rewrite !app_nil_r.
Qed.

Section WithLoad.
Variable load_phase : K Memory unit.
Variable load_ops : list Action.
Hypothesis load_emits : emits load_phase load_ops.

(** The operations of a big cycle, and of a chunk, without detection. *)
Definition quiet_big_cycle_ops : list Action :=
  load_ops ++
  concat (replicate (num_cooling_cycles cfg)
            (concat (replicate (attempts_per_cooling cfg) attempt_ops) ++ cooling_ops)) ++
  [BreakRealtime].

Definition quiet_chunk_ops : list Action :=
  setup_ops ++ concat (replicate (num_big_cycles_chunk cfg) quiet_big_cycle_ops).

Lemma big_cycle_quiet big_cycle_idx :
  quiet (num_cooling_cycles cfg * (attempts_per_cooling cfg * 1)) quiet_big_cycle_ops
    (big_cycle E cfg load_phase big_cycle_idx) (λ l, (Next, l)).
Proof using load_emits.
  intros l s Hok Hno. unfold big_cycle.
  assert (mkLocals (attempt_index l) (ttl0_detected_count l) (ttl1_detected_count l)
            (tomo_count l) false = l) as ->.
  { destruct l. unfold undetected in Hok. cbn in *. by subst. }
  eapply advances_eq; [eapply advances_bind| |].
  - apply emits_advances, load_emits.
  - intros s1 Hs1 _. eapply advances_bind.
    + eapply quiet_loop; [apply cooling_cycle_quiet|done|].
      intros i Hi. rewrite Hs1, app_nil_r. by apply Hno.
    + intros s2 _ _. cbn [id]. eapply advances_bind.
      * apply emits_advances, emits_break_realtime.
      * intros s3 _ _. apply advances_ret.
  - by rewrite !app_nil_r.
  - unfold quiet_big_cycle_ops. by rewrite !app_nil_r.
Qed.

Lemma run_chunk_experiment_quiet chunk_idx t acts m :
  let total := num_big_cycles_chunk cfg *
               (num_cooling_cycles cfg * (attempts_per_cooling cfg * 1)) in
  (∀ n, n < total → no_edge n) →
  advances (run_chunk_experiment E cfg load_phase chunk_idx (mkState t acts [] m))
    (mkState t acts [] m) (0, 0, 0) (index_range 0 total) quiet_chunk_ops.
Proof using load_emits.
  intros total Hno. unfold run_chunk_experiment.
  assert (emits (Mem:=Memory)
            (bind (core_reset E) (λ _, bind (ttl_input ttl0) (λ _, bind (ttl_input ttl1)
              (λ _, bind (ttl_output ttl4) (λ _, ttl_output ttl7))))) setup_ops)
    as Hsetup by emits.
  set (s0 := mkState t acts [] m).
  set (rest := λ _ : unit, bind (for_range _ _ _) _).
  assert (∀ s, advances (rest tt s) s (0, 0, 0) (index_range 0 total)
                 (concat (replicate (num_big_cycles_chunk cfg) quiet_big_cycle_ops)) →
          attempts_seen s = [] → True) as _ by done.
  enough (advances (bind (bind (core_reset E) (λ _, bind (ttl_input ttl0)
            (λ _, bind (ttl_input ttl1) (λ _, bind (ttl_output ttl4)
            (λ _, ttl_output ttl7))))) rest s0) s0 (0, 0, 0)
            (index_range 0 total) quiet_chunk_ops) as Hall.
  { by rewrite !bind_assoc in Hall. }
  eapply advances_eq; [eapply advances_bind| |].
  - apply emits_advances, Hsetup.
  - intros s1 Hs1 _. unfold rest. eapply advances_bind.
    + eapply quiet_loop; [apply big_cycle_quiet|done|].
      intros i Hi. rewrite Hs1. cbn. by apply Hno.
    + intros s2 _ _. apply advances_ret.
  - by rewrite !app_nil_r.
  - by rewrite !app_nil_r.
Qed.

(** What a big cycle does when the first edge comes in the second attempt
    of its first cooling cycle; [n] is the number of attempts the chunk
    has run before. *)
Lemma big_cycle_detection_on_second_attempt big_cycle_idx l (s : State Memory) :
  let n := length (attempts_seen s) in
  let t0 := (gate_in E (n + 1)).1 in
  let t1 := (gate_in E (n + 1)).2 in
  let idx := (attempt_index l + 1)%Z in
  let m := mem s in
  2 ≤ attempts_per_cooling cfg → 1 ≤ num_cooling_cycles cfg →
  no_edge n → detected t0 ∨ detected t1 → has_room t0 t1 l m →
  ∃ T pre s',
    big_cycle E cfg load_phase big_cycle_idx l s =
      Ok (Next, mkLocals idx (counted t0 (ttl0_detected_count l))
                  (counted t1 (ttl1_detected_count l)) (tomo_count l + 1) true) s' ∧
    attempts_seen s' = attempts_seen s ++ [attempt_index l; idx] ∧
    mem s' =
      mkMemory
        (recorded t0 (ttl0_detected_times m) (ttl0_detected_count l) t0)
        (recorded t0 (ttl0_detected_attempts m) (ttl0_detected_count l) idx)
        (recorded t1 (ttl1_detected_times m) (ttl1_detected_count l) t1)
        (recorded t1 (ttl1_detected_attempts m) (ttl1_detected_count l) idx)
        (<[tomo_count l := T]> (atom_tomo_times m))
        (<[tomo_count l := idx]> (atom_tomo_attempts m)) ∧
    operations s' =
      operations s ++ load_ops ++ attempt_ops ++ attempt_ops ++
      [TtlOn ttl4; TtlOff ttl4; BreakRealtime] ∧
    actions s' =
      pre ++ [((T - gate_rising_time)%Z, GateRising ttl1 gate_rising_time);
              ((T + 3 * us)%Z, TtlOn ttl4);
              ((T + 3 * us + 10 * ms)%Z, TtlOff ttl4);
              (now s', BreakRealtime)].
Proof using load_emits.
  intros n t0 t1 idx m HA HC [Hn0 Hn1] Hdet Hroom. unfold big_cycle.
  destruct (load_emits s) as ([] & s1 & H1 & Hs1 & Hm1 & Ho1).
  rewrite app_nil_r in Hs1. rewrite (bind_ok _ _ _ _ _ H1).
  destruct (num_cooling_cycles cfg) as [|Cc] eqn:HCc; [lia|].
  destruct (attempts_per_cooling cfg) as [|[|A]] eqn:HAc; [lia|lia|].
  set (l0 := mkLocals (attempt_index l) _ _ _ false).
  assert (Hfirst : attempt E 0 l0 s1 = _) by (apply attempt_no_detection; by rewrite Hs1).
  cbn [attempt_index ttl0_detected_count ttl1_detected_count tomo_count
       photon_detected_this_cycle l0] in Hfirst.
  set (s2 := mkState _ _ _ _) in Hfirst. set (l1 := mkLocals _ _ _ _ _) in Hfirst.
  assert (Hn2 : length (attempts_seen s2) = n + 1).
  { unfold s2. cbn [attempts_seen]. rewrite length_app, Hs1. done. }
  assert (Hsecond := attempt_detection 1 l1 s2).
  cbn zeta in Hsecond. rewrite Hn2 in Hsecond. fold t0 t1 in Hsecond.
  specialize (Hsecond Hdet). 
  assert (Hm2 : mem s2 = m) by (unfold s2; cbn [mem]; done).
  rewrite Hm2 in Hsecond. specialize (Hsecond Hroom).
  cbn [attempt_index ttl0_detected_count ttl1_detected_count tomo_count
       photon_detected_this_cycle l1] in Hsecond. fold idx in Hsecond.
  set (s3 := mkState _ _ _ _) in Hsecond. set (l2 := mkLocals _ _ _ _ _) in Hsecond.
  assert (Hattempts : for_range_from 0 (S (S A)) (attempt E) l0 s1 = Ok l2 s3).
  { rewrite (for_range_from_next _ _ _ _ _ _ _ Hfirst).
    apply (for_range_from_break _ _ _ _ _ _ _ Hsecond). }
  assert (Hcycle : cooling_cycle E cfg 0 l0 s1 = Ok (Break, l2) s3).
  { unfold cooling_cycle, for_range. rewrite HAc.
    by rewrite (bind_ok _ _ _ _ _ Hattempts). }
  unfold for_range.
  rewrite (bind_ok _ _ _ _ _ (for_range_from_break _ _ _ _ _ _ _ Hcycle)).
  rewrite (bind_ok _ _ _ _ _ (eq_refl : break_realtime E s3 = Ok tt _)).
  exists (now s2 + excite_duration)%Z, (actions s2 ++ take 7 (excite_actions (now s2))).
  eexists. split; [reflexivity|].
  cbn [attempts_seen mem actions now]. unfold operations. cbn [actions].
  split; [|split; [done|split]].
  - unfold s3, s2. cbn [attempts_seen]. by rewrite Hs1, <- app_assoc.
  - unfold s3, s2. cbn [actions]. rewrite !fmap_app. fold (operations s1).
    rewrite Ho1, <- !app_assoc. reflexivity.
  - unfold s3. cbn [actions now]. rewrite <- !app_assoc. f_equal.
    unfold excite_actions, excite_duration. cbn [take app]. repeat f_equal. lia.
Qed.

End WithLoad.

End GatedFacts.

(** The operations of the two load phases. *)
Definition Seq5_load_ops : list Action :=
  [BreakRealtime; TtlOn ttl4; TtlOn ttl5; TtlOn ttl6;
   DdsSet urukul0_ch0 (100 * MHz); DdsSetAmplitude urukul0_ch0 8; SwOn urukul0_ch0;
   DdsSet urukul0_ch1 (80 * MHz); DdsSetAmplitude urukul0_ch1 5; SwOn urukul0_ch1;
   SwOff urukul0_ch0; SwOff urukul0_ch1; TtlOff ttl4; TtlOff ttl5; TtlOff ttl6;
   DdsSet urukul0_ch2 (120 * MHz); DdsSetAmplitude urukul0_ch2 7; SwOn urukul0_ch2;
   SwOff urukul0_ch2;
   DdsSet urukul0_ch3 (90 * MHz); DdsSetAmplitude urukul0_ch3 6; SwOn urukul0_ch3].

Definition Seq6_load_ops : list Action :=
  [BreakRealtime; TtlOn ttl4; TtlOn ttl5; TtlOn ttl6;
   DdsSet urukul0_ch0 (100 * MHz); DdsSetAmplitude urukul0_ch0 8; SwOn urukul0_ch0;
   DdsSet urukul0_ch1 (80 * MHz); DdsSetAmplitude urukul0_ch1 5; SwOn urukul0_ch1;
   BreakRealtime; HostMotLoadWait 500; BreakRealtime;
   SwOff urukul0_ch0; SwOff urukul0_ch1; TtlOff ttl4; TtlOff ttl5; TtlOff ttl6;
   DdsSet urukul0_ch2 (120 * MHz); DdsSetAmplitude urukul0_ch2 7; SwOn urukul0_ch2;
   SwOff urukul0_ch2;
   DdsSet urukul0_ch3 (90 * MHz); DdsSetAmplitude urukul0_ch3 6; SwOn urukul0_ch3].

Lemma Seq5_load_phase_emits E : emits (Seq5.load_phase E) Seq5_load_ops.
Proof. unfold Seq5.load_phase. emits. Qed.

Lemma Seq6_load_phase_emits E : emits (Seq6.load_phase E) Seq6_load_ops.
Proof. unfold Seq6.load_phase. emits. Qed.

(** C5.  In FullExperimentSequence16 and 17, when no gate of a chunk sees an
    edge, the kernel returns the counts (0, 0, 0) without raising and leaves
    the arrays as they were; it has run every attempt, and what it has issued
    is, after the preamble, for each big cycle: the load phase, then for each
    cooling cycle [attempts_per_cooling] attempts followed by one cooling, then
    the closing [break_realtime], after which the next big cycle starts with
    its load phase. *)
Theorem Gated_no_detection_runs_all_cycles E cfg chunk_idx t acts m :
  let total := num_big_cycles_chunk cfg * (num_cooling_cycles cfg * attempts_per_cooling cfg) in
  (∀ n, n < total → no_edge E n) →
  (∃ s', Seq5.run_chunk_experiment E cfg chunk_idx (mkState t acts [] m) = Ok (0, 0, 0) s' ∧
         attempts_seen s' = index_range 0 total ∧ mem s' = m ∧
         operations s' = acts.*2 ++ quiet_chunk_ops cfg Seq5_load_ops) ∧
  (∃ s', Seq6.run_chunk_experiment E cfg chunk_idx (mkState t acts [] m) = Ok (0, 0, 0) s' ∧
         attempts_seen s' = index_range 0 total ∧ mem s' = m ∧
         operations s' = acts.*2 ++ quiet_chunk_ops cfg Seq6_load_ops).
Proof.
  intros total Hno.
  assert (Hno' : ∀ n, n < num_big_cycles_chunk cfg *
                        (num_cooling_cycles cfg * (attempts_per_cooling cfg * 1)) →
                      no_edge E n).
  { intros n Hn. apply Hno. unfold total. by rewrite Nat.mul_1_r in Hn. }
  split.
  - destruct (run_chunk_experiment_quiet E cfg _ _ (Seq5_load_phase_emits E)
                chunk_idx t acts m Hno') as (s' & Hrun & Hseen & Hmem & Hops).
    exists s'. rewrite Nat.mul_1_r in Hseen. done.
  - destruct (run_chunk_experiment_quiet E cfg _ _ (Seq6_load_phase_emits E)
                chunk_idx t acts m Hno') as (s' & Hrun & Hseen & Hmem & Hops).
    exists s'. rewrite Nat.mul_1_r in Hseen. done.
Qed.

Definition no_edge_ever : Env := mkEnv (λ _, (-1, -1)%Z) (λ _, 0%Z).

Lemma Gated_no_detection_runs_all_cycles_witness :
  ∃ s', Seq5.run_chunk_experiment no_edge_ever (mkConfig 1 1 2 3) 0
          (mkState 0 [] [] (Gated.alloc 6)) = Ok (0, 0, 0) s' ∧
        attempts_seen s' = [0; 1; 2; 3; 4; 5]%Z ∧ mem s' = Gated.alloc 6 ∧
        operations s' =
          setup_ops ++ Seq5_load_ops ++
          (attempt_ops ++ attempt_ops ++ attempt_ops ++ cooling_ops) ++
          (attempt_ops ++ attempt_ops ++ attempt_ops ++ cooling_ops) ++
          [BreakRealtime].
Proof.
  destruct (Gated_no_detection_runs_all_cycles no_edge_ever (mkConfig 1 1 2 3) 0 0 []
              (Gated.alloc 6)) as [(s' & Hrun & Hseen & Hmem & Hops) _].
  - intros n _. split; reflexivity.
  - exists s'. split; [exact Hrun|]. split; [exact Hseen|]. split; [exact Hmem|].
    rewrite Hops. reflexivity.
Defined.

(** C7.  In FullExperimentSequence16 and 17 (whose attempt is
    [Gated.attempt]), an attempt in which one gate or both saw an edge writes
    one record, with the attempt's own [attempt_index], to the arrays of every
    channel that detected (of both, when both did), then counts as one
    detection whichever channels fired: one tomography record with the same
    [attempt_index], [tomo_count] one higher, the flag set, and [break]. *)
Theorem Gated_detections_share_attempt_index E rep l (s : State Gated.Memory) :
  let t0 := (gate_in E (length (attempts_seen s))).1 in
  let t1 := (gate_in E (length (attempts_seen s))).2 in
  let idx := Gated.attempt_index l in
  let m := mem s in
  detected t0 ∨ detected t1 →
  has_room t0 t1 l m →
  ∃ T s',
    Gated.attempt E rep l s =
      Ok (Break, Gated.mkLocals idx (counted t0 (Gated.ttl0_detected_count l))
                   (counted t1 (Gated.ttl1_detected_count l))
                   (Gated.tomo_count l + 1) true) s' ∧
    attempts_seen s' = attempts_seen s ++ [idx] ∧
    mem s' =
      Gated.mkMemory
        (recorded t0 (Gated.ttl0_detected_times m) (Gated.ttl0_detected_count l) t0)
        (recorded t0 (Gated.ttl0_detected_attempts m) (Gated.ttl0_detected_count l) idx)
        (recorded t1 (Gated.ttl1_detected_times m) (Gated.ttl1_detected_count l) t1)
        (recorded t1 (Gated.ttl1_detected_attempts m) (Gated.ttl1_detected_count l) idx)
        (<[Gated.tomo_count l := T]> (Gated.atom_tomo_times m))
        (<[Gated.tomo_count l := idx]> (Gated.atom_tomo_attempts m)).
Proof.
  intros t0 t1 idx m Hdet Hroom.
  eexists _, _. split; [by apply attempt_detection|]. done.
Qed.

Definition both_at_once : Env := mkEnv (λ _, (700, 705)%Z) (λ _, 0%Z).

Lemma Gated_detections_share_attempt_index_witness :
  ∃ T s',
    Gated.attempt both_at_once 0 (Gated.mkLocals 4 1 2 3 false)
      (mkState 0 [] [] (Gated.alloc 6)) =
      Ok (Break, Gated.mkLocals 4 2 3 4 true) s' ∧
    attempts_seen s' = [4%Z] ∧
    mem s' =
      Gated.mkMemory [0; 700; 0; 0; 0; 0]%Z [0; 4; 0; 0; 0; 0]%Z
                     [0; 0; 705; 0; 0; 0]%Z [0; 0; 4; 0; 0; 0]%Z
                     [0; 0; 0; T; 0; 0]%Z [0; 0; 0; 4; 0; 0]%Z.
Proof.
  destruct (Gated_detections_share_attempt_index both_at_once 0
              (Gated.mkLocals 4 1 2 3 false) (mkState 0 [] [] (Gated.alloc 6)))
    as (T & s' & Hrun & Hseen & Hmem).
  - left. vm_compute. discriminate.
  - unfold has_room. split_and!; intros; vm_compute; lia.
  - exists T, s'. split; [exact Hrun|]. split; [exact Hseen|]. rewrite Hmem. reflexivity.
Defined.

(** The outcome of a big cycle whose first edge comes in the second attempt of
    its first cooling cycle: with [a] the attempt counter at the start of the
    big cycle, two attempts run, with the counters [a] and [a + 1]; every
    channel that detected gets one record, with [a + 1]; one tomography record
    is written, with [a + 1] and the cursor [T] at which the gates closed; the
    pulse on [ttl4] starts 3 us after [T]; and the next thing issued is the
    closing [break_realtime] of the big cycle: no cooling, no further
    attempt. *)
Definition detection_on_second_attempt (E : Env) (cfg : Config)
    (load_phase : K Gated.Memory unit) (load_ops : list Action)
    (big_cycle_idx : nat) (l : Gated.Locals) (s : State Gated.Memory) : Prop :=
  let n := length (attempts_seen s) in
  let t0 := (gate_in E (n + 1)).1 in
  let t1 := (gate_in E (n + 1)).2 in
  let idx := (Gated.attempt_index l + 1)%Z in
  let m := mem s in
  ∃ T pre s',
    Gated.big_cycle E cfg load_phase big_cycle_idx l s =
      Ok (Next, Gated.mkLocals idx (counted t0 (Gated.ttl0_detected_count l))
                  (counted t1 (Gated.ttl1_detected_count l))
                  (Gated.tomo_count l + 1) true) s' ∧
    attempts_seen s' = attempts_seen s ++ [Gated.attempt_index l; idx] ∧
    mem s' =
      Gated.mkMemory
        (recorded t0 (Gated.ttl0_detected_times m) (Gated.ttl0_detected_count l) t0)
        (recorded t0 (Gated.ttl0_detected_attempts m) (Gated.ttl0_detected_count l) idx)
        (recorded t1 (Gated.ttl1_detected_times m) (Gated.ttl1_detected_count l) t1)
        (recorded t1 (Gated.ttl1_detected_attempts m) (Gated.ttl1_detected_count l) idx)
        (<[Gated.tomo_count l := T]> (Gated.atom_tomo_times m))
        (<[Gated.tomo_count l := idx]> (Gated.atom_tomo_attempts m)) ∧
    operations s' =
      operations s ++ load_ops ++ attempt_ops ++ attempt_ops ++
      [TtlOn ttl4; TtlOff ttl4; BreakRealtime] ∧
    actions s' =
      pre ++ [((T - Gated.gate_rising_time)%Z, GateRising ttl1 Gated.gate_rising_time);
              ((T + 3 * us)%Z, TtlOn ttl4);
              ((T + 3 * us + 10 * ms)%Z, TtlOff ttl4);
              (now s', BreakRealtime)].

(** C3, as amended.  In FullExperimentSequence16 and 17, when the first edge of
    a big cycle comes, on either channel or both, in the second attempt of its
    first cooling cycle, and the arrays have room, the big cycle runs exactly
    two attempts, logs one record per detecting channel and one tomography
    record stamped with the cursor that precedes the pulse, and goes on to the
    next big cycle.  The records carry the attempt counter of the big cycle's
    start plus one, which is 1 in the first big cycle of a chunk. *)
Theorem Gated_detection_on_second_attempt E cfg big_cycle_idx l (s : State Gated.Memory) :
  let n := length (attempts_seen s) in
  2 ≤ attempts_per_cooling cfg → 1 ≤ num_cooling_cycles cfg →
  no_edge E n →
  detected (gate_in E (n + 1)).1 ∨ detected (gate_in E (n + 1)).2 →
  has_room (gate_in E (n + 1)).1 (gate_in E (n + 1)).2 l (mem s) →
  detection_on_second_attempt E cfg (Seq5.load_phase E) Seq5_load_ops big_cycle_idx l s ∧
  detection_on_second_attempt E cfg (Seq6.load_phase E) Seq6_load_ops big_cycle_idx l s.
Proof.
  intros n HA HC Hno Hdet Hroom. split.
  - by apply big_cycle_detection_on_second_attempt; [apply Seq5_load_phase_emits|..].
  - by apply big_cycle_detection_on_second_attempt; [apply Seq6_load_phase_emits|..].
Qed.

Definition ttl0_on_second_attempt : Env :=
  mkEnv (λ n, (if decide (n = 1) then 777%Z else (-1)%Z, (-1)%Z)) (λ _, 0%Z).

Lemma Gated_detection_on_second_attempt_witness :
  detection_on_second_attempt ttl0_on_second_attempt (mkConfig 1 1 1 2)
    (Seq5.load_phase ttl0_on_second_attempt) Seq5_load_ops 0
    (Gated.mkLocals 0 0 0 0 false) (kernel_start (Gated.alloc 6)) ∧
  detection_on_second_attempt ttl0_on_second_attempt (mkConfig 1 1 1 2)
    (Seq6.load_phase ttl0_on_second_attempt) Seq6_load_ops 0
    (Gated.mkLocals 0 0 0 0 false) (kernel_start (Gated.alloc 6)).
Proof.
  apply (Gated_detection_on_second_attempt ttl0_on_second_attempt (mkConfig 1 1 1 2) 0
           (Gated.mkLocals 0 0 0 0 false) (kernel_start (Gated.alloc 6))).
  - vm_compute. lia.
  - vm_compute. lia.
  - split; reflexivity.
  - left. vm_compute. discriminate.
  - unfold has_room. split_and!; intros; vm_compute; lia.
Defined.

Definition ttl0_on_fourth_attempt : Env :=
  mkEnv (λ n, (if decide (n = 3) then 777%Z else (-1)%Z, (-1)%Z)) (λ _, 0%Z).

(** C3, as stated, fails: in a chunk of two big cycles of one cooling cycle of
    two attempts, when the only edge comes in the second attempt of the
    second big cycle, the record carries the attempt index 3, not 1. *)
Lemma Gated_detection_on_second_attempt_counterexample :
  let cfg := mkConfig 2 1 1 2 in
  let r5 := Seq5.run_chunk_experiment ttl0_on_fourth_attempt cfg 0
              (kernel_start (Gated.alloc (Gated.chunk_max cfg))) in
  let r6 := Seq6.run_chunk_experiment ttl0_on_fourth_attempt cfg 0
              (kernel_start (Gated.alloc (Gated.chunk_max cfg))) in
  r5 = Ok (1, 0, 1) (final r5) ∧
  attempts_seen (final r5) = [0; 1; 2; 3]%Z ∧
  take 1 (Gated.ttl0_detected_attempts (mem (final r5))) = [3%Z] ∧
  r6 = Ok (1, 0, 1) (final r6) ∧
  take 1 (Gated.ttl0_detected_attempts (mem (final r6))) = [3%Z].
Proof. cbn zeta. split_and!; by vm_compute. Qed.

Definition ttl0_on_first_attempt : Env :=
  mkEnv (λ n, (if decide (n = 0) then 777%Z else (-1)%Z, (-1)%Z)) (λ _, 0%Z).

(** C1 fails in FullExperimentSequence16 and 17: in a chunk of two big cycles
    of one attempt each, when the first attempt detects, the loop is left
    before [attempt_index += 1], and the attempt of the second big cycle runs
    with the attempt index 0 again. *)
Theorem Gated_attempt_index_repeats_after_detection :
  let cfg := mkConfig 2 1 1 1 in
  let r5 := Seq5.run_chunk_experiment ttl0_on_first_attempt cfg 0
              (kernel_start (Gated.alloc (Gated.chunk_max cfg))) in
  let r6 := Seq6.run_chunk_experiment ttl0_on_first_attempt cfg 0
              (kernel_start (Gated.alloc (Gated.chunk_max cfg))) in
  r5 = Ok (1, 0, 1) (final r5) ∧ attempts_seen (final r5) = [0; 0]%Z ∧
  r6 = Ok (1, 0, 1) (final r6) ∧ attempts_seen (final r6) = [0; 0]%Z.
Proof. cbn zeta. split_and!; by vm_compute. Qed.

(** ** The host loops *)

Section HostLoop.
Context {H : Type}.
Variable body : nat → H → HostResult H.
Variable completes : nat → Prop.
Variable P : nat → H → Prop.
Hypothesis step : ∀ i h, P i h →
  match body i h with
  | Done h' => completes i ∧ P (S i) h'
  | Failed _ h' => ¬ completes i ∧ P i h'
  end.

(** The loop stops at the first chunk [m] that does not complete, or runs
    all of them. *)
Lemma host_for_range_from_stops n : ∀ lo h, P lo h →
  ∃ m, lo ≤ m ≤ lo + n ∧ (∀ j, lo ≤ j < m → completes j) ∧
       P m (host_final (host_for_range_from lo n body h)) ∧
       match host_for_range_from lo n body h with
       | Done _ => m = lo + n
       | Failed _ _ => m < lo + n ∧ ¬ completes m
       end.
Proof using step.
  induction n as [|n IH]; intros lo h HP.
  - exists lo. cbn. repeat split; [lia..|done|lia].
  - cbn [host_for_range_from]. pose proof (step lo h HP) as Hstep.
    destruct (body lo h) as [h'|e h'].
    + destruct Hstep as [Hc HP'].
      destruct (IH (S lo) h' HP') as (m & Hm & Hall & HPm & Hend).
      exists m. split; [lia|]. split.
      { intros j Hj. destruct (decide (j = lo)) as [->|]; [done|]. apply Hall. lia. }
      split; [done|]. destruct (host_for_range_from (S lo) n body h'); [lia|].
      split; [lia|tauto].
    + destruct Hstep as [Hc HP']. exists lo. cbn.
      split; [lia|]. split; [intros; lia|]. split; [done|]. split; [lia|done].
Qed.
End HostLoop.

(** ** Dataset names *)

Lemma chunk_prefix_inj (i j : nat) : "chunk_" +:+ pretty i = "chunk_" +:+ pretty j → i = j.
Proof. intros Heq. cbn in Heq. simplify_eq. by apply (inj pretty). Qed.

Ltac chunk_key_eq :=
  match goal with
  | Heq : chunk_key _ _ = chunk_key _ _ |- _ =>
      unfold chunk_key in Heq; cbn in Heq; simplify_eq;
      try match goal with Hp : pretty _ = pretty _ |- _ => apply (inj pretty) in Hp end
  end.


Import Gated.

(** The six datasets of chunk [k] hold [u]. *)
Definition published (k : nat) (u : Used) (d : Datasets) : Prop :=
  d !! chunk_key "ttl0_detected_times" k = Some (used_ttl0_times u) ∧
  d !! chunk_key "ttl0_detected_attempts" k = Some (used_ttl0_attempts u) ∧
  d !! chunk_key "ttl1_detected_times" k = Some (used_ttl1_times u) ∧
  d !! chunk_key "ttl1_detected_attempts" k = Some (used_ttl1_attempts u) ∧
  d !! chunk_key "atom_tomo_times" k = Some (used_tomo_times u) ∧
  d !! chunk_key "atom_tomo_attempts" k = Some (used_tomo_attempts u).

Lemma published_publish k u d : published k u (publish k u d).
Proof.
  unfold published, publish. cbn zeta.
  repeat split; repeat (rewrite lookup_insert_ne by (intros ?; chunk_key_eq));
    apply lookup_insert_eq.
Qed.

Lemma published_publish_other k k' u u' d :
  k ≠ k' → published k' u' d → published k' u' (publish k u d).
Proof.
  intros Hne Hpub. unfold published, publish in *. cbn zeta.
  repeat (rewrite lookup_insert_ne by (intros ?; chunk_key_eq; done)). done.
Qed.

(** The kernel result [r] of chunk [k] is a return, and the datasets of the
    chunk are the first [count] entries of the arrays it left, with the counts
    it returned. *)
Definition persisted (r : Result Memory (nat * nat * nat)) (k : nat) (d : Datasets) : Prop :=
  ∃ c0 c1 ct s, r = Ok (c0, c1, ct) s ∧
    d !! chunk_key "ttl0_detected_times" k = Some (take c0 (ttl0_detected_times (mem s))) ∧
    d !! chunk_key "ttl0_detected_attempts" k = Some (take c0 (ttl0_detected_attempts (mem s))) ∧
    d !! chunk_key "ttl1_detected_times" k = Some (take c1 (ttl1_detected_times (mem s))) ∧
    d !! chunk_key "ttl1_detected_attempts" k = Some (take c1 (ttl1_detected_attempts (mem s))) ∧
    d !! chunk_key "atom_tomo_times" k = Some (take ct (atom_tomo_times (mem s))) ∧
    d !! chunk_key "atom_tomo_attempts" k = Some (take ct (atom_tomo_attempts (mem s))).

Lemma persisted_published r k d counts s :
  r = Ok counts s → published k (drain (mem s) counts) d → persisted r k d.
Proof. destruct counts as [[c0 c1] ct]. intros -> Hpub. by exists c0, c1, ct, s. Qed.

Lemma persisted_publish_other r k k' u d :
  k ≠ k' → persisted r k' d → persisted r k' (publish k u d).
Proof.
  intros Hne (c0 & c1 & ct & s & Hr & Hpub). exists c0, c1, ct, s. split; [done|].
  by apply (published_publish_other k k' u (drain (mem s) (c0, c1, ct))).
Qed.

Definition returns {Mem A} (r : Result Mem A) : Prop := ∃ a s, r = Ok a s.

Section Seq5Run.
Variable envs : nat → Env.
Variable cfg : Config.

(** The kernel run of chunk [k], on the arrays [run] allocates. *)
Definition Seq5_kernel (k : nat) : Result Memory (nat * nat * nat) :=
  Seq5.run_chunk_experiment (envs k) cfg k (kernel_start (alloc (chunk_max cfg))).

Definition Seq5_persisted (i : nat) (h : Seq5.Host) : Prop :=
  ∀ k, k < i → persisted (Seq5_kernel k) k (Seq5.datasets h).

Lemma Seq5_run_chunk_step i h : Seq5_persisted i h →
  match Seq5.run_chunk envs cfg i h with
  | Done h' => returns (Seq5_kernel i) ∧ Seq5_persisted (S i) h'
  | Failed _ h' => ¬ returns (Seq5_kernel i) ∧ Seq5_persisted i h'
  end.
Proof.
  intros HP. unfold Seq5.run_chunk. cbn [Seq5.arrays Seq5.datasets].
  fold (Seq5_kernel i). destruct (Seq5_kernel i) as [counts s|e s] eqn:Hk.
  - split; [by exists counts, s|]. intros k Hlt. cbn [Seq5.datasets].
    destruct (decide (k = i)) as [->|Hne].
    + eapply persisted_published; [done|]. apply published_publish.
    + apply persisted_publish_other; [done|]. apply HP. lia.
  - split; [by intros (? & ? & ?)|]. done.
Qed.

Lemma Seq5_run_persisted h k :
  k < num_chunks cfg → (∀ j, j ≤ k → returns (Seq5_kernel j)) →
  persisted (Seq5_kernel k) k (Seq5.datasets (host_final (Seq5.run envs cfg h))).
Proof.
  intros Hk Hret. unfold Seq5.run.
  destruct (host_for_range_from_stops (Seq5.run_chunk envs cfg)
              (λ i, returns (Seq5_kernel i)) Seq5_persisted Seq5_run_chunk_step
              (num_chunks cfg) 0 h) as (m & Hm & Hall & HP & Hend); [intros ??; lia|].
  apply HP. destruct (host_for_range_from _ _ _ _); [lia|].
  destruct Hend as [_ Hnot]. destruct (decide (k < m)); [done|].
  exfalso. apply Hnot, Hret. lia.
Qed.
End Seq5Run.

(** ** The HDF5 file of FullExperimentSequence17 *)

(** The calls [run] makes on the file for chunk [k], and the group they
    build. *)
Definition chunk_name (k : nat) : string := "chunk_" +:+ pretty k.

Definition chunk_datasets (u : Used) : H5Group :=
  [("ttl0_times", used_ttl0_times u); ("ttl0_attempts", used_ttl0_attempts u);
   ("ttl1_times", used_ttl1_times u); ("ttl1_attempts", used_ttl1_attempts u);
   ("tomo_times", used_tomo_times u); ("tomo_attempts", used_tomo_attempts u)].

Definition chunk_group (k : nat) (u : Used) : string * H5Group :=
  (chunk_name k, chunk_datasets u).

Definition chunk_ops (k : nat) (u : Used) : list H5Op :=
  [CreateGroup (chunk_name k);
   CreateDataset (chunk_name k) "ttl0_times" (used_ttl0_times u);
   CreateDataset (chunk_name k) "ttl0_attempts" (used_ttl0_attempts u);
   CreateDataset (chunk_name k) "ttl1_times" (used_ttl1_times u);
   CreateDataset (chunk_name k) "ttl1_attempts" (used_ttl1_attempts u);
   CreateDataset (chunk_name k) "tomo_times" (used_tomo_times u);
   CreateDataset (chunk_name k) "tomo_attempts" (used_tomo_attempts u);
   Flush].

Global Instance H5Op_eq_dec : EqDecision H5Op.
Proof. solve_decision. Defined.

(** The number of [flush] calls among [ops]. *)
Definition flushes (ops : list H5Op) : nat := length (filter (λ op, op = Flush) ops).

Lemma h5_replay_app ops ops' :
  h5_replay (ops ++ ops') = foldl h5_step (h5_replay ops) ops'.
Proof. unfold h5_replay. apply foldl_app. Qed.

Lemma add_dataset_last g n d (G : H5Content) ds :
  g ∉ G.*1 → add_dataset g n d (G ++ [(g, ds)]) = G ++ [(g, ds ++ [(n, d)])].
Proof.
  induction G as [|[g' ds'] G IH]; intros Hnot; cbn.
  - by rewrite decide_True.
  - rewrite decide_False; [|intros ->; apply Hnot; cbn; left].
    f_equal. apply IH. intros ?. apply Hnot. cbn. by right.
Qed.

Lemma chunk_name_inj : Inj (=) (=) chunk_name.
Proof. intros i j. apply chunk_prefix_inj. Qed.

Lemma prefix_of_app_cases {A} (pre l1 l2 : list A) :
  pre `prefix_of` l1 ++ l2 → pre `prefix_of` l1 ∨ ∃ p, pre = l1 ++ p ∧ p `prefix_of` l2.
Proof.
  intros Hpre.
  destruct (prefix_weak_total pre l1 (l1 ++ l2) Hpre (prefix_app_r l1 l1 l2 (reflexivity _)))
    as [?|[p ->]]; [by left|].
  right. exists p. split; [done|]. by apply prefix_app_inv in Hpre.
Qed.

Lemma prefix_of_take {A} (p l : list A) : p `prefix_of` l → p = take (length p) l.
Proof. intros [k ->]. by rewrite take_app_length. Qed.

Section Chunks.
Variable used : nat → Used.

Definition groups (i : nat) : H5Content := (λ j, chunk_group j (used j)) <$> seq 0 i.
Definition calls (i : nat) : list H5Op := concat ((λ j, chunk_ops j (used j)) <$> seq 0 i).

Lemma groups_S i : groups (S i) = groups i ++ [chunk_group i (used i)].
Proof. unfold groups. by rewrite seq_S, fmap_app. Qed.

Lemma calls_S i : calls (S i) = calls i ++ chunk_ops i (used i).
Proof.
  unfold calls. rewrite seq_S, fmap_app, concat_app.
  cbn [fmap list_fmap concat]. by rewrite app_nil_r.
Qed.

Lemma chunk_name_fresh i : chunk_name i ∉ (groups i).*1.
Proof.
  unfold groups. rewrite <- list_fmap_compose. intros Hin.
  apply list_elem_of_fmap in Hin as (j & Heq & Hj). cbn in Heq.
  apply chunk_name_inj in Heq as <-.
  apply elem_of_seq in Hj. lia.
Qed.

(** The file after the first [j] calls of chunk [i], [j < 8]: the earlier
    chunks on disk, the group of chunk [i] under construction in memory. *)
Lemma h5_replay_chunk_ops i G :
  chunk_name i ∉ G.*1 →
  ∀ j, j ≤ 8 →
    foldl h5_step (mkH5State G G) (take j (chunk_ops i (used i))) =
    match j with
    | 0 => mkH5State G G
    | 8 => mkH5State (G ++ [chunk_group i (used i)]) (G ++ [chunk_group i (used i)])
    | S j' => mkH5State (G ++ [(chunk_name i, take j' (chunk_datasets (used i)))]) G
    end.
Proof.
  intros Hfresh j Hj.
  do 9 (destruct j as [|j]; [cbn; rewrite ?add_dataset_last by done; reflexivity|]).
  lia.
Qed.

Lemma h5_replay_calls i : h5_replay (calls i) = mkH5State (groups i) (groups i).
Proof.
  induction i as [|i IH]; [done|].
  rewrite calls_S, h5_replay_app, IH, groups_S.
  apply (h5_replay_chunk_ops i (groups i) (chunk_name_fresh i) 8). lia.
Qed.

Lemma flushes_app ops ops' : flushes (ops ++ ops') = flushes ops + flushes ops'.
Proof. unfold flushes. by rewrite filter_app, length_app. Qed.

Lemma flushes_calls i : flushes (calls i) = i.
Proof.
  induction i as [|i IH]; [done|]. rewrite calls_S, flushes_app, IH.
  assert (flushes (chunk_ops i (used i)) = 1) as -> by reflexivity. lia.
Qed.

(** What is on disk after any initial part of the calls of [i] chunks: the
    groups of the chunks flushed so far, whole, and nothing else. *)
Lemma h5_disk_prefix_calls i pre :
  pre `prefix_of` calls i → h5_disk (h5_replay pre) = groups (flushes pre).
Proof.
  revert pre. induction i as [|i IH]; intros pre Hpre.
  - apply prefix_nil_inv in Hpre as ->. done.
  - rewrite calls_S in Hpre. apply prefix_of_app_cases in Hpre as [Hpre|(p & -> & Hp)].
    + by apply IH.
    + assert (Hlen := prefix_length _ _ Hp). apply prefix_of_take in Hp.
      cbn [length chunk_ops] in Hlen. rewrite Hp.
      rewrite h5_replay_app, h5_replay_calls, flushes_app, flushes_calls.
      rewrite (h5_replay_chunk_ops i (groups i) (chunk_name_fresh i)) by done.
      generalize (length p), Hlen. clear. intros j Hj.
      do 8 (destruct j as [|j]; [cbn [h5_disk]; by rewrite Nat.add_0_r|]).
      destruct j; [|lia]. cbn [h5_disk]. rewrite <- groups_S. f_equal.
      assert (flushes (take 8 (chunk_ops i (used i))) = 1) as -> by reflexivity. lia.
Qed.

(** The same with the closing call. *)
Lemma h5_disk_prefix_closed i pre :
  pre `prefix_of` calls i ++ [Close] → h5_disk (h5_replay pre) = groups (flushes pre).
Proof.
  intros [Hpre|(p & -> & Hp)]%prefix_of_app_cases; [by eapply h5_disk_prefix_calls|].
  assert (Hlen := prefix_length _ _ Hp). apply prefix_of_take in Hp. cbn in Hlen.
  rewrite Hp, h5_replay_app, h5_replay_calls, flushes_app, flushes_calls.
  destruct (length p) as [|[|j]]; [| |lia]; cbn; by rewrite Nat.add_0_r.
Qed.
End Chunks.

Section Seq6Run.
Variable envs : nat → Env.
Variable cfg : Config.

(** The kernel run of chunk [k], on the arrays [run] allocates, and what
    [run] takes out of the arrays after it. *)
Definition Seq6_kernel (k : nat) : Result Memory (nat * nat * nat) :=
  Seq6.run_chunk_experiment (envs k) cfg k (kernel_start (alloc (chunk_max cfg))).

Definition Seq6_used (k : nat) : Used :=
  match Seq6_kernel k with
  | Ok counts s => drain (mem s) counts
  | Raise _ s => drain (mem s) (0, 0, 0)
  end.

Definition Seq6_inv (i : nat) (h : Seq6.Host) : Prop :=
  (∀ k, k < i → persisted (Seq6_kernel k) k (Seq6.datasets h)) ∧
  Seq6.h5file h = calls Seq6_used i.

Lemma Seq6_run_chunk_step i h : Seq6_inv i h →
  match Seq6.run_chunk envs cfg i h with
  | Done h' => returns (Seq6_kernel i) ∧ Seq6_inv (S i) h'
  | Failed _ h' => ¬ returns (Seq6_kernel i) ∧ Seq6_inv i h'
  end.
Proof.
  intros [HP Hfile]. unfold Seq6.run_chunk.
  cbn [Seq6.arrays Seq6.datasets Seq6.h5file].
  fold (Seq6_kernel i). destruct (Seq6_kernel i) as [counts s|e s] eqn:Hk.
  - unfold Seq6.store_chunk, Seq6.create_group. cbn [Seq6.h5file].
    rewrite Hfile, h5_replay_calls. cbn [h5_image].
    fold (chunk_name i). rewrite decide_False by apply chunk_name_fresh.
    split; [by exists counts, s|]. split.
    + intros k Hlt. cbn [Seq6.datasets Seq6.h5_call].
      destruct (decide (k = i)) as [->|Hne].
      * eapply persisted_published; [done|]. apply published_publish.
      * apply persisted_publish_other; [done|]. apply HP. lia.
    + unfold Seq6.h5_call. cbn [Seq6.h5file Seq6.arrays Seq6.datasets].
      rewrite calls_S, <- !app_assoc. f_equal.
      unfold chunk_ops, Seq6_used. rewrite Hk. reflexivity.
  - split; [by intros (? & ? & ?)|]. done.
Qed.

Lemma Seq6_run_outcome h :
  ∃ m, m ≤ num_chunks cfg ∧
       (∀ j, j < m → returns (Seq6_kernel j)) ∧
       (∀ k, k < m → persisted (Seq6_kernel k) k
                       (Seq6.datasets (host_final (Seq6.run envs cfg h)))) ∧
       Seq6.h5file (host_final (Seq6.run envs cfg h)) = calls Seq6_used m ++ [Close] ∧
       match Seq6.run envs cfg h with
       | Done _ => m = num_chunks cfg
       | Failed _ _ => m < num_chunks cfg ∧ ¬ returns (Seq6_kernel m)
       end.
Proof.
  unfold Seq6.run.
  destruct (host_for_range_from_stops (Seq6.run_chunk envs cfg)
              (λ i, returns (Seq6_kernel i)) Seq6_inv Seq6_run_chunk_step
              (num_chunks cfg) 0 (Seq6.mkHost (Seq6.arrays h) (Seq6.datasets h) []))
    as (m & Hm & Hall & [HP Hfile] & Hend); [by split; [intros ??; lia|]|].
  exists m. split; [lia|]. split; [intros; apply Hall; lia|].
  destruct (host_for_range_from _ _ _ _) as [h'|e h']; cbn [host_final] in *;
    (split; [exact HP|]); (split; [|done]);
    unfold Seq6.h5_call; cbn [Seq6.h5file]; by rewrite Hfile.
Qed.
End Seq6Run.

Definition is_ok {Mem A} (r : Result Mem A) : bool :=
  match r with Ok _ _ => true | Raise _ _ => false end.

Lemma returns_is_ok {Mem A} (r : Result Mem A) : is_ok r = true → returns r.
Proof. destruct r as [a s|]; [by exists a, s|done]. Qed.

(** The group of chunk [k] in a file content holds the first [count] entries
    of the arrays the kernel result [r] left, with the counts it returned. *)
Definition filed (r : Result Memory (nat * nat * nat)) (k : nat) (c : H5Content) : Prop :=
  ∃ c0 c1 ct s, r = Ok (c0, c1, ct) s ∧
    c !! k = Some ("chunk_" +:+ pretty k,
                   [("ttl0_times", take c0 (ttl0_detected_times (mem s)));
                    ("ttl0_attempts", take c0 (ttl0_detected_attempts (mem s)));
                    ("ttl1_times", take c1 (ttl1_detected_times (mem s)));
                    ("ttl1_attempts", take c1 (ttl1_detected_attempts (mem s)));
                    ("tomo_times", take ct (atom_tomo_times (mem s)));
                    ("tomo_attempts", take ct (atom_tomo_attempts (mem s)))]).

Lemma groups_lookup used i k : k < i → groups used i !! k = Some (chunk_group k (used k)).
Proof.
  intros Hk. unfold groups. rewrite list_lookup_fmap, lookup_seq_lt by done. done.
Qed.


(** C6.  In FullExperimentSequence16 and 17, for every chunk [k] that [run]
    reaches (the kernels of the chunks up to [k] having returned), what [run]
    hands to the dataset manager, and in FullExperimentSequence17 also to the
    HDF5 file, is for each array exactly its first [count] entries, [count]
    being the count the kernel of that chunk returned for the channel; and
    what [run] takes out of the arrays does not depend on the slots at or
    beyond the counts. *)
Theorem run_persists_first_count_entries envs cfg k :
  k < num_chunks cfg →
  (∀ h, (∀ j, j ≤ k → returns (Seq5_kernel envs cfg j)) →
        persisted (Seq5_kernel envs cfg k) k
          (Seq5.datasets (host_final (Seq5.run envs cfg h)))) ∧
  (∀ h, (∀ j, j ≤ k → returns (Seq6_kernel envs cfg j)) →
        persisted (Seq6_kernel envs cfg k) k
          (Seq6.datasets (host_final (Seq6.run envs cfg h))) ∧
        filed (Seq6_kernel envs cfg k) k
          (h5_disk (h5_replay (Seq6.h5file (host_final (Seq6.run envs cfg h)))))) ∧
  (∀ m m' c0 c1 ct,
     take c0 (ttl0_detected_times m) = take c0 (ttl0_detected_times m') →
     take c0 (ttl0_detected_attempts m) = take c0 (ttl0_detected_attempts m') →
     take c1 (ttl1_detected_times m) = take c1 (ttl1_detected_times m') →
     take c1 (ttl1_detected_attempts m) = take c1 (ttl1_detected_attempts m') →
     take ct (atom_tomo_times m) = take ct (atom_tomo_times m') →
     take ct (atom_tomo_attempts m) = take ct (atom_tomo_attempts m') →
     drain m (c0, c1, ct) = drain m' (c0, c1, ct)).
Proof.
  intros Hk. split; [|split].
  - intros h Hret. by apply Seq5_run_persisted.
  - intros h Hret.
    destruct (Seq6_run_outcome envs cfg h) as (m & Hm & Hall & HP & Hfile & Hend).
    assert (k < m) as Hkm.
    { destruct (Seq6.run envs cfg h); [lia|]. destruct Hend as [_ Hnot].
      destruct (decide (k < m)); [done|]. exfalso. apply Hnot, Hret. lia. }
    split; [by apply HP|].
    rewrite Hfile, (h5_disk_prefix_closed _ m) by done.
    rewrite flushes_app, flushes_calls.
    assert (flushes [Close] = 0) as -> by reflexivity. rewrite Nat.add_0_r.
    destruct (Hall k Hkm) as ([[c0 c1] ct] & s & Hs).
    exists c0, c1, ct, s. split; [done|]. rewrite groups_lookup by done.
    unfold chunk_group, Seq6_used. by rewrite Hs.
  - intros m m' c0 c1 ct H1 H2 H3 H4 H5 H6. unfold drain, slice_to. cbn.
    by rewrite H1, H2, H3, H4, H5, H6.
Qed.

Lemma run_persists_first_count_entries_witness :
  let envs := λ _ : nat, ttl0_on_second_attempt in
  let cfg := mkConfig 1 2 1 2 in
  (∀ h, persisted (Seq5_kernel envs cfg 1) 1
          (Seq5.datasets (host_final (Seq5.run envs cfg h)))) ∧
  (∀ h, persisted (Seq6_kernel envs cfg 1) 1
          (Seq6.datasets (host_final (Seq6.run envs cfg h))) ∧
        filed (Seq6_kernel envs cfg 1) 1
          (h5_disk (h5_replay (Seq6.h5file (host_final (Seq6.run envs cfg h)))))).
Proof.
  intros envs cfg.
  destruct (run_persists_first_count_entries envs cfg 1) as (H5 & H6 & _).
  - vm_compute. lia.
  - split.
    + intros h. apply H5. intros j Hj. apply returns_is_ok.
      destruct j as [|[|j]]; [by vm_compute..|lia].
    + intros h. apply H6. intros j Hj. apply returns_is_ok.
      destruct j as [|[|j]]; [by vm_compute..|lia].
Defined.

(** C8.  In FullExperimentSequence17, [run] ends, normally or by the exception
    of a kernel, having completed the chunks before some [m] (all of them
    when it ends normally); the calls it has made on the HDF5 file are, for
    each completed chunk in order, the group of the chunk, its six datasets
    and one [flush], then [close].  Wherever the process stops in that
    sequence, the disk holds exactly the groups of the chunks whose [flush]
    has been made, each whole: once the flush of chunk [k] is made the chunks
    0 to [k] stay on disk, and the chunk in progress is all that can be
    missing. *)
Theorem Seq6_persists_at_chunk_boundaries envs cfg h :
  let r := Seq6.run envs cfg h in
  let file := Seq6.h5file (host_final r) in
  ∃ m, m ≤ num_chunks cfg ∧
       (∀ j, j < m → returns (Seq6_kernel envs cfg j)) ∧
       match r with
       | Done _ => m = num_chunks cfg
       | Failed _ _ => m < num_chunks cfg ∧ ¬ returns (Seq6_kernel envs cfg m)
       end ∧
       file = calls (Seq6_used envs cfg) m ++ [Close] ∧
       flushes file = m ∧
       ∀ pre, pre `prefix_of` file →
              h5_disk (h5_replay pre) = groups (Seq6_used envs cfg) (flushes pre).
Proof.
  intros r file.
  destruct (Seq6_run_outcome envs cfg h) as (m & Hm & Hall & HP & Hfile & Hend).
  exists m. split; [done|]. split; [done|]. split; [done|]. split; [done|].
  fold r in Hfile. fold file in Hfile. split.
  - rewrite Hfile, flushes_app, flushes_calls.
    assert (flushes [Close] = 0) as -> by reflexivity. lia.
  - intros pre Hpre. rewrite Hfile in Hpre. by eapply h5_disk_prefix_closed.
Qed.

(** ** The timeline after a wait on the host *)

Definition is_wait (a : Action) : Prop := ∃ w, a = HostMotLoadWait w.

(** Every wait on the host in the log is followed at once by a
    [break_realtime], which puts the cursor at least the slack beyond the
    hardware counter read at that point, and nothing issued later is stamped
    before it. *)
Definition resynced_after_wait (E : Env) (log : list (Z * Action)) : Prop :=
  ∀ i t w, log !! i = Some (t, HostMotLoadWait w) →
    ∃ t', log !! S i = Some (t', BreakRealtime) ∧
          (rtio_counter E (S i) + slack_mu ≤ t')%Z ∧
          ∀ j a, S i < j → log !! j = Some a → (t' ≤ a.1)%Z.

Definition stamps_le (t : Z) (log : list (Z * Action)) : Prop :=
  ∀ j a, log !! j = Some a → (a.1 ≤ t)%Z.

Definition timeline_ok (E : Env) (t : Z) (log : list (Z * Action)) : Prop :=
  resynced_after_wait E log ∧ stamps_le t log.

Definition wait_pending (E : Env) (t : Z) (log : list (Z * Action)) : Prop :=
  ∃ log0 w, log = log0 ++ [(t, HostMotLoadWait w)] ∧ timeline_ok E t log0.

Lemma timeline_ok_nil E t : timeline_ok E t [].
Proof. split; intros ?; intros; by rewrite lookup_nil in *. Qed.

Lemma timeline_ok_advance E t t' log :
  timeline_ok E t log → (t ≤ t')%Z → timeline_ok E t' log.
Proof.
  intros [Hr Hs] Hle. split; [done|]. intros j a Ha. specialize (Hs j a Ha). lia.
Qed.

Lemma timeline_ok_snoc E t t1 a log :
  timeline_ok E t log → ¬ is_wait a → (t ≤ t1)%Z →
  timeline_ok E t1 (log ++ [(t1, a)]).
Proof.
  intros [Hr Hs] Hnot Hle. split.
  - intros i ti w Hi.
    destruct (decide (i < length log)) as [Hlt|Hge].
    + rewrite lookup_app_l in Hi by done.
      destruct (Hr i ti w Hi) as (t' & HSi & Hc & Hlater).
      exists t'. split; [|split; [done|]].
      { rewrite lookup_app_l; [done|]. by eapply lookup_lt_Some. }
      intros j b Hj Hb.
      destruct (decide (j < length log)).
      * rewrite lookup_app_l in Hb by done. by eapply Hlater.
      * rewrite lookup_app_r in Hb by lia.
        apply list_lookup_singleton_Some in Hb as [_ <-]. cbn.
        specialize (Hs _ _ HSi). cbn in Hs. lia.
    + rewrite lookup_app_r in Hi by lia.
      apply list_lookup_singleton_Some in Hi as [_ [= -> ->]].
      exfalso. apply Hnot. by exists w.
  - intros j b Hb. destruct (decide (j < length log)).
    + rewrite lookup_app_l in Hb by done. specialize (Hs j b Hb). lia.
    + rewrite lookup_app_r in Hb by lia.
      apply list_lookup_singleton_Some in Hb as [_ <-]. cbn. lia.
Qed.

Lemma wait_pending_snoc E t w log :
  timeline_ok E t log → wait_pending E t (log ++ [(t, HostMotLoadWait w)]).
Proof. intros. by exists log, w. Qed.

Lemma timeline_ok_resync E t t' log :
  wait_pending E t log → (t ≤ t')%Z → (rtio_counter E (length log) + slack_mu ≤ t')%Z →
  timeline_ok E t' (log ++ [(t', BreakRealtime)]).
Proof.
  intros (log0 & w & -> & [Hr Hs]) Hle Hc. rewrite length_app in Hc. cbn in Hc.
  rewrite <- app_assoc. cbn [app]. split.
  - intros i ti wi Hi.
    destruct (decide (i < length log0)) as [Hlt|Hge].
    + rewrite lookup_app_l in Hi by done.
      destruct (Hr i ti wi Hi) as (t'' & HSi & Hc' & Hlater).
      pose proof (lookup_lt_Some _ _ _ HSi) as HSlt.
      exists t''. split; [|split; [done|]].
      { by rewrite lookup_app_l. }
      intros j b Hj Hb.
      destruct (decide (j < length log0)).
      * rewrite lookup_app_l in Hb by done. by eapply Hlater.
      * rewrite lookup_app_r in Hb by lia. specialize (Hs _ _ HSi). cbn in Hs.
        destruct (j - length log0) as [|[|]] eqn:?; cbn in Hb; simplify_eq; cbn; lia.
    + rewrite lookup_app_r in Hi by lia.
      destruct (i - length log0) as [|[|]] eqn:Hd; cbn in Hi; simplify_eq.
      assert (i = length log0) as -> by lia.
      exists t'. split; [|split].
      * rewrite lookup_app_r by lia.
        replace (S (length log0) - length log0) with 1 by lia. done.
      * replace (length log0 + 1) with (S (length log0)) in Hc by lia. done.
      * intros j b Hj Hb. rewrite lookup_app_r in Hb by lia.
        destruct (j - length log0) as [|[|]] eqn:?; cbn in Hb; simplify_eq; lia.
  - intros j b Hb. destruct (decide (j < length log0)).
    + rewrite lookup_app_l in Hb by done. specialize (Hs j b Hb). lia.
    + rewrite lookup_app_r in Hb by lia.
      destruct (j - length log0) as [|[|]] eqn:?; cbn in Hb; simplify_eq; cbn; lia.
Qed.

Section Triples.
Context {Mem : Type}.
Variable E : Env.

Definition resynced (s : State Mem) : Prop := timeline_ok E (now s) (actions s).
Definition waited (s : State Mem) : Prop := wait_pending E (now s) (actions s).
Definition fresh (s : State Mem) : Prop := actions s = [].

(** From a state in [P], [c] returns in a state in [Q], or raises with the
    timeline in order. *)
Definition triple {A} (P : State Mem → Prop) (c : K Mem A) (Q : State Mem → Prop) : Prop :=
  ∀ s, P s → match c s with Ok _ s' => Q s' | Raise _ s' => resynced s' end.

Lemma triple_bind {A B} P Q R (c : K Mem A) (k : A → K Mem B) :
  triple P c Q → (∀ a, triple Q (k a) R) → triple P (bind c k) R.
Proof.
  intros Hc Hk s HP. specialize (Hc s HP). unfold bind.
  destruct (c s) as [a s'|e s']; [by apply Hk|done].
Qed.

Lemma triple_ret {A} P (a : A) : triple P (ret a) P.
Proof. by intros s HP. Qed.

Lemma triple_emit a : ¬ is_wait a → triple resynced (emit a) resynced.
Proof. intros Hnot s Hs. unfold resynced in *. cbn. by apply timeline_ok_snoc with (t := now s). Qed.

Lemma triple_delay d : (0 ≤ d)%Z → triple resynced (delay d) resynced.
Proof. intros Hd s Hs. unfold resynced in *. cbn. eapply timeline_ok_advance; [done|lia]. Qed.

Lemma triple_now_mu P : triple P now_mu P.
Proof. by intros s HP. Qed.

Lemma triple_timestamp_mu P c t : triple P (timestamp_mu E c t) P.
Proof. by intros s HP. Qed.

Lemma triple_attempt_seen idx : triple resynced (attempt_seen idx) resynced.
Proof. by intros s HP. Qed.

Lemma resync_time_ge t n : (t ≤ resync_time E t n)%Z.
Proof. unfold resync_time. case_decide; lia. Qed.

Lemma resync_time_slack t n : (rtio_counter E n + slack_mu ≤ resync_time E t n)%Z.
Proof. unfold resync_time. case_decide; lia. Qed.

Lemma triple_break_realtime : triple resynced (break_realtime E) resynced.
Proof.
  intros s Hs. unfold resynced in *. cbn. apply timeline_ok_snoc with (t := now s);
    [done|by intros [? ?]|apply resync_time_ge].
Qed.

Lemma triple_host_mot_load_wait w : triple resynced (host_mot_load_wait w) waited.
Proof. intros s Hs. unfold resynced, waited in *. cbn. by apply wait_pending_snoc. Qed.

Lemma triple_break_realtime_waited : triple waited (break_realtime E) resynced.
Proof.
  intros s Hs. unfold resynced, waited in *. cbn. apply timeline_ok_resync with (t := now s);
    [done|apply resync_time_ge|apply resync_time_slack].
Qed.

Lemma triple_core_reset : triple fresh (core_reset E) resynced.
Proof.
  intros s Hs. unfold resynced, fresh in *. cbn. rewrite Hs. cbn.
  apply (timeline_ok_snoc E (reset_time E 0) _ _ []);
    [apply timeline_ok_nil|by intros [? ?]|done].
Qed.

Lemma triple_gates a b d :
  (0 ≤ d)%Z → triple resynced (parallel (gate_rising a d) (gate_rising b d)) resynced.
Proof.
  intros Hd s Hs. unfold resynced in *.
  assert (parallel (gate_rising a d) (gate_rising b d) s =
          Ok ((now s + d)%Z, (now s + d)%Z)
             (mkState (now s + d) ((actions s ++ [(now s, GateRising a d)]) ++
                [(now s, GateRising b d)]) (attempts_seen s) (mem s))) as ->.
  { kcompute. by rewrite Z.max_id. }
  cbn [now actions].
  eapply timeline_ok_advance with (t := now s); [|lia].
  apply timeline_ok_snoc with (t := now s); [|by intros [? ?]|done].
  apply timeline_ok_snoc with (t := now s); [done|by intros [? ?]|done].
Qed.

(** A computation that leaves the timeline alone. *)
Definition timeless {A} (c : K Mem A) : Prop :=
  ∀ s, now (final (c s)) = now s ∧ actions (final (c s)) = actions s.

Lemma triple_timeless {A} (c : K Mem A) : timeless c → triple resynced c resynced.
Proof.
  intros Hc s Hs. destruct (Hc s) as [Hn Ha]. unfold resynced in *.
  destruct (c s) as [a s'|e s']; cbn in *; by rewrite Hn, Ha.
Qed.

Lemma triple_for_range_from {L} (body : nat → L → K Mem (Flow * L)) n :
  (∀ i l, triple resynced (body i l) resynced) →
  ∀ lo l, triple resynced (for_range_from lo n body l) resynced.
Proof.
  intros Hbody. induction n as [|n IH]; intros lo l; [apply triple_ret|].
  cbn [for_range_from]. eapply triple_bind; [apply Hbody|].
  intros [[] l']; cbn [fst snd]; [apply IH|apply triple_ret].
Qed.

Lemma triple_for_range {L} (body : nat → L → K Mem (Flow * L)) n l :
  (∀ i l, triple resynced (body i l) resynced) →
  triple resynced (for_range n body l) resynced.
Proof. intros. by apply triple_for_range_from. Qed.

End Triples.

Create HintDb timeline discriminated.
#[export] Hint Extern 1 (triple _ _ (ret _) _) => apply triple_ret : timeline.
#[export] Hint Extern 1 (triple _ _ now_mu _) => apply triple_now_mu : timeline.
#[export] Hint Extern 1 (triple _ _ (timestamp_mu _ _ _) _) =>
  apply triple_timestamp_mu : timeline.
#[export] Hint Extern 1 (triple _ _ (attempt_seen _) _) =>
  apply triple_attempt_seen : timeline.
#[export] Hint Extern 1 (triple _ (resynced _) (break_realtime _) _) =>
  apply triple_break_realtime : timeline.
#[export] Hint Extern 1 (triple _ (waited _) (break_realtime _) _) =>
  apply triple_break_realtime_waited : timeline.
#[export] Hint Extern 1 (triple _ _ (emit (HostMotLoadWait _)) _) =>
  apply triple_host_mot_load_wait : timeline.
#[export] Hint Extern 1 (triple _ _ (core_reset _) _) => apply triple_core_reset : timeline.
#[export] Hint Extern 2 (triple _ _ (emit _) _) =>
  apply triple_emit; intros [? ?]; discriminate : timeline.
#[export] Hint Extern 1 (triple _ _ (delay _) _) =>
  apply triple_delay; vm_compute; discriminate : timeline.
#[export] Hint Extern 1 (triple _ _ (parallel _ _) _) =>
  apply triple_gates; vm_compute; discriminate : timeline.

(** Walks through a kernel, one statement at a time. *)
Ltac timeline :=
  repeat first
    [ match goal with
      | |- triple _ _ (bind _ _) _ => eapply triple_bind; [|intros ?]
      | |- triple _ _ (if decide _ then _ else _) _ => case_decide
      | |- triple _ _ (for_range _ _ _) _ => apply triple_for_range; intros ? ?
      end
    | progress unfold ttl_input, ttl_output, ttl_on, ttl_off, ttl_pulse, dds_set,
        dds_set_amplitude, sw_on, sw_off, sw_pulse, host_mot_load_wait
    | progress cbn zeta
    | progress cbn beta
    | solve [auto with timeline nocore] ].

Ltac timeless :=
  intros s; unfold bind, get_mem, put_mem, raise;
  repeat match goal with |- context [setitem ?a ?i ?v] => destruct (setitem a i v) end;
  by cbn.

Section Seq7Timeline.
Variable E : Env.
Variable cfg : Config.
Import Seq7.

Lemma Seq7_set_ttl0_detected_times_timeline i v :
  triple E (resynced E) (set_ttl0_detected_times i v) (resynced E).
Proof. apply triple_timeless. unfold set_ttl0_detected_times. timeless. Qed.

Lemma Seq7_set_ttl0_detected_attempts_timeline i v :
  triple E (resynced E) (set_ttl0_detected_attempts i v) (resynced E).
Proof. apply triple_timeless. unfold set_ttl0_detected_attempts. timeless. Qed.

Lemma Seq7_set_ttl1_detected_times_timeline i v :
  triple E (resynced E) (set_ttl1_detected_times i v) (resynced E).
Proof. apply triple_timeless. unfold set_ttl1_detected_times. timeless. Qed.

Lemma Seq7_set_ttl1_detected_attempts_timeline i v :
  triple E (resynced E) (set_ttl1_detected_attempts i v) (resynced E).
Proof. apply triple_timeless. unfold set_ttl1_detected_attempts. timeless. Qed.

Hint Extern 1 (triple _ _ (set_ttl0_detected_times _ _) _) =>
  apply Seq7_set_ttl0_detected_times_timeline : timeline.
Hint Extern 1 (triple _ _ (set_ttl0_detected_attempts _ _) _) =>
  apply Seq7_set_ttl0_detected_attempts_timeline : timeline.
Hint Extern 1 (triple _ _ (set_ttl1_detected_times _ _) _) =>
  apply Seq7_set_ttl1_detected_times_timeline : timeline.
Hint Extern 1 (triple _ _ (set_ttl1_detected_attempts _ _) _) =>
  apply Seq7_set_ttl1_detected_attempts_timeline : timeline.

Lemma Seq7_attempt_timeline rep l :
  triple E (resynced E) (attempt E rep l) (resynced E).
Proof. unfold attempt, excite_and_detect. timeline. Qed.

Hint Extern 1 (triple _ _ (attempt _ _ _) _) => apply Seq7_attempt_timeline : timeline.

Lemma Seq7_cooling_cycle_timeline cycle_idx l :
  triple E (resynced E) (cooling_cycle E cfg cycle_idx l) (resynced E).
Proof. unfold cooling_cycle, cooling. timeline. Qed.

Hint Extern 1 (triple _ _ (cooling_cycle _ _ _ _) _) =>
  apply Seq7_cooling_cycle_timeline : timeline.

Lemma Seq7_big_cycle_timeline big_cycle_idx l :
  triple E (resynced E) (big_cycle E cfg big_cycle_idx l) (resynced E).
Proof. unfold big_cycle, load_phase. timeline. Qed.

Hint Extern 1 (triple _ _ (big_cycle _ _ _ _) _) =>
  apply Seq7_big_cycle_timeline : timeline.

Lemma Seq7_run_chunk_experiment_timeline chunk_idx :
  triple E (fresh (Mem:=Memory)) (run_chunk_experiment E cfg chunk_idx) (resynced E).
Proof. unfold run_chunk_experiment. timeline. Qed.
End Seq7Timeline.

Section GatedTimeline.
Variable E : Env.
Variable cfg : Config.
Import Gated.

Lemma set_ttl0_detected_times_timeline i v :
  triple E (resynced E) (set_ttl0_detected_times i v) (resynced E).
Proof. apply triple_timeless. unfold set_ttl0_detected_times. timeless. Qed.

Lemma set_ttl0_detected_attempts_timeline i v :
  triple E (resynced E) (set_ttl0_detected_attempts i v) (resynced E).
Proof. apply triple_timeless. unfold set_ttl0_detected_attempts. timeless. Qed.

Lemma set_ttl1_detected_times_timeline i v :
  triple E (resynced E) (set_ttl1_detected_times i v) (resynced E).
Proof. apply triple_timeless. unfold set_ttl1_detected_times. timeless. Qed.

Lemma set_ttl1_detected_attempts_timeline i v :
  triple E (resynced E) (set_ttl1_detected_attempts i v) (resynced E).
Proof. apply triple_timeless. unfold set_ttl1_detected_attempts. timeless. Qed.

Lemma set_atom_tomo_times_timeline i v :
  triple E (resynced E) (set_atom_tomo_times i v) (resynced E).
Proof. apply triple_timeless. unfold set_atom_tomo_times. timeless. Qed.

Lemma set_atom_tomo_attempts_timeline i v :
  triple E (resynced E) (set_atom_tomo_attempts i v) (resynced E).
Proof. apply triple_timeless. unfold set_atom_tomo_attempts. timeless. Qed.

Hint Extern 1 (triple _ _ (set_ttl0_detected_times _ _) _) =>
  apply set_ttl0_detected_times_timeline : timeline.
Hint Extern 1 (triple _ _ (set_ttl0_detected_attempts _ _) _) =>
  apply set_ttl0_detected_attempts_timeline : timeline.
Hint Extern 1 (triple _ _ (set_ttl1_detected_times _ _) _) =>
  apply set_ttl1_detected_times_timeline : timeline.
Hint Extern 1 (triple _ _ (set_ttl1_detected_attempts _ _) _) =>
  apply set_ttl1_detected_attempts_timeline : timeline.
Hint Extern 1 (triple _ _ (set_atom_tomo_times _ _) _) =>
  apply set_atom_tomo_times_timeline : timeline.
Hint Extern 1 (triple _ _ (set_atom_tomo_attempts _ _) _) =>
  apply set_atom_tomo_attempts_timeline : timeline.

Lemma attempt_timeline rep l : triple E (resynced E) (attempt E rep l) (resynced E).
Proof. unfold attempt, excite_and_detect, tomography_pulse. timeline. Qed.

Hint Extern 1 (triple _ _ (attempt _ _ _) _) => apply attempt_timeline : timeline.

Lemma cooling_cycle_timeline cycle_idx l :
  triple E (resynced E) (cooling_cycle E cfg cycle_idx l) (resynced E).
Proof.
  unfold cooling_cycle, cooling. eapply triple_bind; [timeline|].
  intros l'. destruct (photon_detected_this_cycle l'); timeline.
Qed.

Hint Extern 1 (triple _ _ (cooling_cycle _ _ _ _) _) =>
  apply cooling_cycle_timeline : timeline.

Lemma Seq6_big_cycle_timeline big_cycle_idx l :
  triple E (resynced E) (big_cycle E cfg (Seq6.load_phase E) big_cycle_idx l) (resynced E).
Proof. unfold big_cycle, Seq6.load_phase. timeline. Qed.

Hint Extern 1 (triple _ _ (big_cycle _ _ _ _ _) _) =>
  apply Seq6_big_cycle_timeline : timeline.

Lemma Seq6_run_chunk_experiment_timeline chunk_idx :
  triple E (fresh (Mem:=Memory)) (Seq6.run_chunk_experiment E cfg chunk_idx) (resynced E).
Proof. unfold Seq6.run_chunk_experiment, run_chunk_experiment. timeline. Qed.
End GatedTimeline.

(** C9.  In FullExperimentSequence17 and 21, the two variants with the wait on
    the host, however a chunk ends (by a return or by an exception), every
    [host_mot_load_wait] the kernel has issued is followed at once by a
    [break_realtime]; that [break_realtime] leaves the cursor at least the
    slack beyond the hardware counter read when it is issued, and no
    operation issued after it is stamped with an earlier cursor. *)
Theorem wait_is_followed_by_break_realtime E cfg chunk_idx t seen :
  (∀ m, resynced_after_wait E
          (actions (final (Seq6.run_chunk_experiment E cfg chunk_idx (mkState t [] seen m))))) ∧
  (∀ m, resynced_after_wait E
          (actions (final (Seq7.run_chunk_experiment E cfg chunk_idx (mkState t [] seen m))))).
Proof.
  split; intros m.
  - pose proof (Seq6_run_chunk_experiment_timeline E cfg chunk_idx (mkState t [] seen m)
                  eq_refl) as H.
    destruct (Seq6.run_chunk_experiment _ _ _ _); apply H.
  - pose proof (Seq7_run_chunk_experiment_timeline E cfg chunk_idx (mkState t [] seen m)
                  eq_refl) as H.
    destruct (Seq7.run_chunk_experiment _ _ _ _); apply H.
Qed.

(** ** FullExperimentSequence13: one time tag per repetition and channel *)

(** The timestamps [pick] selects from the gate windows [p], ..., [p + n - 1]. *)
Definition tags_from (E : Env) (pick : Z * Z → Z) (p n : nat) : list Z :=
  (λ i, pick (gate_in E i)) <$> seq p n.

Lemma tags_from_S E pick p n :
  tags_from E pick p (S n) = tags_from E pick p n ++ [pick (gate_in E (p + n))].
Proof. unfold tags_from. by rewrite seq_S, fmap_app. Qed.

Lemma tags_from_length E pick p n : length (tags_from E pick p n) = n.
Proof. unfold tags_from. by rewrite length_fmap, length_seq. Qed.

Lemma tags_from_lookup E pick n i :
  i < n → tags_from E pick 0 n !! i = Some (pick (gate_in E i)).
Proof. intros Hi. unfold tags_from. by rewrite list_lookup_fmap, lookup_seq_lt by lia. Qed.

(** The rows of the CSV file for the repetitions [i], ..., [i + n - 1]. *)
Definition tag_rows (E : Env) (i n : nat) : list (list Cell) :=
  (λ j, [Int (Z.of_nat j + 1); Int (gate_in E j).1; Int (gate_in E j).2]) <$> seq i n.

(** The header of the CSV file. *)
Definition csv_header : list Cell :=
  [Text "Event #"; Text "TTL0 Time Tag (mu)"; Text "TTL1 Time Tag (mu)"].

Section Seq2Facts.
Variable E : Env.
Import Seq2.

Lemma csv_rows_tags N n : ∀ i, i + n ≤ N →
  csv_rows (tags_from E fst 0 N) (tags_from E snd 0 N) i n = Some (tag_rows E i n).
Proof.
  induction n as [|n IH]; intros i Hi; [done|].
  cbn [csv_rows]. rewrite !tags_from_lookup by lia. rewrite IH by lia. done.
Qed.

(** What a repetition does to the two lists, from any state. *)
Definition appended (s s' : State Memory) : Prop :=
  let r := gate_in E (length (attempts_seen s)) in
  length (attempts_seen s') = S (length (attempts_seen s)) ∧
  mem s' = mkMemory (time_tags_0 (mem s) ++ [r.1]) (time_tags_1 (mem s) ++ [r.2])
             (photon_time_tags_csv (mem s)).

Ltac same_step Hs Hm :=
  match goal with
  | |- context [bind ?c ?k ?s] =>
      let a := fresh "a" in let s1 := fresh "s" in
      let Hs1 := fresh "Hs" in let Hm1 := fresh "Hm" in
      destruct (device_only_step c k s ltac:(by device)) as (a & s1 & -> & Hs1 & Hm1);
      rewrite Hs in Hs1; rewrite Hm in Hm1; clear Hs Hm;
      rename Hs1 into Hs; rename Hm1 into Hm
  end.

Lemma repetition_appends reps cycle_idx rep_idx s :
  ∃ s', repetition E reps cycle_idx rep_idx tt s = Ok (Next, tt) s' ∧ appended s s'.
Proof.
  assert (Hs : attempts_seen s = attempts_seen s) by done.
  assert (Hm : mem s = mem s) by done.
  revert Hs Hm. generalize s at 1 3 5 as s0. intros s0 Hs Hm.
  unfold repetition. do 11 same_step Hs Hm.
  unfold bind, timestamp_mu, attempt_seen, record_time_tag_0, record_time_tag_1,
    get_mem, put_mem, ret.
  cbn [now actions attempts_seen mem time_tags_0 time_tags_1 photon_time_tags_csv fst snd].
  eexists. split; [reflexivity|].
  split; cbn [attempts_seen mem].
  - rewrite length_app, Hs. cbn. lia.
  - by rewrite Hm, Hs.
Qed.

(** After [p] repetitions from the state of [build]. *)
Definition tagged (p : nat) (s : State Memory) : Prop :=
  length (attempts_seen s) = p ∧
  mem s = mkMemory (tags_from E fst 0 p) (tags_from E snd 0 p) None.

Lemma tagged_device_only {A B} (c : K Memory A) (k : A → K Memory B) p s :
  device_only c → tagged p s → ∃ a s1, bind c k s = k a s1 ∧ tagged p s1.
Proof.
  intros Hc [Hs Hm]. destruct (device_only_step c k s Hc) as (a & s1 & -> & Hs1 & Hm1).
  exists a, s1. split; [done|]. split; congruence.
Qed.

Ltac tagged_step H :=
  match goal with
  | |- context [bind ?c ?k ?s] =>
      let a := fresh "a" in let s1 := fresh "s" in let H1 := fresh "H" in
      destruct (tagged_device_only c k _ s ltac:(by device) H) as (a & s1 & -> & H1);
      clear H; rename H1 into H
  end.

Lemma repetition_tagged reps cycle_idx rep_idx p s :
  tagged p s →
  ∃ s', repetition E reps cycle_idx rep_idx tt s = Ok (Next, tt) s' ∧ tagged (S p) s'.
Proof.
  intros [Hs Hm].
  destruct (repetition_appends reps cycle_idx rep_idx s) as (s' & H' & Hs' & Hm').
  exists s'. split; [done|]. split; [lia|].
  rewrite Hm', Hm, Hs. cbn [time_tags_0 time_tags_1 photon_time_tags_csv].
  by rewrite !tags_from_S.
Qed.

Lemma repetitions_tagged reps cycle_idx n : ∀ lo p s,
  tagged p s →
  ∃ s', for_range_from lo n (repetition E reps cycle_idx) tt s = Ok tt s' ∧
        tagged (p + n) s'.
Proof.
  induction n as [|n IH]; intros lo p s H.
  - exists s. by rewrite Nat.add_0_r.
  - destruct (repetition_tagged reps cycle_idx lo p s H) as (s1 & H1 & Ht1).
    rewrite (for_range_from_next _ _ _ _ _ _ _ H1).
    destruct (IH (S lo) (S p) s1 Ht1) as (s' & H' & Ht').
    exists s'. split; [done|]. by replace (p + S n) with (S p + n) by lia.
Qed.

Lemma cycle_tagged reps cycle_idx p s :
  tagged p s →
  ∃ s', cycle E reps cycle_idx tt s = Ok (Next, tt) s' ∧ tagged (p + reps) s'.
Proof.
  intros H. unfold cycle, for_range.
  destruct (repetitions_tagged reps cycle_idx reps 0 p s H) as (s1 & H1 & Ht1).
  rewrite (bind_ok _ _ _ _ _ H1). unfold cooling.
  tagged_step Ht1. by eexists.
Qed.

Lemma cycles_tagged reps n : ∀ lo p s,
  tagged p s →
  ∃ s', for_range_from lo n (cycle E reps) tt s = Ok tt s' ∧ tagged (p + n * reps) s'.
Proof.
  induction n as [|n IH]; intros lo p s H.
  - exists s. by rewrite Nat.add_0_r.
  - destruct (cycle_tagged reps lo p s H) as (s1 & H1 & Ht1).
    rewrite (for_range_from_next _ _ _ _ _ _ _ H1).
    destruct (IH (S lo) (p + reps) s1 Ht1) as (s' & H' & Ht').
    exists s'. split; [done|]. by replace (p + S n * reps) with (p + reps + n * reps) by lia.
Qed.

Lemma run_with_tagged cycles reps t acts :
  ∃ s', run_with E cycles reps (mkState t acts [] build) = Ok tt s' ∧
        mem s' = mkMemory (tags_from E fst 0 (cycles * reps))
                   (tags_from E snd 0 (cycles * reps))
                   (Some (csv_header :: tag_rows E 0 (cycles * reps))).
Proof.
  assert (H : tagged 0 (mkState t acts [] build)) by done.
  unfold run_with. do 4 tagged_step H.
  assert (Hl : device_only (load_phase E)) by (unfold load_phase; device).
  match goal with
  | |- context [bind (load_phase E) ?k ?s] =>
      destruct (tagged_device_only _ k _ s Hl H) as (a' & s4 & -> & H4)
  end.
  destruct (cycles_tagged reps cycles 0 0 s4 H4) as (s5 & H5 & Ht5).
  unfold for_range. rewrite (bind_ok _ _ _ _ _ H5).
  tagged_step Ht5. destruct Ht5 as [Hs Hm].
  unfold write_to_csv, bind, get_mem. rewrite Hm.
  cbn [time_tags_0 time_tags_1 photon_time_tags_csv].
  rewrite tags_from_length, csv_rows_tags by lia.
  eexists. split; [reflexivity|]. done.
Qed.
End Seq2Facts.

(** C10.  In FullExperimentSequence13, a repetition, from any state, returns
    having appended one entry to [time_tags_0] and one to [time_tags_1]: what
    [timestamp_mu] gave for its window on [ttl0] and on [ttl1] (-1 when the
    window saw no edge).  A whole [run] from the state of [build] therefore
    returns with both lists of length [num_cycles * repetitions_per_cycle]
    = 500, entry [i] of each being the tag of repetition [i]; [write_to_csv]
    does not raise, and the file is the header followed by one row per
    repetition, row [i] being [i + 1] and the two tags of repetition [i]. *)
Theorem Seq2_one_tag_per_repetition E :
  let N := Seq2.num_cycles * Seq2.repetitions_per_cycle in
  (∀ reps cycle_idx rep_idx s, ∃ s',
      Seq2.repetition E reps cycle_idx rep_idx tt s = Ok (Next, tt) s' ∧
      Seq2.time_tags_0 (mem s') =
        Seq2.time_tags_0 (mem s) ++ [(gate_in E (length (attempts_seen s))).1] ∧
      Seq2.time_tags_1 (mem s') =
        Seq2.time_tags_1 (mem s) ++ [(gate_in E (length (attempts_seen s))).2]) ∧
  N = 500 ∧
  (∀ t acts, ∃ s',
      Seq2.run E (mkState t acts [] Seq2.build) = Ok tt s' ∧
      length (Seq2.time_tags_0 (mem s')) = N ∧
      length (Seq2.time_tags_1 (mem s')) = N ∧
      (∀ i, i < N →
         Seq2.time_tags_0 (mem s') !! i = Some (gate_in E i).1 ∧
         Seq2.time_tags_1 (mem s') !! i = Some (gate_in E i).2) ∧
      Seq2.photon_time_tags_csv (mem s') = Some (csv_header :: tag_rows E 0 N) ∧
      (∀ i, i < N →
         tag_rows E 0 N !! i =
           Some [Int (Z.of_nat i + 1); Int (gate_in E i).1; Int (gate_in E i).2])).
Proof.
  intros N. split_and!.
  - intros reps cycle_idx rep_idx s.
    destruct (repetition_appends E reps cycle_idx rep_idx s) as (s' & H & _ & Hm).
    exists s'. rewrite Hm. split; [exact H|]. split; reflexivity.
  - reflexivity.
  - intros t acts.
    destruct (run_with_tagged E Seq2.num_cycles Seq2.repetitions_per_cycle t acts)
      as (s' & H & Hm).
    exists s'. split; [exact H|].
    rewrite Hm. cbn [Seq2.time_tags_0 Seq2.time_tags_1 Seq2.photon_time_tags_csv].
    split; [apply tags_from_length|]. split; [apply tags_from_length|].
    split. { intros i Hi. rewrite !tags_from_lookup by exact Hi. split; reflexivity. }
    split; [reflexivity|].
    intros i Hi. unfold tag_rows.
    rewrite list_lookup_fmap, lookup_seq_lt by exact Hi. reflexivity.
Qed.

(** ** The detection-gated kernels never run out of slots *)

Section GatedCapacity.
Variable E : Env.
Variable cfg : Config.
Variable C : nat.
Import Gated.

(** All six arrays have [C] slots. *)
Definition sized (m : Memory) : Prop :=
  length (ttl0_detected_times m) = C ∧ length (ttl0_detected_attempts m) = C ∧
  length (ttl1_detected_times m) = C ∧ length (ttl1_detected_attempts m) = C ∧
  length (atom_tomo_times m) = C ∧ length (atom_tomo_attempts m) = C.

(** The counters after at most [b] detecting attempts: each detecting
    attempt adds one tomography record and a record on at least one
    channel, at most one on each. *)
Definition within (b : nat) (l : Locals) : Prop :=
  ttl0_detected_count l ≤ tomo_count l ∧ ttl1_detected_count l ≤ tomo_count l ∧
  tomo_count l ≤ ttl0_detected_count l + ttl1_detected_count l ∧
  tomo_count l ≤ b.

Lemma within_S b l : within b l → within (S b) l.
Proof. unfold within. lia. Qed.

Lemma recorded_length t a i v : length (recorded t a i v) = length a.
Proof. unfold recorded. case_decide; [apply length_insert|done]. Qed.

Lemma attempt_within rep b l (s : State Memory) :
  sized (mem s) → within b l → b < C →
  ∃ f l' s', attempt E rep l s = Ok (f, l') s' ∧ sized (mem s') ∧
    ((f = Next ∧ within b l' ∧
      photon_detected_this_cycle l' = photon_detected_this_cycle l) ∨
     (f = Break ∧ within (S b) l' ∧ photon_detected_this_cycle l' = true)).
Proof.
  intros Hsz Hw Hb.
  set (t0 := (gate_in E (length (attempts_seen s))).1).
  set (t1 := (gate_in E (length (attempts_seen s))).2).
  destruct (decide (detected t0 ∨ detected t1)) as [Hdet|Hno].
  - destruct Hsz as (S1 & S2 & S3 & S4 & S5 & S6). destruct Hw as (W1 & W2 & W3 & W4).
    eexists _, _, _. split.
    { apply attempt_detection; [exact Hdet|]. unfold has_room. lia. }
    split.
    { unfold sized. cbn [mem ttl0_detected_times ttl0_detected_attempts
        ttl1_detected_times ttl1_detected_attempts atom_tomo_times atom_tomo_attempts].
      rewrite !recorded_length, !length_insert. done. }
    right. split; [done|]. split; [|done].
    unfold within, counted. cbn [ttl0_detected_count ttl1_detected_count tomo_count].
    fold t0 t1. repeat case_decide; try lia. tauto.
  - assert (t0 = (-1)%Z) as H0.
    { destruct (decide (t0 = (-1)%Z)); [done|]. exfalso. apply Hno. by left. }
    assert (t1 = (-1)%Z) as H1.
    { destruct (decide (t1 = (-1)%Z)); [done|]. exfalso. apply Hno. by right. }
    eexists _, _, _. split; [by apply attempt_no_detection|].
    split; [done|]. left. split; [done|]. split; [|done].
    exact Hw.
Qed.

Lemma attempts_within b n : ∀ lo l (s : State Memory),
  sized (mem s) → within b l → b < C → photon_detected_this_cycle l = false →
  ∃ l' s', for_range_from lo n (attempt E) l s = Ok l' s' ∧ sized (mem s') ∧
    ((within b l' ∧ photon_detected_this_cycle l' = false) ∨
     (within (S b) l' ∧ photon_detected_this_cycle l' = true)).
Proof.
  induction n as [|n IH]; intros lo l s Hsz Hw Hb Hf.
  - exists l, s. rewrite for_range_from_0. auto.
  - destruct (attempt_within lo b l s Hsz Hw Hb)
      as (f & l1 & s1 & H1 & Hsz1 & [(-> & Hw1 & Hf1)|(-> & Hw1 & Hf1)]).
    + rewrite (for_range_from_next _ _ _ _ _ _ _ H1).
      apply IH; [done|done|done|congruence].
    + rewrite (for_range_from_break _ _ _ _ _ _ _ H1). eauto 10.
Qed.

Lemma cooling_cycle_within cycle_idx b l (s : State Memory) :
  sized (mem s) → within b l → b < C → photon_detected_this_cycle l = false →
  ∃ f l' s', cooling_cycle E cfg cycle_idx l s = Ok (f, l') s' ∧ sized (mem s') ∧
    ((f = Next ∧ within b l' ∧ photon_detected_this_cycle l' = false) ∨
     (f = Break ∧ within (S b) l')).
Proof.
  intros Hsz Hw Hb Hf. unfold cooling_cycle, for_range.
  destruct (attempts_within b (attempts_per_cooling cfg) 0 l s Hsz Hw Hb Hf)
    as (l1 & s1 & H1 & Hsz1 & [(Hw1 & Hf1)|(Hw1 & Hf1)]);
    rewrite (bind_ok _ _ _ _ _ H1); rewrite Hf1.
  - destruct (device_only_step (Mem:=Memory) cooling (λ _, ret (Next, l1)) s1)
      as (a & s2 & -> & _ & Hm2); [apply (emits_device_only _ _ cooling_emits)|].
    eexists _, _, _. split; [reflexivity|]. rewrite Hm2. auto.
  - eexists _, _, _. split; [reflexivity|]. auto.
Qed.

Lemma cooling_cycles_within b n : ∀ lo l (s : State Memory),
  sized (mem s) → within b l → b < C → photon_detected_this_cycle l = false →
  ∃ l' s', for_range_from lo n (cooling_cycle E cfg) l s = Ok l' s' ∧
           sized (mem s') ∧ within (S b) l'.
Proof.
  induction n as [|n IH]; intros lo l s Hsz Hw Hb Hf.
  - exists l, s. rewrite for_range_from_0. auto using within_S.
  - destruct (cooling_cycle_within lo b l s Hsz Hw Hb Hf)
      as (f & l1 & s1 & H1 & Hsz1 & [(-> & Hw1 & Hf1)|(-> & Hw1)]).
    + rewrite (for_range_from_next _ _ _ _ _ _ _ H1). by apply IH.
    + rewrite (for_range_from_break _ _ _ _ _ _ _ H1). eauto.
Qed.

Section WithLoad.
Variable load_phase : K Memory unit.
Hypothesis load_device : device_only load_phase.

Lemma big_cycle_within big_cycle_idx b l (s : State Memory) :
  sized (mem s) → within b l → b < C →
  ∃ l' s', big_cycle E cfg load_phase big_cycle_idx l s = Ok (Next, l') s' ∧
           sized (mem s') ∧ within (S b) l'.
Proof using load_device.
  intros Hsz Hw Hb. unfold big_cycle.
  match goal with
  | |- context [bind load_phase ?k ?s] =>
      destruct (device_only_step load_phase k s load_device) as (a & s1 & -> & _ & Hm1)
  end.
  cbn zeta. unfold for_range.
  edestruct (cooling_cycles_within b (num_cooling_cycles cfg) 0
               (mkLocals (attempt_index l) (ttl0_detected_count l)
                  (ttl1_detected_count l) (tomo_count l) false) s1)
    as (l2 & s2 & H2 & Hsz2 & Hw2); [by rewrite Hm1|exact Hw|exact Hb|done|].
  rewrite (bind_ok _ _ _ _ _ H2).
  eexists _, _. split; [reflexivity|]. by cbn [mem].
Qed.

Lemma big_cycles_within n : ∀ lo b l (s : State Memory),
  sized (mem s) → within b l → b + n ≤ C →
  ∃ l' s', for_range_from lo n (big_cycle E cfg load_phase) l s = Ok l' s' ∧
           sized (mem s') ∧ within (b + n) l'.
Proof using load_device.
  induction n as [|n IH]; intros lo b l s Hsz Hw Hb.
  - exists l, s. rewrite for_range_from_0, Nat.add_0_r. auto.
  - destruct (big_cycle_within lo b l s Hsz Hw) as (l1 & s1 & H1 & Hsz1 & Hw1); [lia|].
    rewrite (for_range_from_next _ _ _ _ _ _ _ H1).
    replace (b + S n) with (S b + n) by lia. apply IH; [done|done|lia].
Qed.

Lemma run_chunk_experiment_within chunk_idx (s : State Memory) :
  sized (mem s) → num_big_cycles_chunk cfg ≤ C →
  ∃ c0 c1 ct s', run_chunk_experiment E cfg load_phase chunk_idx s = Ok (c0, c1, ct) s' ∧
    sized (mem s') ∧ c0 ≤ ct ∧ c1 ≤ ct ∧ ct ≤ c0 + c1 ∧ ct ≤ num_big_cycles_chunk cfg.
Proof using load_device.
  intros Hsz HC. unfold run_chunk_experiment.
  do 5 device_step. cbn zeta. unfold for_range.
  edestruct (big_cycles_within (num_big_cycles_chunk cfg) 0 0 (mkLocals 0 0 0 0 false) s4)
    as (l' & s' & H' & Hsz' & W1 & W2 & W3 & W4).
  { congruence. } { unfold within. cbn. lia. } { lia. }
  rewrite (bind_ok _ _ _ _ _ H').
  eexists _, _, _, _. split; [reflexivity|]. split; [done|]. cbn in W4. lia.
Qed.
End WithLoad.
End GatedCapacity.

Lemma sized_alloc C : sized C (Gated.alloc C).
Proof. unfold sized, Gated.alloc, np_zeros. cbn. by rewrite !length_replicate. Qed.

Lemma Seq5_load_phase_device E : device_only (Seq5.load_phase E).
Proof. apply (emits_device_only _ _ (Seq5_load_phase_emits E)). Qed.

Lemma Seq6_load_phase_device E : device_only (Seq6.load_phase E).
Proof. apply (emits_device_only _ _ (Seq6_load_phase_emits E)). Qed.

Lemma Seq5_kernel_returns envs cfg k : returns (Seq5_kernel envs cfg k).
Proof.
  destruct (run_chunk_experiment_within (envs k) cfg (Gated.chunk_max cfg) _
              (Seq5_load_phase_device (envs k)) k (kernel_start (Gated.alloc (Gated.chunk_max cfg))))
    as (c0 & c1 & ct & s' & H & _); [apply sized_alloc|unfold Gated.chunk_max; lia|].
  by eexists _, _.
Qed.

Lemma Seq6_kernel_returns envs cfg k : returns (Seq6_kernel envs cfg k).
Proof.
  destruct (run_chunk_experiment_within (envs k) cfg (Gated.chunk_max cfg) _
              (Seq6_load_phase_device (envs k)) k (kernel_start (Gated.alloc (Gated.chunk_max cfg))))
    as (c0 & c1 & ct & s' & H & _); [apply sized_alloc|unfold Gated.chunk_max; lia|].
  by eexists _, _.
Qed.

(** X1.  In FullExperimentSequence16 and 17, on arrays of at least
    [num_big_cycles_chunk] slots the kernel of a chunk returns, whatever the
    detectors see: a big cycle stops at its first detecting attempt, which
    adds one tomography record and a record on each channel that detected.
    So the counts returned satisfy [ttl0_count ≤ tomo_count],
    [ttl1_count ≤ tomo_count ≤ ttl0_count + ttl1_count] and
    [tomo_count ≤ num_big_cycles_chunk], and no write is out of range. *)
Theorem Gated_counts_within_big_cycles E cfg C chunk_idx t acts seen :
  num_big_cycles_chunk cfg ≤ C →
  (∃ c0 c1 ct s',
     Seq5.run_chunk_experiment E cfg chunk_idx (mkState t acts seen (Gated.alloc C)) =
       Ok (c0, c1, ct) s' ∧
     c0 ≤ ct ∧ c1 ≤ ct ∧ ct ≤ c0 + c1 ∧ ct ≤ num_big_cycles_chunk cfg) ∧
  (∃ c0 c1 ct s',
     Seq6.run_chunk_experiment E cfg chunk_idx (mkState t acts seen (Gated.alloc C)) =
       Ok (c0, c1, ct) s' ∧
     c0 ≤ ct ∧ c1 ≤ ct ∧ ct ≤ c0 + c1 ∧ ct ≤ num_big_cycles_chunk cfg).
Proof.
  intros HC. split.
  - destruct (run_chunk_experiment_within E cfg C _ (Seq5_load_phase_device E) chunk_idx
                (mkState t acts seen (Gated.alloc C)) (sized_alloc C) HC)
      as (c0 & c1 & ct & s' & H & _ & Hc).
    by exists c0, c1, ct, s'.
  - destruct (run_chunk_experiment_within E cfg C _ (Seq6_load_phase_device E) chunk_idx
                (mkState t acts seen (Gated.alloc C)) (sized_alloc C) HC)
      as (c0 & c1 & ct & s' & H & _ & Hc).
    by exists c0, c1, ct, s'.
Qed.

Lemma Gated_counts_within_big_cycles_witness :
  let cfg := mkConfig 2 1 1 2 in
  (∃ c0 c1 ct s',
     Seq5.run_chunk_experiment both_at_once cfg 0 (mkState 0 [] [] (Gated.alloc 2)) =
       Ok (c0, c1, ct) s' ∧
     c0 ≤ ct ∧ c1 ≤ ct ∧ ct ≤ c0 + c1 ∧ ct ≤ num_big_cycles_chunk cfg) ∧
  (∃ c0 c1 ct s',
     Seq6.run_chunk_experiment both_at_once cfg 0 (mkState 0 [] [] (Gated.alloc 2)) =
       Ok (c0, c1, ct) s' ∧
     c0 ≤ ct ∧ c1 ≤ ct ∧ ct ≤ c0 + c1 ∧ ct ≤ num_big_cycles_chunk cfg).
Proof.
  intros cfg. apply (Gated_counts_within_big_cycles both_at_once cfg 2 0 0 [] []).
  vm_compute. lia.
Defined.

(** X2.  [run] of FullExperimentSequence16 always ends normally: with the
    arrays of [6 * num_big_cycles_chunk] slots it allocates no kernel raises,
    and when it ends the datasets of every chunk hold the first [count]
    entries of the arrays of that chunk. *)
Theorem Seq5_run_completes envs cfg h :
  ∃ h', Seq5.run envs cfg h = Done h' ∧
        ∀ k, k < num_chunks cfg → persisted (Seq5_kernel envs cfg k) k (Seq5.datasets h').
Proof.
  unfold Seq5.run.
  destruct (host_for_range_from_stops (Seq5.run_chunk envs cfg)
              (λ i, returns (Seq5_kernel envs cfg i)) (Seq5_persisted envs cfg)
              (Seq5_run_chunk_step envs cfg)
              (num_chunks cfg) 0 h) as (m & Hm & Hall & HP & Hend); [intros ??; lia|].
  destruct (host_for_range_from _ _ _ _) as [h'|e h'].
  - exists h'. split; [done|]. intros k Hk. apply HP. lia.
  - destruct Hend as [_ Hnot]. destruct Hnot. apply Seq5_kernel_returns.
Qed.

(** X3.  [run] of FullExperimentSequence17 always ends normally: no kernel
    raises and no group name is taken twice.  The calls made on the HDF5 file
    are then those of all [num_chunks] chunks in order and [close], with
    [num_chunks] calls of [flush], and the closed file holds one group per
    chunk, the group of chunk [k] holding the same six lists as the datasets
    of chunk [k]. *)
Theorem Seq6_run_completes envs cfg h :
  ∃ h', Seq6.run envs cfg h = Done h' ∧
        Seq6.h5file h' = calls (Seq6_used envs cfg) (num_chunks cfg) ++ [Close] ∧
        flushes (Seq6.h5file h') = num_chunks cfg ∧
        h5_disk (h5_replay (Seq6.h5file h')) = groups (Seq6_used envs cfg) (num_chunks cfg) ∧
        ∀ k, k < num_chunks cfg →
          published k (Seq6_used envs cfg k) (Seq6.datasets h') ∧
          h5_disk (h5_replay (Seq6.h5file h')) !! k =
            Some (chunk_group k (Seq6_used envs cfg k)).
Proof.
  destruct (Seq6_run_outcome envs cfg h) as (m & Hm & Hret & Hpers & Hfile & Hend).
  destruct (Seq6.run envs cfg h) as [h'|e h']; cbn [host_final] in *.
  - subst m. exists h'. split; [done|]. rewrite Hfile. split; [done|].
    assert (Hdisk : h5_disk (h5_replay (calls (Seq6_used envs cfg) (num_chunks cfg) ++ [Close])) =
                    groups (Seq6_used envs cfg) (num_chunks cfg)).
    { by rewrite h5_replay_app, h5_replay_calls. }
    split.
    { rewrite flushes_app, flushes_calls.
      assert (flushes [Close] = 0) as -> by reflexivity. lia. }
    split; [exact Hdisk|].
    intros k Hk. split.
    + destruct (Hpers k Hk) as (c0 & c1 & ct & s & Hkern & Hd).
      unfold published, Seq6_used. rewrite Hkern. exact Hd.
    + rewrite Hdisk. by apply groups_lookup.
  - destruct Hend as [_ Hnot]. destruct Hnot. apply Seq6_kernel_returns.
Qed.
